(** * EasyADSB flight logger: a shallow embedding of [logger/app.py]

    The development follows the layout of the source file: Python values
    and the few built-ins the logger calls, the SQLite connection
    discipline of the [sqlite3] module, the database functions
    ([save_aircraft], [cleanup_old_records]), the configuration
    persistence, and the API endpoints.

    Modelling conventions.
    - A decoded JSON document is a Python value: [pyval].  An aircraft
      record and a request body are [dict]s, here [gmap string pyval].
    - Text is a [string] of 8-bit characters; case mapping and white space
      are those of the ASCII range.
    - A Python exception is a value of [exn]; a call that can raise
      returns a [result].
    - A float is a [spec_float], read by its value.
    - The [positions] table is the list of its rows in rowid order.  The
      [id] column is not represented (no query reads it) and the values
      of a row are the values the statement binds.
    - Timestamps are stored as the texts CURRENT_TIMESTAMP writes and are
      compared as the store compares texts.  The store's clock and
      [datetime.now()] are read on one time line (no zone offset).
    - A write of one of the two documents goes through, or fails at the
      open (the file is as it was), or fails after the open has truncated
      the file (no document is left): [write].
    - Each endpoint and each poller step runs atomically on [state]. *)

From Stdlib Require Import ZArith String Ascii List Bool Lia SpecFloat.
From Stdlib Require Import Sorting.Sorted Sorting.Permutation.
From stdpp Require Import gmap strings.

Local Open Scope string_scope.
Local Open Scope Z_scope.

#[local] Set Warnings "-register-all".

(** ** Python values *)

Inductive exn : Type :=
  | AttributeError
  | TypeError
  | ValueError
  | OverflowError
  | InterfaceError
  | IntegrityError
  | OperationalError.

Inductive result (A : Type) : Type :=
  | Ok (a : A)
  | Raise (e : exn).

Arguments Ok {A} a.
Arguments Raise {A} e.

Definition result_bind {A B : Type} (r : result A) (k : A -> result B) : result B :=
  match r with
  | Ok a => k a
  | Raise e => Raise e
  end.

Notation "'do' x <- r ; k" := (result_bind r (fun x => k))
  (at level 10, x name, r at level 100, k at level 200).

Inductive pyval : Type :=
  | PNone
  | PBool (b : bool)
  | PInt (n : Z)
  | PFloat (f : spec_float)
  | PStr (s : string)
  | PList (l : list pyval)
  | PDict (l : list (string * pyval)).

Abbreviation dict := (gmap string pyval).

(** [d.get(k)]: the value, or [None] when the key is missing. *)
Definition py_get (d : dict) (k : string) : pyval :=
  match d !! k with
  | Some v => v
  | None => PNone
  end.

(** [d.get(k, default)]. *)
Definition py_get_default (d : dict) (k : string) (default : pyval) : pyval :=
  match d !! k with
  | Some v => v
  | None => default
  end.

(** [k in d]. *)
Definition py_in (k : string) (d : dict) : bool :=
  match d !! k with
  | Some _ => true
  | None => false
  end.

(** Truth value of an object, as [if], [or] and [not] test it. *)
Definition py_truthy (v : pyval) : bool :=
  match v with
  | PNone => false
  | PBool b => b
  | PInt n => negb (n =? 0)
  | PFloat (S754_zero _) => false
  | PFloat _ => true
  | PStr s => negb (String.eqb s "")
  | PList l => match l with [] => false | _ => true end
  | PDict l => match l with [] => false | _ => true end
  end.

(** [a or b]. *)
Definition py_or (a b : pyval) : pyval :=
  if py_truthy a then a else b.

(** *** Strings *)

Definition upper_char (c : ascii) : ascii :=
  let n := N_of_ascii c in
  if ((97 <=? n) && (n <=? 122))%N then ascii_of_N (n - 32) else c.

Fixpoint upper (s : string) : string :=
  match s with
  | EmptyString => EmptyString
  | String c s' => String (upper_char c) (upper s')
  end.

(** [str.isspace] on one character of the ASCII range. *)
Definition py_isspace (c : ascii) : bool :=
  let n := N_of_ascii c in
  (((9 <=? n) && (n <=? 13)) || ((28 <=? n) && (n <=? 32)))%N.

Fixpoint lstrip (s : string) : string :=
  match s with
  | EmptyString => EmptyString
  | String c s' => if py_isspace c then lstrip s' else s
  end.

Fixpoint rstrip (s : string) : string :=
  match s with
  | EmptyString => EmptyString
  | String c s' =>
      match rstrip s' with
      | EmptyString => if py_isspace c then EmptyString else String c EmptyString
      | t => String c t
      end
  end.

Definition strip (s : string) : string := rstrip (lstrip s).

(** [v.upper()]: only [str] has the method. *)
Definition py_upper (v : pyval) : result pyval :=
  match v with
  | PStr s => Ok (PStr (upper s))
  | _ => Raise AttributeError
  end.

(** [v.strip()]. *)
Definition py_strip (v : pyval) : result pyval :=
  match v with
  | PStr s => Ok (PStr (strip s))
  | _ => Raise AttributeError
  end.

(** ** The positions table *)

Inductive sqlval : Type :=
  | SNull
  | SInt (n : Z)
  | SReal (f : spec_float)
  | SText (s : string).

Record row : Type := mkRow {
  timestamp : string;
  icao : sqlval;
  callsign : sqlval;
  lat : sqlval;
  lon : sqlval;
  altitude : sqlval;
  speed : sqlval;
  track : sqlval;
  vert_rate : sqlval;
  squawk : sqlval;
  category : sqlval;
  aircraft_type : sqlval;
  rssi : sqlval
}.

(** Binding of one statement parameter by the [sqlite3] module: [None],
    [int] (and [bool], its subclass), [float] and [str] are supported; an
    [int] outside 64 bits overflows; a NaN is stored as NULL; any other
    type is refused. *)
Definition bind_param (v : pyval) : result sqlval :=
  match v with
  | PNone => Ok SNull
  | PBool b => Ok (SInt (if b then 1 else 0))
  | PInt n =>
      if (- 2 ^ 63 <=? n) && (n <? 2 ^ 63) then Ok (SInt n) else Raise OverflowError
  | PFloat S754_nan => Ok SNull
  | PFloat f => Ok (SReal f)
  | PStr s => Ok (SText s)
  | PList _ => Raise InterfaceError
  | PDict _ => Raise InterfaceError
  end.

(** *** Connections

    [sqlite3.connect] with the default isolation level: a transaction is
    opened implicitly before an INSERT or a DELETE and stays open until
    [commit]; VACUUM is refused inside a transaction; closing (or dropping)
    a connection rolls an open transaction back. *)
Record conn : Type := mkConn {
  committed : list row;
  pending : list row;
  in_transaction : bool
}.

Definition connect (table : list row) : conn :=
  {| committed := table; pending := table; in_transaction := false |}.

(** INSERT INTO positions (icao, ..., rssi) VALUES (?, ..., ?): the
    timestamp column takes its default, CURRENT_TIMESTAMP, and [icao] is
    declared NOT NULL. *)
Definition execute_insert (c : conn) (r : row) : result conn :=
  match icao r with
  | SNull => Raise IntegrityError
  | _ => Ok {| committed := committed c;
               pending := pending c ++ [r];
               in_transaction := true |}
  end.

(** DELETE FROM positions [WHERE p]. *)
Definition execute_delete (c : conn) (p : row -> bool) : conn :=
  {| committed := committed c;
     pending := List.filter (fun r => negb (p r)) (pending c);
     in_transaction := true |}.

(** VACUUM. *)
Definition execute_vacuum (c : conn) : result conn :=
  if in_transaction c then Raise OperationalError else Ok c.

Definition commit (c : conn) : conn :=
  {| committed := pending c; pending := pending c; in_transaction := false |}.

(** The table left on disk once the connection is gone. *)
Definition close (c : conn) : list row := committed c.

(** ** Process state *)

Record config_doc : Type := mkConfig {
  cfg_interval : Z;
  cfg_retention_days : Z;
  cfg_paused : bool
}.

(** What becomes of a write to one of the two documents
    ([with open(path, 'w') as f: json.dump(..., f)]): the text is
    written; or the open fails and the file stays as it was; or the open
    has truncated the file and the dump, or the flush that ends it,
    fails, which leaves a cut text that does not parse. *)
Inductive write : Type := Written | OpenFails | DumpFails.

(** [config_file] and [user_config_file] are the documents the two files
    hold, [None] when the file is missing or its text does not parse. *)
Record state : Type := mkState {
  positions : list row;
  total_logged : Z;
  LOG_INTERVAL : Z;
  LOG_RETENTION_DAYS : Z;
  logger_paused : bool;
  config_file : option config_doc;
  user_config_file : option dict
}.

Definition set_positions (st : state) (t : list row) : state :=
  {| positions := t;
     total_logged := total_logged st;
     LOG_INTERVAL := LOG_INTERVAL st;
     LOG_RETENTION_DAYS := LOG_RETENTION_DAYS st;
     logger_paused := logger_paused st;
     config_file := config_file st;
     user_config_file := user_config_file st |}.

Definition set_total_logged (st : state) (n : Z) : state :=
  {| positions := positions st;
     total_logged := n;
     LOG_INTERVAL := LOG_INTERVAL st;
     LOG_RETENTION_DAYS := LOG_RETENTION_DAYS st;
     logger_paused := logger_paused st;
     config_file := config_file st;
     user_config_file := user_config_file st |}.

Definition get_db (st : state) : conn := connect (positions st).

(** ** save_aircraft *)

(** The test that guards the [continue]. *)
Definition has_position (ac : dict) : bool :=
  py_in "lat" ac && py_in "lon" ac.

(** The parameter tuple of the INSERT, evaluated left to right, then
    bound. *)
Definition insert_row (ts : string) (ac : dict) : result row :=
  do v_icao <- py_upper (py_get_default ac "hex" (PStr ""));
  do v_callsign <- (if py_truthy (py_get ac "flight")
                    then py_strip (py_get_default ac "flight" (PStr ""))
                    else Ok PNone);
  let v_altitude := py_or (py_get ac "alt_baro") (py_get ac "alt_geom") in
  let v_vert_rate := py_or (py_get ac "baro_rate") (py_get ac "geom_rate") in
  do s_icao <- bind_param v_icao;
  do s_callsign <- bind_param v_callsign;
  do s_lat <- bind_param (py_get ac "lat");
  do s_lon <- bind_param (py_get ac "lon");
  do s_altitude <- bind_param v_altitude;
  do s_speed <- bind_param (py_get ac "gs");
  do s_track <- bind_param (py_get ac "track");
  do s_vert_rate <- bind_param v_vert_rate;
  do s_squawk <- bind_param (py_get ac "squawk");
  do s_category <- bind_param (py_get ac "category");
  do s_type <- bind_param (py_get ac "t");
  do s_rssi <- bind_param (py_get ac "rssi");
  Ok {| timestamp := ts; icao := s_icao; callsign := s_callsign;
        lat := s_lat; lon := s_lon; altitude := s_altitude;
        speed := s_speed; track := s_track; vert_rate := s_vert_rate;
        squawk := s_squawk; category := s_category;
        aircraft_type := s_type; rssi := s_rssi |}.

(** The [for] loop.  [clock i] is the store's CURRENT_TIMESTAMP when the
    statement of the [i]-th record of the list runs. *)
Fixpoint save_loop (clock : nat -> string) (i : nat) (l : list dict)
    (c : conn) (count : Z) : conn * result Z :=
  match l with
  | [] => (c, Ok count)
  | ac :: l' =>
      if has_position ac then
        match insert_row (clock i) ac with
        | Raise e => (c, Raise e)
        | Ok r =>
            match execute_insert c r with
            | Raise e => (c, Raise e)
            | Ok c' => save_loop clock (S i) l' c' (count + 1)
            end
        end
      else save_loop clock (S i) l' c count
  end.

Definition save_aircraft (clock : nat -> string) (aircraft_list : list dict)
    (st : state) : state * result Z :=
  match aircraft_list with
  | [] => (st, Ok 0)
  | _ =>
      match save_loop clock 0 aircraft_list (get_db st) 0 with
      | (c, Ok count) =>
          let st' := set_positions st (close (commit c)) in
          (set_total_logged st' (total_logged st' + count), Ok count)
      | (c, Raise e) => (set_positions st (close c), Raise e)
      end
  end.

(** ** Dates and times

    [datetime] objects are naive, as [datetime.now()] returns them; the
    fields of an object are always those of a real date and time of day
    ([valid_datetime]). *)

Record datetime : Type := mkDatetime {
  year : Z;
  month : Z;
  day : Z;
  hour : Z;
  minute : Z;
  second : Z;
  microsecond : Z
}.

Definition MAXORDINAL : Z := 3652059.

Definition is_leap (y : Z) : bool :=
  (y mod 4 =? 0) && (negb (y mod 100 =? 0) || (y mod 400 =? 0)).

Definition days_in_month (y m : Z) : Z :=
  if m =? 2 then (if is_leap y then 29 else 28)
  else if (m =? 4) || (m =? 6) || (m =? 9) || (m =? 11) then 30
  else 31.

Definition days_before_month_table (m : Z) : Z :=
  nth (Z.to_nat m) [0; 0; 31; 59; 90; 120; 151; 181; 212; 243; 273; 304; 334] 0.

Definition days_before_month (y m : Z) : Z :=
  days_before_month_table m + (if (2 <? m) && is_leap y then 1 else 0).

Definition days_before_year (y : Z) : Z :=
  let y' := y - 1 in y' * 365 + y' / 4 - y' / 100 + y' / 400.

Definition ymd2ord (y m d : Z) : Z :=
  days_before_year y + days_before_month y m + d.

Definition ord2ymd (n0 : Z) : Z * Z * Z :=
  let n := n0 - 1 in
  let n400 := n / 146097 in
  let n := n mod 146097 in
  let n100 := n / 36524 in
  let n := n mod 36524 in
  let n4 := n / 1461 in
  let n := n mod 1461 in
  let n1 := n / 365 in
  let n := n mod 365 in
  let y := n400 * 400 + 1 + n100 * 100 + n4 * 4 + n1 in
  if (n1 =? 4) || (n100 =? 4) then (y - 1, 12, 31)
  else
    let leapyear := (n1 =? 3) && (negb (n4 =? 24) || (n100 =? 3)) in
    let m := Z.shiftr (n + 50) 5 in
    let preceding :=
      days_before_month_table m + (if (2 <? m) && leapyear then 1 else 0) in
    if n <? preceding then
      let m' := m - 1 in
      let dim := (if m' =? 2 then 28
                  else if (m' =? 4) || (m' =? 6) || (m' =? 9) || (m' =? 11) then 30
                  else 31)
                 + (if (m' =? 2) && leapyear then 1 else 0) in
      (y, m', n - (preceding - dim) + 1)
    else (y, m, n - preceding + 1).

Definition valid_datetime (t : datetime) : bool :=
  (1 <=? year t) && (year t <=? 9999) &&
  (1 <=? month t) && (month t <=? 12) &&
  (1 <=? day t) && (day t <=? days_in_month (year t) (month t)) &&
  (0 <=? hour t) && (hour t <? 24) &&
  (0 <=? minute t) && (minute t <? 60) &&
  (0 <=? second t) && (second t <? 60) &&
  (0 <=? microsecond t) && (microsecond t <? 1000000).

(** [t - timedelta(days=d, seconds=s)].  The [timedelta] constructor and
    the subtraction raise [OverflowError] out of range; the constructor of
    the result checks its fields. *)
Definition datetime_sub (t : datetime) (d s : Z) : result datetime :=
  if 999999999 <? Z.abs d then Raise OverflowError
  else
    let total := hour t * 3600 + minute t * 60 + second t - s in
    let days := ymd2ord (year t) (month t) (day t) - d + total / 86400 in
    let secs := total mod 86400 in
    if (0 <? days) && (days <=? MAXORDINAL) then
      let '(y, m, dd) := ord2ymd days in
      let r := {| year := y; month := m; day := dd;
                  hour := secs / 3600; minute := secs mod 3600 / 60;
                  second := secs mod 60; microsecond := microsecond t |} in
      if valid_datetime r then Ok r else Raise ValueError
    else Raise OverflowError.

(** Order of two naive [datetime]s: the order of their field tuples. *)
Definition datetime_compare (a b : datetime) : comparison :=
  match year a ?= year b with
  | Eq =>
    match month a ?= month b with
    | Eq =>
      match day a ?= day b with
      | Eq =>
        match hour a ?= hour b with
        | Eq =>
          match minute a ?= minute b with
          | Eq =>
            match second a ?= second b with
            | Eq => microsecond a ?= microsecond b
            | c => c
            end
          | c => c
          end
        | c => c
        end
      | c => c
      end
    | c => c
    end
  | c => c
  end.

Definition datetime_ltb (a b : datetime) : bool :=
  match datetime_compare a b with Lt => true | _ => false end.

Definition datetime_leb (a b : datetime) : bool :=
  match datetime_compare a b with Gt => false | _ => true end.

(** *** Text forms *)

Definition digit_char (n : Z) : ascii := ascii_of_N (48 + Z.to_N n).

(** [n] written on [w] decimal digits, zero padded ("%0wd" for a field
    within its range). *)
Fixpoint pad (w : nat) (n : Z) : string :=
  match w with
  | O => EmptyString
  | S w' => pad w' (n / 10) ++ String (digit_char (n mod 10)) EmptyString
  end.

Definition format_date (t : datetime) : string :=
  pad 4 (year t) ++ "-" ++ pad 2 (month t) ++ "-" ++ pad 2 (day t).

Definition format_time (t : datetime) : string :=
  pad 2 (hour t) ++ ":" ++ pad 2 (minute t) ++ ":" ++ pad 2 (second t).

(** [t.isoformat(sep)]: the fraction is printed only when it is not zero. *)
Definition isoformat (sep : ascii) (t : datetime) : string :=
  format_date t ++ String sep (format_time t) ++
  (if microsecond t =? 0 then "" else "." ++ pad 6 (microsecond t)).

(** The [sqlite3] module binds a [datetime] parameter as
    [t.isoformat(" ")]. *)
Definition adapt_datetime (t : datetime) : string := isoformat " " t.

(** SQLite's CURRENT_TIMESTAMP at instant [t], "YYYY-MM-DD HH:MM:SS". *)
Definition current_timestamp (t : datetime) : string :=
  format_date t ++ " " ++ format_time t.

(** ** Comparisons and ordering in the store *)

Definition is_digit (c : ascii) : bool :=
  let n := N_of_ascii c in ((48 <=? n) && (n <=? 57))%N.

Definition sqlite_isspace (c : ascii) : bool :=
  let n := N_of_ascii c in ((n =? 32) || ((9 <=? n) && (n <=? 13)))%N.

Fixpoint skip_spaces (s : string) : string :=
  match s with
  | EmptyString => EmptyString
  | String c s' => if sqlite_isspace c then skip_spaces s' else s
  end.

Fixpoint skip_digits (s : string) : string :=
  match s with
  | EmptyString => EmptyString
  | String c s' => if is_digit c then skip_digits s' else s
  end.

Definition starts_with_digit (s : string) : bool :=
  match s with
  | EmptyString => false
  | String c _ => is_digit c
  end.

Definition skip_sign (s : string) : string :=
  match s with
  | EmptyString => EmptyString
  | String c s' =>
      if (Ascii.eqb c "+" || Ascii.eqb c "-")%char then s' else s
  end.

(** Does a text read as a number in full: spaces, a sign, digits with an
    optional fraction (one digit at least), an optional exponent with its
    digits, spaces.  On such a text the NUMERIC affinity of a column
    converts the other operand of a comparison. *)
Definition numeric_literal (s : string) : bool :=
  let s1 := skip_sign (skip_spaces s) in
  let s2 := skip_digits s1 in
  let '(s3, has_frac) :=
    match s2 with
    | String c r =>
        if Ascii.eqb c "." then (skip_digits r, starts_with_digit r) else (s2, false)
    | EmptyString => (s2, false)
    end in
  if negb (starts_with_digit s1 || has_frac) then false
  else
    let after_exponent :=
      match s3 with
      | String c r =>
          if (Ascii.eqb c "e" || Ascii.eqb c "E")%char then
            let r1 := skip_sign r in
            if starts_with_digit r1 then Some (skip_digits r1) else None
          else Some s3
      | EmptyString => Some s3
      end in
    match after_exponent with
    | None => false
    | Some s5 => String.eqb (skip_spaces s5) ""
    end.

(** [timestamp <op> ?] with a text parameter.  The column is declared
    DATETIME, so its affinity is NUMERIC: a parameter that reads as a
    number is compared as a number, and a number sorts before every text;
    otherwise both sides are texts and are compared byte by byte. *)
Definition timestamp_compare (ts param : string) : comparison :=
  if numeric_literal param then Gt else String.compare ts param.

Definition timestamp_lt (ts param : string) : bool :=
  match timestamp_compare ts param with Lt => true | _ => false end.

Definition timestamp_ge (ts param : string) : bool :=
  negb (timestamp_lt ts param).

Definition timestamp_le (ts param : string) : bool :=
  match timestamp_compare ts param with Gt => false | _ => true end.

Definition float_exponent (f : spec_float) : Z :=
  match f with
  | S754_finite _ _ e => e
  | _ => 0
  end.

(** The value of a finite float in units of [2 ^ e0]. *)
Definition float_scaled (f : spec_float) (e0 : Z) : Z :=
  match f with
  | S754_finite s m e => (if s then - Zpos m else Zpos m) * 2 ^ (e - e0)
  | _ => 0
  end.

(** Order of two floats by value (a NaN is never stored). *)
Definition float_compare (f g : spec_float) : comparison :=
  match f, g with
  | S754_nan, _ => Eq
  | _, S754_nan => Eq
  | S754_infinity s1, S754_infinity s2 =>
      if s1 then (if s2 then Eq else Lt) else (if s2 then Gt else Eq)
  | S754_infinity s, _ => if s then Lt else Gt
  | _, S754_infinity s => if s then Gt else Lt
  | _, _ =>
      let e0 := Z.min (float_exponent f) (float_exponent g) in
      float_scaled f e0 ?= float_scaled g e0
  end.

Definition float_of_Z (n : Z) : spec_float :=
  match n with
  | Z0 => S754_zero false
  | Zpos p => S754_finite false p 0
  | Zneg p => S754_finite true p 0
  end.

(** Order of stored values: NULL, then numbers by value, then texts. *)
Definition sql_compare (a b : sqlval) : comparison :=
  match a, b with
  | SNull, SNull => Eq
  | SNull, _ => Lt
  | _, SNull => Gt
  | SInt x, SInt y => x ?= y
  | SInt x, SReal g => float_compare (float_of_Z x) g
  | SReal f, SInt y => float_compare f (float_of_Z y)
  | SReal f, SReal g => float_compare f g
  | SText s, SText t => String.compare s t
  | SText _, _ => Gt
  | _, SText _ => Lt
  end.

Definition sql_eqb (a b : sqlval) : bool :=
  match sql_compare a b with Eq => true | _ => false end.

(** [icao = ?] with a text parameter. *)
Definition icao_is (r : row) (param : string) : bool :=
  match icao r with
  | SText s => String.eqb s param
  | _ => false
  end.

(** MAX(column): NULLs are skipped; NULL when nothing is left. *)
Definition sql_max (l : list sqlval) : sqlval :=
  fold_left
    (fun acc v =>
       match v, acc with
       | SNull, _ => acc
       | _, SNull => v
       | _, _ => match sql_compare acc v with Lt => v | _ => acc end
       end)
    l SNull.

Definition max_text (l : list string) : string :=
  fold_left (fun acc s => if String.ltb acc s then s else acc) l "".

(** ORDER BY: a stable insertion sort on the rows in rowid order. *)
Fixpoint insert_by {A : Type} (le : A -> A -> bool) (x : A) (l : list A) : list A :=
  match l with
  | [] => [x]
  | y :: l' => if le x y then x :: l else y :: insert_by le x l'
  end.

Definition order_by {A : Type} (le : A -> A -> bool) (l : list A) : list A :=
  fold_right (insert_by le) [] l.

Definition by_timestamp (a b : row) : bool :=
  String.leb (timestamp a) (timestamp b).

(** ** cleanup_old_records *)

Definition older_than (cutoff : string) (r : row) : bool :=
  timestamp_lt (timestamp r) cutoff.

(** [now] is the reading of [datetime.now()]. *)
Definition cleanup_old_records (now : datetime) (st : state) : state * result Z :=
  if LOG_RETENTION_DAYS st <=? 0 then (st, Ok 0)
  else
    match datetime_sub now (LOG_RETENTION_DAYS st) 0 with
    | Raise e => (st, Raise e)
    | Ok cutoff =>
        let param := adapt_datetime cutoff in
        let c := get_db st in
        let count := Z.of_nat (length (List.filter (older_than param) (pending c))) in
        if 0 <? count then
          let c1 := commit (execute_delete c (older_than param)) in
          match execute_vacuum c1 with
          | Raise e => (set_positions st (close c1), Raise e)
          | Ok c2 => (set_positions st (close c2), Ok count)
          end
        else (set_positions st (close c), Ok count)
    end.

(** ** Config persistence *)

Definition set_config_file (st : state) (f : option config_doc) : state :=
  {| positions := positions st;
     total_logged := total_logged st;
     LOG_INTERVAL := LOG_INTERVAL st;
     LOG_RETENTION_DAYS := LOG_RETENTION_DAYS st;
     logger_paused := logger_paused st;
     config_file := f;
     user_config_file := user_config_file st |}.

Definition set_user_config_file (st : state) (f : option dict) : state :=
  {| positions := positions st;
     total_logged := total_logged st;
     LOG_INTERVAL := LOG_INTERVAL st;
     LOG_RETENTION_DAYS := LOG_RETENTION_DAYS st;
     logger_paused := logger_paused st;
     config_file := config_file st;
     user_config_file := f |}.

Definition set_interval (st : state) (n : Z) : state :=
  {| positions := positions st;
     total_logged := total_logged st;
     LOG_INTERVAL := n;
     LOG_RETENTION_DAYS := LOG_RETENTION_DAYS st;
     logger_paused := logger_paused st;
     config_file := config_file st;
     user_config_file := user_config_file st |}.

Definition set_retention_days (st : state) (n : Z) : state :=
  {| positions := positions st;
     total_logged := total_logged st;
     LOG_INTERVAL := LOG_INTERVAL st;
     LOG_RETENTION_DAYS := n;
     logger_paused := logger_paused st;
     config_file := config_file st;
     user_config_file := user_config_file st |}.

(** [disk] is what becomes of the write.  A failure is caught and
    logged; nothing is returned either way. *)
Definition save_config (disk : write) (st : state) : state :=
  match disk with
  | Written =>
      set_config_file st
        (Some {| cfg_interval := LOG_INTERVAL st;
                 cfg_retention_days := LOG_RETENTION_DAYS st;
                 cfg_paused := logger_paused st |})
  | OpenFails => st
  | DumpFails => set_config_file st None
  end.

(** A missing or unreadable document reads as the empty dict. *)
Definition load_user_config (st : state) : dict :=
  match user_config_file st with
  | Some d => d
  | None => ∅
  end.

Definition save_user_config (disk : write) (config : dict) (st : state)
    : state * bool :=
  match disk with
  | Written => (set_user_config_file st (Some config), true)
  | OpenFails => (st, false)
  | DumpFails => (set_user_config_file st None, false)
  end.

(** ** int() *)

Definition digit_value (c : ascii) : Z := Z.of_N (N_of_ascii c) - 48.

(** Decimal digits, single underscores allowed between two digits. *)
Fixpoint parse_digits (s : string) (acc : Z) (after_digit : bool) : result Z :=
  match s with
  | EmptyString => if after_digit then Ok acc else Raise ValueError
  | String c s' =>
      if is_digit c then parse_digits s' (10 * acc + digit_value c) true
      else if Ascii.eqb c "_" && after_digit then parse_digits s' acc false
      else Raise ValueError
  end.

Definition int_of_str (s : string) : result Z :=
  match strip s with
  | String c s' =>
      if Ascii.eqb c "-" then do n <- parse_digits s' 0 false; Ok (- n)
      else if Ascii.eqb c "+" then parse_digits s' 0 false
      else parse_digits (String c s') 0 false
  | EmptyString => Raise ValueError
  end.

(** Truncation of a float towards zero. *)
Definition int_of_float (f : spec_float) : result Z :=
  match f with
  | S754_zero _ => Ok 0
  | S754_infinity _ => Raise OverflowError
  | S754_nan => Raise ValueError
  | S754_finite s m e =>
      let a := if 0 <=? e then Zpos m * 2 ^ e else Zpos m / 2 ^ (- e) in
      Ok (if s then - a else a)
  end.

Definition py_int (v : pyval) : result Z :=
  match v with
  | PInt n => Ok n
  | PBool b => Ok (if b then 1 else 0)
  | PFloat f => int_of_float f
  | PStr s => int_of_str s
  | PNone => Raise TypeError
  | PList _ => Raise TypeError
  | PDict _ => Raise TypeError
  end.

(** ** API endpoints

    An endpoint returns the new state and its reply; [Raise] is an
    exception that leaves the handler (answered with a 500 by the
    framework, the process goes on). *)

Record settings_view : Type := mkSettingsView {
  sv_interval : Z;
  sv_retention_days : Z;
  sv_paused : bool
}.

Record settings_reply : Type := mkSettingsReply {
  sr_status : Z;
  sr_success : bool;
  sr_interval : Z;
  sr_retention_days : Z
}.

(** GET /api/settings *)
Definition api_settings_get (st : state) : settings_view :=
  {| sv_interval := LOG_INTERVAL st;
     sv_retention_days := LOG_RETENTION_DAYS st;
     sv_paused := logger_paused st |}.

Definition update_interval (data : dict) (st : state) : result state :=
  match data !! "interval" with
  | Some v =>
      do new_interval <- py_int v;
      Ok (if (5 <=? new_interval) && (new_interval <=? 60)
          then set_interval st new_interval else st)
  | None => Ok st
  end.

Definition update_retention (data : dict) (st : state) : result state :=
  match data !! "retention_days" with
  | Some v =>
      do new_retention <- py_int v;
      Ok (if 0 <=? new_retention then set_retention_days st new_retention else st)
  | None => Ok st
  end.

(** POST /api/settings with the JSON object [data]. *)
Definition api_settings_post (disk : write) (data : dict) (st : state)
    : state * result settings_reply :=
  match update_interval data st with
  | Raise e => (st, Raise e)
  | Ok st1 =>
      match update_retention data st1 with
      | Raise e => (st1, Raise e)
      | Ok st2 =>
          let st3 := save_config disk st2 in
          (st3, Ok {| sr_status := 200; sr_success := true;
                      sr_interval := LOG_INTERVAL st3;
                      sr_retention_days := LOG_RETENTION_DAYS st3 |})
      end
  end.

Record userconfig_reply : Type := mkUserconfigReply {
  ur_status : Z;
  ur_success : bool;
  ur_config : option dict;
  ur_error : option string
}.

(** GET /api/userconfig *)
Definition api_userconfig_get (st : state) : dict := load_user_config st.

(** POST /api/userconfig with the JSON object [data]. *)
Definition api_userconfig_post (disk : write) (data : dict) (st : state)
    : state * userconfig_reply :=
  if decide (data = ∅) then
    (st, {| ur_status := 400; ur_success := false; ur_config := None;
            ur_error := Some "No data provided" |})
  else
    let config := data ∪ load_user_config st in
    match save_user_config disk config st with
    | (st', true) =>
        (st', {| ur_status := 200; ur_success := true; ur_config := Some config;
                 ur_error := None |})
    | (st', false) =>
        (st', {| ur_status := 500; ur_success := false; ur_config := None;
                 ur_error := Some "Could not save config" |})
    end.

(** POST /api/clear *)
Definition api_clear (st : state) : state * result bool :=
  let c := execute_delete (get_db st) (fun _ => true) in
  match execute_vacuum c with
  | Raise e => (set_positions st (close c), Raise e)
  | Ok c1 =>
      let st' := set_positions st (close (commit c1)) in
      (set_total_logged st' 0, Ok true)
  end.

Record trace_point : Type := mkTracePoint {
  tp_timestamp : string;
  tp_lat : sqlval;
  tp_lon : sqlval;
  tp_altitude : sqlval;
  tp_speed : sqlval;
  tp_track : sqlval
}.

Record trace_reply : Type := mkTraceReply {
  tr_icao : string;
  tr_positions : Z;
  tr_trace : list trace_point
}.

Definition trace_point_of (r : row) : trace_point :=
  {| tp_timestamp := timestamp r; tp_lat := lat r; tp_lon := lon r;
     tp_altitude := altitude r; tp_speed := speed r; tp_track := track r |}.

(** [if arg:] on a query argument: given and not empty. *)
Definition given (arg : option string) : option string :=
  match arg with
  | Some s => if String.eqb s "" then None else Some s
  | None => None
  end.

Definition trace_where (param : string) (start_time end_time : option string)
    (r : row) : bool :=
  icao_is r param
  && match given start_time with
     | Some s => timestamp_ge (timestamp r) s
     | None => true
     end
  && match given end_time with
     | Some e => timestamp_le (timestamp r) e
     | None => true
     end.

Definition trace_rows (icao_arg : string) (start_time end_time : option string)
    (st : state) : list row :=
  order_by by_timestamp
    (List.filter (trace_where (upper icao_arg) start_time end_time) (positions st)).

(** GET /api/trace/<icao>?start=..&end=.. *)
Definition api_trace (icao_arg : string) (start_time end_time : option string)
    (st : state) : trace_reply :=
  let trace := List.map trace_point_of (trace_rows icao_arg start_time end_time st) in
  {| tr_icao := upper icao_arg;
     tr_positions := Z.of_nat (length trace);
     tr_trace := trace |}.

(** One aircraft of /api/recent.  The callsign, a bare column of the
    grouped query, is left out: the store does not fix the row it is
    taken from. *)
Record recent_entry : Type := mkRecentEntry {
  re_icao : sqlval;
  re_lat : sqlval;
  re_lon : sqlval;
  re_altitude : sqlval;
  re_last_seen : string;
  re_positions : Z
}.

Fixpoint distinct (keys : list sqlval) : list sqlval :=
  match keys with
  | [] => []
  | k :: ks => k :: List.filter (fun k' => negb (sql_eqb k' k)) (distinct ks)
  end.

Definition recent_group (rows : list row) (k : sqlval) : recent_entry :=
  let g := List.filter (fun r => sql_eqb (icao r) k) rows in
  {| re_icao := k;
     re_lat := sql_max (List.map lat g);
     re_lon := sql_max (List.map lon g);
     re_altitude := sql_max (List.map altitude g);
     re_last_seen := max_text (List.map timestamp g);
     re_positions := Z.of_nat (length g) |}.

Definition by_last_seen_desc (a b : recent_entry) : bool :=
  String.leb (re_last_seen b) (re_last_seen a).

(** GET /api/recent; [now] is the reading of [datetime.now()]. *)
Definition api_recent (now : datetime) (st : state) : result (list recent_entry) :=
  do cutoff <- datetime_sub now 0 3600;
  let one_hour_ago := isoformat "T" cutoff in
  let rows := List.filter (fun r => timestamp_ge (timestamp r) one_hour_ago)
                (positions st) in
  Ok (firstn 50
        (order_by by_last_seen_desc
           (List.map (recent_group rows) (distinct (List.map icao rows))))).

(** ** States the process can be in

    The table starts empty; every step is one of the operations above or
    a restart of the process, which keeps the files and resets the
    globals. *)
Inductive reachable : state -> Prop :=
  | reachable_start (interval retention : Z) :
      reachable {| positions := []; total_logged := 0; LOG_INTERVAL := interval;
                   LOG_RETENTION_DAYS := retention; logger_paused := false;
                   config_file := None; user_config_file := None |}
  | reachable_restart (interval retention : Z) (paused : bool) (st : state) :
      reachable st ->
      reachable {| positions := positions st; total_logged := 0;
                   LOG_INTERVAL := interval; LOG_RETENTION_DAYS := retention;
                   logger_paused := paused; config_file := config_file st;
                   user_config_file := user_config_file st |}
  | reachable_save (clock : nat -> string) (l : list dict) (st : state) :
      reachable st -> reachable (fst (save_aircraft clock l st))
  | reachable_cleanup (now : datetime) (st : state) :
      reachable st -> reachable (fst (cleanup_old_records now st))
  | reachable_clear (st : state) :
      reachable st -> reachable (fst (api_clear st))
  | reachable_settings (w : write) (data : dict) (st : state) :
      reachable st -> reachable (fst (api_settings_post w data st))
  | reachable_userconfig (w : write) (data : dict) (st : state) :
      reachable st -> reachable (fst (api_userconfig_post w data st)).

(** ** get_stats

    The part answered by the store; the sizes of the database file and
    of the volume are read from the file system and are left out. *)

Record stats : Type := mkStats {
  total_positions : Z;
  unique_aircraft : Z;
  unique_flights : Z;
  oldest_record : option string;
  newest_record : option string
}.

(** MIN(timestamp) and MAX(timestamp): NULL on an empty table.
    COUNT(DISTINCT column) counts the values that are not NULL. *)
Definition min_timestamp (l : list string) : option string :=
  match l with
  | [] => None
  | s :: l' => Some (fold_left (fun acc t => if String.ltb t acc then t else acc) l' s)
  end.

Definition max_timestamp (l : list string) : option string :=
  match l with
  | [] => None
  | s :: l' => Some (fold_left (fun acc t => if String.ltb acc t then t else acc) l' s)
  end.

(** [x if x else None] on a fetched text. *)
Definition text_or_none (x : option string) : option string :=
  match x with
  | Some s => if String.eqb s "" then None else Some s
  | None => None
  end.

Definition is_null (v : sqlval) : bool :=
  match v with SNull => true | _ => false end.

Definition get_stats (st : state) : stats :=
  let rows := positions st in
  {| total_positions := Z.of_nat (length rows);
     unique_aircraft :=
       Z.of_nat (length (distinct
         (List.filter (fun v => negb (is_null v)) (List.map icao rows))));
     unique_flights :=
       Z.of_nat (length (distinct
         (List.filter (fun v => negb (is_null v)) (List.map callsign rows))));
     oldest_record := text_or_none (min_timestamp (List.map timestamp rows));
     newest_record := text_or_none (max_timestamp (List.map timestamp rows)) |}.

(** ** Logger thread *)

(** What the request to the feed came to: a transport error, a body
    that is not JSON, or a document with or without its [aircraft]
    list. *)
Inductive feed_reply : Type :=
  | RequestFailed
  | InvalidJson
  | Document (aircraft : option (list dict)).

Definition poll_ultrafeeder (reply : feed_reply) : list dict :=
  match reply with
  | Document (Some l) => l
  | Document None => []
  | RequestFailed => []
  | InvalidJson => []
  end.

Record logger : Type := mkLogger {
  process : state;
  cleanup_counter : Z;
  last_poll_time : option string;
  last_poll_count : Z
}.

(** What one turn of the loop meets: the feed's reply, the store's clock
    during the inserts, and the two readings of [datetime.now()]. *)
Record tick : Type := mkTick {
  tick_reply : feed_reply;
  tick_clock : nat -> string;
  tick_now : datetime;
  tick_sweep_now : datetime
}.

(** The body of the [while] loop of [logger_loop], without its sleep.  An
    exception leaves the loop: the thread ends. *)
Definition logger_step (t : tick) (lg : logger) : logger * result unit :=
  if logger_paused (process lg) then (lg, Ok tt)
  else
    match save_aircraft (tick_clock t) (poll_ultrafeeder (tick_reply t)) (process lg) with
    | (st1, Raise e) =>
        ({| process := st1; cleanup_counter := cleanup_counter lg;
            last_poll_time := last_poll_time lg;
            last_poll_count := last_poll_count lg |}, Raise e)
    | (st1, Ok count) =>
        let polled := Some (isoformat "T" (tick_now t)) in
        let counter := cleanup_counter lg + 1 in
        if 360 <=? counter then
          match cleanup_old_records (tick_sweep_now t) st1 with
          | (st2, Raise e) =>
              ({| process := st2; cleanup_counter := counter;
                  last_poll_time := polled; last_poll_count := count |}, Raise e)
          | (st2, Ok _) =>
              ({| process := st2; cleanup_counter := 0;
                  last_poll_time := polled; last_poll_count := count |}, Ok tt)
          end
        else
          ({| process := st1; cleanup_counter := counter;
              last_poll_time := polled; last_poll_count := count |}, Ok tt)
    end.

(** The loop over the turns it is given, up to the first exception. *)
Fixpoint logger_loop (ticks : list tick) (lg : logger) : logger * result unit :=
  match ticks with
  | [] => (lg, Ok tt)
  | t :: ticks' =>
      match logger_step t lg with
      | (lg', Ok _) => logger_loop ticks' lg'
      | (lg', Raise e) => (lg', Raise e)
      end
  end.

(** ** load_config, pause and resume *)

Definition set_paused (st : state) (b : bool) : state :=
  {| positions := positions st;
     total_logged := total_logged st;
     LOG_INTERVAL := LOG_INTERVAL st;
     LOG_RETENTION_DAYS := LOG_RETENTION_DAYS st;
     logger_paused := b;
     config_file := config_file st;
     user_config_file := user_config_file st |}.

(** The document is read as [save_config] writes it; a missing or
    unreadable one leaves the globals as they are. *)
Definition load_config (st : state) : state :=
  match config_file st with
  | Some doc =>
      set_paused
        (set_retention_days (set_interval st (cfg_interval doc)) (cfg_retention_days doc))
        (cfg_paused doc)
  | None => st
  end.

(** The module level of a new process over the files the last one left:
    the globals from the environment, nothing logged yet. *)
Definition boot (env_interval env_retention : Z) (left : state) : state :=
  {| positions := positions left; total_logged := 0;
     LOG_INTERVAL := env_interval; LOG_RETENTION_DAYS := env_retention;
     logger_paused := false; config_file := config_file left;
     user_config_file := user_config_file left |}.

(** The start-up sequence: [load_config], then the initial sweep. *)
Definition startup (env_interval env_retention : Z) (now : datetime) (left : state)
    : state * result Z :=
  cleanup_old_records now (load_config (boot env_interval env_retention left)).

Record pause_reply : Type := mkPauseReply {
  pr_success : bool;
  pr_paused : bool
}.

(** POST /api/pause *)
Definition api_pause (disk : write) (st : state) : state * pause_reply :=
  (save_config disk (set_paused st true),
   {| pr_success := true; pr_paused := true |}).

(** POST /api/resume *)
Definition api_resume (disk : write) (st : state) : state * pause_reply :=
  (save_config disk (set_paused st false),
   {| pr_success := true; pr_paused := false |}).

Record health_reply : Type := mkHealthReply {
  hr_paused : bool;
  hr_last_poll : option string;
  hr_last_count : Z;
  hr_total_logged : Z
}.

(** GET /health *)
Definition health (lg : logger) : health_reply :=
  {| hr_paused := logger_paused (process lg);
     hr_last_poll := last_poll_time lg;
     hr_last_count := last_poll_count lg;
     hr_total_logged := total_logged (process lg) |}.

(** ** Exports *)

(** The WHERE clause both exports build from [start] and [end]. *)
Definition export_where (start_date end_date : option string) (r : row) : bool :=
  match given start_date, given end_date with
  | None, None => true
  | Some s, None => timestamp_ge (timestamp r) s
  | None, Some e => timestamp_le (timestamp r) e
  | Some s, Some e => timestamp_ge (timestamp r) s && timestamp_le (timestamp r) e
  end.

Definition export_rows (start_date end_date : option string) (st : state) : list row :=
  order_by by_timestamp (List.filter (export_where start_date end_date) (positions st)).

(** GET /api/export/json: the rows that are dumped. *)
Definition api_export_json (start_date end_date : option string) (st : state) : list row :=
  export_rows start_date end_date st.

(** [s.replace(a, b)] for two characters. *)
Fixpoint replace_char (a b : ascii) (s : string) : string :=
  match s with
  | EmptyString => EmptyString
  | String c s' => String (if Ascii.eqb c a then b else c) (replace_char a b s')
  end.

Definition csv_record (r : row) : row :=
  {| timestamp := if String.eqb (timestamp r) "" then timestamp r
                  else replace_char " " "T" (timestamp r);
     icao := icao r; callsign := callsign r; lat := lat r; lon := lon r;
     altitude := altitude r; speed := speed r; track := track r;
     vert_rate := vert_rate r; squawk := squawk r; category := category r;
     aircraft_type := aircraft_type r; rssi := rssi r |}.

(** GET /api/export: the records handed to the CSV writer after the
    header, in order (the writer's rendering of numbers is not
    modelled). *)
Definition api_export_csv (start_date end_date : option string) (st : state) : list row :=
  List.map csv_record (export_rows start_date end_date st).

(** ** api_flights *)

(** The LIKE operator on texts: "%" stands for any run of characters,
    "_" for any one character, and letters match in either case. *)
Fixpoint like_match (pattern : string) : string -> bool :=
  match pattern with
  | EmptyString => fun s => String.eqb s ""
  | String c pattern' =>
      if Ascii.eqb c "%" then
        fix any (s : string) : bool :=
          like_match pattern' s
          || match s with
             | EmptyString => false
             | String _ s' => any s'
             end
      else
        fun s =>
          match s with
          | EmptyString => false
          | String d s' =>
              (Ascii.eqb c "_" || Ascii.eqb (upper_char c) (upper_char d))
              && like_match pattern' s'
          end
  end.

(** [column LIKE ?] on a column that holds texts or NULL: NULL matches
    nothing. *)
Definition sql_like (v : sqlval) (pattern : string) : bool :=
  match v with
  | SText s => like_match pattern s
  | _ => false
  end.

(** The parameter built as [f'%{arg.upper()}%']. *)
Definition contains_pattern (arg : string) : string :=
  "%" ++ upper arg ++ "%".

Definition flights_where (icao_arg callsign_arg start_date end_date : option string)
    (r : row) : bool :=
  match given icao_arg with
  | Some a => sql_like (icao r) (contains_pattern a)
  | None => true
  end
  && match given callsign_arg with
     | Some a => sql_like (callsign r) (contains_pattern a)
     | None => true
     end
  && match given start_date with
     | Some s => timestamp_ge (timestamp r) s
     | None => true
     end
  && match given end_date with
     | Some e => timestamp_le (timestamp r) e
     | None => true
     end.

Record flight_entry : Type := mkFlightEntry {
  fl_icao : sqlval;
  fl_callsign : sqlval;
  fl_first_seen : string;
  fl_last_seen : string;
  fl_positions : Z
}.

Definition same_flight (k : sqlval * sqlval) (r : row) : bool :=
  sql_eqb (icao r) (fst k) && sql_eqb (callsign r) (snd k).

Definition flight_key (r : row) : sqlval * sqlval := (icao r, callsign r).

(** The keys of the groups of GROUP BY icao, callsign, NULLs together. *)
Fixpoint distinct_flights (rows : list row) : list (sqlval * sqlval) :=
  match rows with
  | [] => []
  | r :: rows' =>
      flight_key r
      :: List.filter (fun k => negb (same_flight k r)) (distinct_flights rows')
  end.

Definition flight_group (rows : list row) (k : sqlval * sqlval) : flight_entry :=
  let g := List.filter (same_flight k) rows in
  {| fl_icao := fst k;
     fl_callsign := snd k;
     fl_first_seen :=
       match min_timestamp (List.map timestamp g) with Some s => s | None => "" end;
     fl_last_seen :=
       match max_timestamp (List.map timestamp g) with Some s => s | None => "" end;
     fl_positions := Z.of_nat (length g) |}.

Definition by_flight_last_seen_desc (a b : flight_entry) : bool :=
  String.leb (fl_last_seen b) (fl_last_seen a).

(** LIMIT n: a negative [n] is no limit. *)
Definition sql_limit {A : Type} (n : Z) (l : list A) : list A :=
  if n <? 0 then l else firstn (Z.to_nat n) l.

(** GET /api/flights?icao=..&callsign=..&start=..&end=..&limit=.. *)
Definition api_flights (icao_arg callsign_arg start_date end_date limit_arg : option string)
    (st : state) : result (list flight_entry) :=
  do limit <- match limit_arg with
              | Some s => int_of_str s
              | None => Ok 100
              end;
  do _ <- bind_param (PInt limit);
  let rows := List.filter (flights_where icao_arg callsign_arg start_date end_date)
                (positions st) in
  Ok (sql_limit limit
        (order_by by_flight_last_seen_desc
           (List.map (flight_group rows) (distinct_flights rows)))).

(** * Vocabulary of the statements *)

Definition is_str (v : pyval) : bool :=
  match v with PStr _ => true | _ => false end.

Definition bindable (v : pyval) : bool :=
  match bind_param v with Ok _ => true | Raise _ => false end.

(** A record as the feed delivers it: [hex], when present, is a string;
    [flight] is a string or is empty; every value that goes into the row
    is one the store takes (None, a bool, a 64-bit int, a float, a
    string). *)
Definition feed_record (ac : dict) : bool :=
  is_str (py_get_default ac "hex" (PStr ""))
  && (negb (py_truthy (py_get ac "flight")) || is_str (py_get ac "flight"))
  && bindable (py_get ac "lat")
  && bindable (py_get ac "lon")
  && bindable (py_or (py_get ac "alt_baro") (py_get ac "alt_geom"))
  && bindable (py_get ac "gs")
  && bindable (py_get ac "track")
  && bindable (py_or (py_get ac "baro_rate") (py_get ac "geom_rate"))
  && bindable (py_get ac "squawk")
  && bindable (py_get ac "category")
  && bindable (py_get ac "t")
  && bindable (py_get ac "rssi").

(** The records of a batch with their positions in it. *)
Definition enumerate_from {A : Type} (i : nat) (l : list A) : list (nat * A) :=
  combine (seq i (length l)) l.

Definition positioned (l : list (nat * dict)) : list (nat * dict) :=
  List.filter (fun p => has_position (snd p)) l.

(** [r] is the row of the [p]-th record under [clock]. *)
Definition row_of (clock : nat -> string) (p : nat * dict) (r : row) : Prop :=
  insert_row (clock (fst p)) (snd p) = Ok r.

(** What the row of a record holds, field by field: the statement of
    the mapping from the feed's names. *)
Definition field_mapping (ac : dict) (r : row) : Prop :=
  (forall h, ac !! "hex" = Some (PStr h) -> icao r = SText (upper h))
  /\ (ac !! "hex" = None -> icao r = SText "")
  /\ (forall f, ac !! "flight" = Some (PStr f) -> f <> "" ->
        callsign r = SText (strip f))
  /\ (ac !! "flight" = None -> callsign r = SNull)
  /\ (forall v, ac !! "alt_baro" = Some v -> py_truthy v = true ->
        bind_param v = Ok (altitude r))
  /\ (ac !! "alt_baro" = None ->
        bind_param (py_get ac "alt_geom") = Ok (altitude r))
  /\ (forall v, ac !! "baro_rate" = Some v -> py_truthy v = true ->
        bind_param v = Ok (vert_rate r))
  /\ (ac !! "baro_rate" = None ->
        bind_param (py_get ac "geom_rate") = Ok (vert_rate r)).

Definition is_hex_digit (c : ascii) : bool :=
  let n := N_of_ascii c in
  (((48 <=? n) && (n <=? 57)) || ((65 <=? n) && (n <=? 70))
   || ((97 <=? n) && (n <=? 102)))%N.

(** A 6-hex-digit aircraft identifier. *)
Definition icao_identifier (s : string) : bool :=
  (String.length s =? 6)%nat && forallb is_hex_digit (list_ascii_of_string s).

(** ** Sample data *)

Definition sample_clock (i : nat) : string := "2024-06-01 12:00:00".

Definition ac_cruise : dict :=
  {[ "hex" := PStr "abc123"; "flight" := PStr "UAL1    ";
     "lat" := PFloat (S754_finite false 5 1);
     "lon" := PFloat (S754_finite true 5 0);
     "alt_baro" := PInt 35000; "alt_geom" := PInt 35400;
     "baro_rate" := PInt (-64); "geom_rate" := PInt 32 ]}.

Definition ac_no_lon : dict :=
  {[ "hex" := PStr "4ca7b5"; "lat" := PFloat (S754_finite false 5 1) ]}.

(** Level at zero pressure altitude: [alt_baro] and [baro_rate] are 0. *)
Definition ac_level : dict :=
  {[ "hex" := PStr "abc123";
     "lat" := PFloat (S754_finite false 5 1);
     "lon" := PFloat (S754_finite true 5 0);
     "alt_baro" := PInt 0; "alt_geom" := PInt 150;
     "baro_rate" := PInt 0 ]}.

Definition ac_no_hex : dict :=
  {[ "lat" := PFloat (S754_finite false 5 1);
     "lon" := PFloat (S754_finite true 5 0) ]}.

Definition ac_empty_flight : dict :=
  {[ "hex" := PStr "abc123"; "flight" := PStr "";
     "lat" := PFloat (S754_finite false 5 1);
     "lon" := PFloat (S754_finite true 5 0) ]}.

Definition st_fresh : state :=
  {| positions := []; total_logged := 0; LOG_INTERVAL := 10;
     LOG_RETENTION_DAYS := 14; logger_paused := false;
     config_file := None; user_config_file := None |}.

Definition body_20_7 : dict :=
  {[ "interval" := PInt 20; "retention_days" := PInt 7 ]}.

Definition body_interval_100 : dict := {[ "interval" := PInt 100 ]}.

(** The process started with LOG_INTERVAL=120 in its environment. *)
Definition st_env_120 : state :=
  {| positions := []; total_logged := 0; LOG_INTERVAL := 120;
     LOG_RETENTION_DAYS := 14; logger_paused := false;
     config_file := None; user_config_file := None |}.

(** [n] clamped into the interval range. *)
Definition clamp_interval (n : Z) : Z := Z.max 5 (Z.min 60 n).

(** The six fields down to the second, compared in turn. *)
Definition seconds_compare (a b : datetime) : comparison :=
  match year a ?= year b with
  | Eq =>
    match month a ?= month b with
    | Eq =>
      match day a ?= day b with
      | Eq =>
        match hour a ?= hour b with
        | Eq =>
          match minute a ?= minute b with
          | Eq => second a ?= second b
          | c => c
          end
        | c => c
        end
      | c => c
      end
    | c => c
    end
  | c => c
  end.

Definition fraction (t : datetime) : string :=
  if microsecond t =? 0 then "" else "." ++ pad 6 (microsecond t).

(** The text of a date and time, field after field. *)
Definition stamp (sep : ascii) (t : datetime) (frac : string) : string :=
  pad 4 (year t) ++ String "-" (pad 2 (month t) ++ String "-" (pad 2 (day t) ++
  String sep (pad 2 (hour t) ++ String ":" (pad 2 (minute t) ++
  String ":" (pad 2 (second t) ++ frac))))).

(** [r] is a snapshot taken by the store's clock at the instant [d] (a
    whole second). *)
Definition snapshot_at (r : row) (d : datetime) : Prop :=
  valid_datetime d = true /\ microsecond d = 0 /\ timestamp r = current_timestamp d.

Definition sample_row (ts : string) (h : string) : row :=
  {| timestamp := ts; icao := SText h; callsign := SNull;
     lat := SReal (S754_finite false 5 1); lon := SReal (S754_finite true 5 0);
     altitude := SInt 35000; speed := SNull; track := SNull; vert_rate := SNull;
     squawk := SNull; category := SNull; aircraft_type := SNull; rssi := SNull |}.

Definition now_sample : datetime :=
  {| year := 2024; month := 6; day := 16; hour := 9; minute := 30; second := 0;
     microsecond := 250000 |}.

Definition days_ago_15 : datetime :=
  {| year := 2024; month := 6; day := 1; hour := 9; minute := 30; second := 0;
     microsecond := 0 |}.

Definition days_ago_13 : datetime :=
  {| year := 2024; month := 6; day := 3; hour := 9; minute := 30; second := 0;
     microsecond := 0 |}.

Definition row_15_days : row := sample_row (current_timestamp days_ago_15) "ABC123".
Definition row_13_days : row := sample_row (current_timestamp days_ago_13) "4CA7B5".

Definition st_two_rows (retention : Z) : state :=
  {| positions := [row_15_days; row_13_days]; total_logged := 2; LOG_INTERVAL := 10;
     LOG_RETENTION_DAYS := retention; logger_paused := false;
     config_file := None; user_config_file := None |}.

Definition is_lower (c : ascii) : bool :=
  let n := N_of_ascii c in ((97 <=? n) && (n <=? 122))%N.

(** Two characters that are equal, or the two cases of one letter. *)
Definition case_variants (a b : ascii) : Prop :=
  a = b
  \/ (is_lower a = true /\ N_of_ascii b = (N_of_ascii a - 32)%N)
  \/ (is_lower b = true /\ N_of_ascii a = (N_of_ascii b - 32)%N).

(** Two texts that differ at most in the case of their letters. *)
Inductive same_up_to_case : string -> string -> Prop :=
  | same_empty : same_up_to_case EmptyString EmptyString
  | same_char (a b : ascii) (s t : string) :
      case_variants a b -> same_up_to_case s t ->
      same_up_to_case (String a s) (String b t).

(** The stored icao of [r] is [q] up to the case of letters. *)
Definition icao_matches (q : string) (r : row) : bool :=
  match icao r with
  | SText i => String.eqb (upper i) (upper q)
  | _ => false
  end.

(** [r] lies within the bounds that are given, ends included, in the
    store's comparison. *)
Definition in_bounds (start_time end_time : option string) (r : row) : bool :=
  match given start_time with
  | Some s => timestamp_ge (timestamp r) s
  | None => true
  end
  && match given end_time with
     | Some e => timestamp_le (timestamp r) e
     | None => true
     end.

Definition timestamp_ascending (a b : row) : Prop :=
  String.leb (timestamp a) (timestamp b) = true.

(** The point [p] of a trace reply shows the row [r]: its timestamp,
    lat, lon, altitude, speed and track are those of the row. *)
Definition shows (p : trace_point) (r : row) : Prop :=
  tp_timestamp p = timestamp r /\ tp_lat p = lat r /\ tp_lon p = lon r
  /\ tp_altitude p = altitude r /\ tp_speed p = speed r /\ tp_track p = track r.

Definition point_ascending (a b : trace_point) : Prop :=
  String.leb (tp_timestamp a) (tp_timestamp b) = true.

(** Every stored icao is a text in upper case. *)
Definition icao_uppercased (st : state) : Prop :=
  Forall (fun r => exists h, icao r = SText (upper h)) (positions st).

Definition st_one_flight : state :=
  fst (save_aircraft sample_clock [ac_cruise; ac_no_hex] st_fresh).

Definition position_row (ts h : string) (la lo : spec_float) (alt : Z) : row :=
  {| timestamp := ts; icao := SText h; callsign := SNull;
     lat := SReal la; lon := SReal lo; altitude := SInt alt;
     speed := SNull; track := SNull; vert_rate := SNull;
     squawk := SNull; category := SNull; aircraft_type := SNull; rssi := SNull |}.

Definition at_time (y mo d h mi : Z) : datetime :=
  {| year := y; month := mo; day := d; hour := h; minute := mi; second := 0;
     microsecond := 0 |}.

(** One snapshot at noon, read half an hour later. *)
Definition row_noon : row :=
  position_row (current_timestamp (at_time 2024 6 1 12 0)) "ABC123"
    (S754_finite false 5 1) (S754_finite false 5 2) 5000.

Definition st_noon : state :=
  {| positions := [row_noon]; total_logged := 1; LOG_INTERVAL := 10;
     LOG_RETENTION_DAYS := 14; logger_paused := false;
     config_file := None; user_config_file := None |}.

(** Two snapshots of one aircraft just after midnight: at 00:10 at
    (10.0, 20.0) and 5000 ft, at 00:20 at (5.0, 30.0) and 3000 ft. *)
Definition row_0010 : row :=
  position_row (current_timestamp (at_time 2024 6 2 0 10)) "ABC123"
    (S754_finite false 5 1) (S754_finite false 5 2) 5000.

Definition row_0020 : row :=
  position_row (current_timestamp (at_time 2024 6 2 0 20)) "ABC123"
    (S754_finite false 5 0) (S754_finite false 15 1) 3000.

Definition st_midnight : state :=
  {| positions := [row_0010; row_0020]; total_logged := 2; LOG_INTERVAL := 10;
     LOG_RETENTION_DAYS := 14; logger_paused := false;
     config_file := None; user_config_file := None |}.





Definition starts_with_space (s : string) : bool :=
  match s with
  | EmptyString => false
  | String c _ => py_isspace c
  end.

Fixpoint ends_with_space (s : string) : bool :=
  match s with
  | EmptyString => false
  | String c EmptyString => py_isspace c
  | String _ s' => ends_with_space s'
  end.

(** A callsign as stored: NULL, or a text without white space around
    it. *)
Definition trimmed_or_null (v : sqlval) : Prop :=
  v = SNull
  \/ exists s, v = SText s /\ starts_with_space s = false /\ ends_with_space s = false.

(** A record with a position that the insert refuses. *)
Definition refused (ac : dict) : Prop :=
  has_position ac = true /\ feed_record ac = false.

Definition ac_bad_hex : dict :=
  {[ "hex" := PInt 5;
     "lat" := PFloat (S754_finite false 5 1);
     "lon" := PFloat (S754_finite true 5 0) ]}.

Definition ac_blank_flight : dict :=
  {[ "hex" := PStr "abc123"; "flight" := PStr "   ";
     "lat" := PFloat (S754_finite false 5 1);
     "lon" := PFloat (S754_finite true 5 0) ]}.

Definition body_bad_retention : dict :=
  {[ "interval" := PInt 30; "retention_days" := PStr "two weeks" ]}.

Definition body_short_id : dict := {[ "adsbx_short_id" := PStr "k3Xy" ]}.

Definition st_with_prefs : state :=
  {| positions := []; total_logged := 0; LOG_INTERVAL := 10;
     LOG_RETENTION_DAYS := 14; logger_paused := false;
     config_file := None;
     user_config_file := Some {[ "theme" := PStr "dark"; "adsbx_short_id" := PStr "old" ]} |}.

Definition with_process (lg : logger) (st : state) : logger :=
  {| process := st; cleanup_counter := cleanup_counter lg;
     last_poll_time := last_poll_time lg; last_poll_count := last_poll_count lg |}.

Definition lg_fresh : logger :=
  {| process := st_fresh; cleanup_counter := 0; last_poll_time := None;
     last_poll_count := 0 |}.

Definition tick_of (reply : feed_reply) : tick :=
  {| tick_reply := reply; tick_clock := sample_clock; tick_now := now_sample;
     tick_sweep_now := now_sample |}.

(** The feed gave no list: the request failed, the body was not JSON,
    or the document had no [aircraft] key. *)
Definition no_list (reply : feed_reply) : Prop :=
  reply = RequestFailed \/ reply = InvalidJson \/ reply = Document None.

Definition timestamp_descending (a b : recent_entry) : Prop :=
  String.leb (re_last_seen b) (re_last_seen a) = true.

Definition flight_last_seen_descending (a b : flight_entry) : Prop :=
  String.leb (fl_last_seen b) (fl_last_seen a) = true.

Definition entry_key (e : flight_entry) : sqlval * sqlval := (fl_icao e, fl_callsign e).

Definition st_three_rows : state :=
  {| positions :=
       [ position_row "2024-06-01 12:00:00" "ABC123" (S754_finite false 5 1)
           (S754_finite false 5 2) 5000;
         position_row "2024-06-01 12:05:00" "ABC123" (S754_finite false 5 1)
           (S754_finite false 5 2) 5100;
         position_row "2024-06-01 12:03:00" "4CA7B5" (S754_finite false 5 0)
           (S754_finite false 15 1) 3000 ];
     total_logged := 3; LOG_INTERVAL := 10; LOG_RETENTION_DAYS := 14;
     logger_paused := false; config_file := None; user_config_file := None |}.

Fixpoint wildcard_free (s : string) : bool :=
  match s with
  | EmptyString => true
  | String c s' => negb (Ascii.eqb c "%" || Ascii.eqb c "_") && wildcard_free s'
  end.

(** [s] holds a run of characters that is [a] up to case. *)
Definition contains_up_to_case (s a : string) : Prop :=
  exists before mid after : string,
    s = (before ++ mid ++ after)%string /\ same_up_to_case mid a.

(** A value as the icao and callsign columns hold them: NULL or a
    text. *)
Definition plain (v : sqlval) : Prop := v = SNull \/ exists s, v = SText s.

Definition plain_keys (r : row) : Prop := plain (icao r) /\ plain (callsign r).

Definition sum_positions (entries : list flight_entry) : Z :=
  fold_right (fun e acc => fl_positions e + acc) 0 entries.

(** * Properties *)

(** ** save_aircraft *)

Lemma bindable_ok (v : pyval) :
  bindable v = true -> exists s, bind_param v = Ok s.
Proof.
  unfold bindable. destruct (bind_param v) as [s|e]; [eauto | discriminate].
Qed.

Lemma bind_ok_bindable (v : pyval) (s : sqlval) :
  bind_param v = Ok s -> bindable v = true.
Proof. unfold bindable. intros ->. reflexivity. Qed.

Ltac bind_step H :=
  let s := fresh "s" in
  let E := fresh "E" in
  apply bindable_ok in H; destruct H as [s E]; rewrite E; cbn [result_bind].

(** A feed record always yields a row, and its icao is a text. *)
Lemma insert_row_feed_record (ts : string) (ac : dict) :
  feed_record ac = true ->
  exists r, insert_row ts ac = Ok r /\ exists s, icao r = SText s.
Proof.
  unfold feed_record. rewrite !andb_true_iff.
  intros [[[[[[[[[[[Hhex Hfl] H1] H2] H3] H4] H5] H6] H7] H8] H9] H10].
  unfold insert_row.
  destruct (py_get_default ac "hex" (PStr "")) as [| | | |h| |]; try discriminate.
  cbn [py_upper result_bind].
  assert (Hc : exists v, (if py_truthy (py_get ac "flight")
                          then py_strip (py_get_default ac "flight" (PStr ""))
                          else Ok PNone) = Ok v /\ bindable v = true).
  { destruct (py_truthy (py_get ac "flight")) eqn:Ht.
    - cbn in Hfl. unfold py_get in Hfl, Ht. unfold py_get_default.
      destruct (ac !! "flight") as [v|]; [|discriminate].
      destruct v; try discriminate. eexists; split; reflexivity.
    - eexists; split; reflexivity. }
  destruct Hc as (v & -> & Hv). cbn [result_bind bind_param].
  bind_step Hv. bind_step H1. bind_step H2. bind_step H3. bind_step H4.
  bind_step H5. bind_step H6. bind_step H7. bind_step H8. bind_step H9.
  bind_step H10.
  eexists; split; [reflexivity|]. cbn. eauto.
Qed.

(** Conversely, a record that yields a row is a feed record. *)
Lemma insert_row_ok_feed_record (ts : string) (ac : dict) (r : row) :
  insert_row ts ac = Ok r -> feed_record ac = true.
Proof.
  unfold insert_row, feed_record. intros H.
  destruct (py_get_default ac "hex" (PStr "")) as [| | | |h| |]; try discriminate.
  cbn [py_upper result_bind is_str andb] in *.
  assert (Hfl : negb (py_truthy (py_get ac "flight")) || is_str (py_get ac "flight") = true).
  { destruct (py_truthy (py_get ac "flight")) eqn:Ht; [|reflexivity].
    unfold py_get, py_get_default in *.
    destruct (ac !! "flight") as [v|]; [|discriminate].
    destruct v; try discriminate; reflexivity. }
  rewrite Hfl. cbn [andb].
  destruct (if py_truthy (py_get ac "flight") then _ else _) as [v|]; [|discriminate].
  cbn [result_bind bind_param] in H.
  repeat match type of H with
  | result_bind (bind_param ?x) _ = _ =>
      let E := fresh "E" in
      destruct (bind_param x) eqn:E; [|discriminate];
      try (apply bind_ok_bindable in E; rewrite E);
      cbn [result_bind andb] in H |- *
  end.
  reflexivity.
Qed.

Lemma execute_insert_text (c : conn) (r : row) (s : string) :
  icao r = SText s ->
  execute_insert c r =
  Ok {| committed := committed c; pending := pending c ++ [r]; in_transaction := true |}.
Proof. unfold execute_insert. intros ->. reflexivity. Qed.

Lemma enumerate_from_cons {A : Type} (i : nat) (x : A) (l : list A) :
  enumerate_from i (x :: l) = (i, x) :: enumerate_from (S i) l.
Proof. reflexivity. Qed.

(** The loop on a batch of feed records: the connection gains one pending
    row per record with a position, in order, and the count follows. *)
Lemma save_loop_feed (clock : nat -> string) (l : list dict) :
  Forall (fun ac => has_position ac = true -> feed_record ac = true) l ->
  forall (i : nat) (c : conn) (count : Z),
  exists (c' : conn) (rows : list row),
    save_loop clock i l c count = (c', Ok (count + Z.of_nat (length rows)))
    /\ committed c' = committed c
    /\ pending c' = (pending c ++ rows)%list
    /\ Forall2 (row_of clock) (positioned (enumerate_from i l)) rows.
Proof.
  induction 1 as [|ac l Hac Hl IH]; intros i c count.
  - exists c, []. cbn. rewrite Z.add_0_r, app_nil_r. repeat split. constructor.
  - rewrite enumerate_from_cons. unfold positioned in *. cbn [save_loop List.filter snd].
    destruct (has_position ac) eqn:Hp.
    + destruct (insert_row_feed_record (clock i) ac (Hac eq_refl)) as (r & Hr & s & Hs).
      rewrite Hr, (execute_insert_text c r s Hs).
      destruct (IH (S i) {| committed := committed c; pending := pending c ++ [r];
                            in_transaction := true |} (count + 1))
        as (c' & rows & Hloop & Hcm & Hpe & Hall).
      exists c', (r :: rows). rewrite Hloop. cbn [committed pending] in *.
      repeat split.
      * f_equal. f_equal. cbn [length]. lia.
      * exact Hcm.
      * rewrite Hpe, <- app_assoc. reflexivity.
      * constructor; [exact Hr | exact Hall].
    + destruct (IH (S i) c count) as (c' & rows & Hloop & Hcm & Hpe & Hall).
      exists c', rows. auto.
Qed.

(** Whatever the batch, the loop leaves the committed table alone. *)
Lemma save_loop_committed (clock : nat -> string) (l : list dict) :
  forall (i : nat) (c : conn) (count : Z),
  committed (fst (save_loop clock i l c count)) = committed c.
Proof.
  induction l as [|ac l IH]; intros i c count; cbn; [reflexivity|].
  destruct (has_position ac); [|apply IH].
  destruct (insert_row (clock i) ac) as [r|e]; [|reflexivity].
  unfold execute_insert. destruct (icao r); try reflexivity; rewrite IH; reflexivity.
Qed.

Lemma set_positions_same (st : state) : set_positions st (positions st) = st.
Proof. destruct st; reflexivity. Qed.

(** A batch that raises persists nothing: the open transaction is lost
    with the connection. *)
Lemma save_aircraft_raise_rollback (clock : nat -> string) (l : list dict)
    (st st' : state) (e : exn) :
  save_aircraft clock l st = (st', Raise e) -> st' = st.
Proof.
  unfold save_aircraft. destruct l as [|ac l]; [discriminate|].
  pose proof (save_loop_committed clock (ac :: l) 0 (get_db st) 0) as Hc.
  destruct (save_loop clock 0 (ac :: l) (get_db st) 0) as [c [n|e']]; [discriminate|].
  intros [= <- _]. cbn in Hc. unfold close. rewrite Hc. apply set_positions_same.
Qed.




(** The loop read backwards: when it returns, the pending table has
    gained the rows of the records with a position, and nothing else. *)
Lemma save_loop_ok (clock : nat -> string) (l : list dict) :
  forall (i : nat) (c c' : conn) (count n : Z),
  save_loop clock i l c count = (c', Ok n) ->
  exists rows : list row,
    pending c' = (pending c ++ rows)%list
    /\ n = count + Z.of_nat (length rows)
    /\ Forall2 (row_of clock) (positioned (enumerate_from i l)) rows.
Proof.
  induction l as [|ac l IH]; intros i c c' count n H.
  - cbn in H. injection H as <- <-. exists []. rewrite app_nil_r, Z.add_0_r.
    repeat split. constructor.
  - rewrite enumerate_from_cons. unfold positioned in *. cbn [save_loop List.filter snd] in *.
    destruct (has_position ac) eqn:Hp.
    + destruct (insert_row (clock i) ac) as [r|e] eqn:Hr; [|discriminate].
      unfold execute_insert in H.
      assert (Hc : save_loop clock (S i) l
                {| committed := committed c; pending := pending c ++ [r];
                   in_transaction := true |} (count + 1) = (c', Ok n))
        by (destruct (icao r); [discriminate | exact H ..]).
      destruct (IH _ _ _ _ _ Hc) as (rows & Hpe & Hn & Hall).
      exists (r :: rows). cbn [pending length] in *. repeat split.
      * rewrite Hpe, <- app_assoc. reflexivity.
      * lia.
      * constructor; [exact Hr | exact Hall].
    + apply (IH _ _ _ _ _ H).
Qed.

Lemma save_aircraft_ok (clock : nat -> string) (l : list dict)
    (st st' : state) (n : Z) :
  save_aircraft clock l st = (st', Ok n) ->
  exists rows : list row,
    positions st' = (positions st ++ rows)%list
    /\ n = Z.of_nat (length rows)
    /\ total_logged st' = total_logged st + n
    /\ Forall2 (row_of clock) (positioned (enumerate_from 0 l)) rows.
Proof.
  unfold save_aircraft. destruct l as [|ac l].
  - intros [= <- <-]. exists []. rewrite app_nil_r, Z.add_0_r. repeat split. constructor.
  - destruct (save_loop clock 0 (ac :: l) (get_db st) 0) as [c [k|e]] eqn:Hloop;
      [|discriminate].
    intros [= <- <-]. destruct (save_loop_ok _ _ _ _ _ _ _ Hloop) as (rows & Hpe & Hn & Hall).
    exists rows. cbn in *. subst k. repeat split; assumption.
Qed.

Lemma Forall2_weaken {A B : Type} (P Q : A -> B -> Prop) (l : list A) (k : list B) :
  (forall a b, P a b -> Q a b) -> Forall2 P l k -> Forall2 Q l k.
Proof. intros HPQ. induction 1; constructor; auto. Qed.

Lemma py_get_some (ac : dict) (k : string) (v : pyval) :
  ac !! k = Some v -> py_get ac k = v.
Proof. unfold py_get. intros ->. reflexivity. Qed.

Lemma py_get_none (ac : dict) (k : string) :
  ac !! k = None -> py_get ac k = PNone.
Proof. unfold py_get. intros ->. reflexivity. Qed.

(** The fields of the row built from a record. *)
Lemma insert_row_fields (ts : string) (ac : dict) (r : row) :
  insert_row ts ac = Ok r ->
  (exists h, py_get_default ac "hex" (PStr "") = PStr h /\ icao r = SText (upper h))
  /\ (exists v, (if py_truthy (py_get ac "flight")
                 then py_strip (py_get_default ac "flight" (PStr ""))
                 else Ok PNone) = Ok v /\ bind_param v = Ok (callsign r))
  /\ bind_param (py_or (py_get ac "alt_baro") (py_get ac "alt_geom")) = Ok (altitude r)
  /\ bind_param (py_or (py_get ac "baro_rate") (py_get ac "geom_rate")) = Ok (vert_rate r)
  /\ timestamp r = ts.
Proof.
  unfold insert_row. intros H.
  destruct (py_get_default ac "hex" (PStr "")) as [| | | |h| |]; try discriminate.
  cbn [py_upper result_bind] in H.
  destruct (if py_truthy (py_get ac "flight") then _ else _) as [v|]; [|discriminate].
  cbn [result_bind bind_param] in H.
  repeat match type of H with
  | result_bind (bind_param ?x) _ = _ =>
      let E := fresh "E" in
      destruct (bind_param x) eqn:E; [|discriminate]; cbn [result_bind] in H
  end.
  injection H as <-. cbn. repeat split; eauto.
Qed.

Lemma insert_row_field_mapping (ts : string) (ac : dict) (r : row) :
  insert_row ts ac = Ok r -> field_mapping ac r.
Proof.
  intros H. destruct (insert_row_fields ts ac r H)
    as ((h & Hh & Hicao) & (v & Hv & Hcs) & Halt & Hrate & _).
  unfold field_mapping, py_get_default in *. repeat split.
  - intros h' E. rewrite E in Hh. injection Hh as ->. exact Hicao.
  - intros E. rewrite E in Hh. injection Hh as <-. exact Hicao.
  - intros f E Hne. rewrite (py_get_some _ _ _ E), E in Hv. cbn in Hv.
    destruct (String.eqb_spec f ""); [contradiction|]. cbn in Hv.
    injection Hv as <-. cbn in Hcs. congruence.
  - intros E. rewrite (py_get_none _ _ E) in Hv. cbn in Hv.
    injection Hv as <-. cbn in Hcs. congruence.
  - intros v' E Ht. rewrite (py_get_some _ _ _ E) in Halt. unfold py_or in Halt.
    rewrite Ht in Halt. exact Halt.
  - intros E. rewrite (py_get_none _ _ E) in Halt. exact Halt.
  - intros v' E Ht. rewrite (py_get_some _ _ _ E) in Hrate. unfold py_or in Hrate.
    rewrite Ht in Hrate. exact Hrate.
  - intros E. rewrite (py_get_none _ _ E) in Hrate. exact Hrate.
Qed.

(** C3, as stated, fails.  [ac_level] has [alt_baro] and [baro_rate]
    present (both 0), yet the row stores [alt_geom] as its altitude and
    NULL as its vertical rate; [ac_empty_flight] has a [flight] field whose
    trimmed form is the empty text, yet the callsign stored is NULL. *)
Lemma save_aircraft_zero_falls_back :
  ac_level !! "alt_baro" = Some (PInt 0)
  /\ ac_level !! "alt_geom" = Some (PInt 150)
  /\ ac_level !! "baro_rate" = Some (PInt 0)
  /\ ac_empty_flight !! "flight" = Some (PStr "")
  /\ exists r r',
       save_aircraft sample_clock [ac_level; ac_empty_flight] st_fresh =
         (set_total_logged (set_positions st_fresh [r; r']) 2, Ok 2)
       /\ altitude r = SInt 150 /\ altitude r <> SInt 0
       /\ vert_rate r = SNull /\ vert_rate r <> SInt 0
       /\ callsign r' = SNull /\ callsign r' <> SText (strip "").
Proof.
  repeat split; try reflexivity.
  eexists; eexists. split; [vm_compute; reflexivity|].
  cbn. repeat split; congruence.
Qed.

(** C3, amended.  Every row [save_aircraft] stores for a record with
    [lat] and [lon] holds: as icao the uppercased [hex] (the empty text
    without [hex]); as callsign the trimmed [flight] when [flight] is a
    non-empty string and NULL when it is missing; as altitude [alt_baro]
    when it is present and true, [alt_geom] when [alt_baro] is missing;
    as vertical rate [baro_rate] when it is present and true, [geom_rate]
    when [baro_rate] is missing. *)
Theorem save_aircraft_field_mapping (clock : nat -> string) (aircraft_list : list dict)
    (st st' : state) (n : Z) :
  save_aircraft clock aircraft_list st = (st', Ok n) ->
  exists rows : list row,
    positions st' = (positions st ++ rows)%list
    /\ Forall2 (fun p r => has_position (snd p) = true /\ field_mapping (snd p) r)
         (positioned (enumerate_from 0 aircraft_list)) rows.
Proof.
  intros H. destruct (save_aircraft_ok _ _ _ _ _ H) as (rows & Hpos & _ & _ & Hall).
  exists rows. split; [exact Hpos|].
  assert (Hp : Forall (fun p : nat * dict => has_position (snd p) = true)
                 (positioned (enumerate_from 0 aircraft_list))).
  { apply List.Forall_forall. intros p Hin. apply List.filter_In in Hin. tauto. }
  clear Hpos. revert Hp. induction Hall as [|p r ps rs Hr Hrs IH]; intros Hp; constructor.
  - split; [exact (List.Forall_inv Hp) | exact (insert_row_field_mapping _ _ _ Hr)].
  - apply IH. exact (List.Forall_inv_tail Hp).
Qed.

Lemma save_aircraft_field_mapping_witness :
  exists rows : list row,
    positions (fst (save_aircraft sample_clock [ac_cruise; ac_no_lon] st_fresh))
      = (positions st_fresh ++ rows)%list
    /\ Forall2 (fun p r => has_position (snd p) = true /\ field_mapping (snd p) r)
         (positioned (enumerate_from 0 [ac_cruise; ac_no_lon])) rows.
Proof.
  apply (save_aircraft_field_mapping sample_clock [ac_cruise; ac_no_lon] st_fresh
           (fst (save_aircraft sample_clock [ac_cruise; ac_no_lon] st_fresh)) 1).
  vm_compute. reflexivity.
Defined.

(** C10. A feed record with [lat] and [lon] but no [hex] still gets its
    row, whose icao is the empty text; the icao of an inserted row is
    never NULL (it is always a text), but the empty text is not a
    6-hex-digit identifier. *)
Theorem save_aircraft_missing_hex (clock : nat -> string)
    (aircraft_list : list dict) (st : state) :
  (Forall (fun ac => has_position ac = true -> feed_record ac = true) aircraft_list ->
   exists rows : list row,
     save_aircraft clock aircraft_list st =
       (set_total_logged (set_positions st (positions st ++ rows)%list)
          (total_logged st + Z.of_nat (length rows)),
        Ok (Z.of_nat (length rows)))
     /\ Forall2 (fun p r => snd p !! "hex" = None -> icao r = SText "")
          (positioned (enumerate_from 0 aircraft_list)) rows)
  /\ (forall (st' : state) (n : Z),
      save_aircraft clock aircraft_list st = (st', Ok n) ->
      exists rows : list row,
        positions st' = (positions st ++ rows)%list
        /\ Forall (fun r => icao r <> SNull /\ exists s, icao r = SText s) rows)
  /\ icao_identifier "" = false.
Proof.
  split; [|split; [|reflexivity]].
  - intros Hall.
    destruct aircraft_list as [|ac l].
    + exists []. cbn. rewrite app_nil_r, Z.add_0_r. destruct st. split; [reflexivity|constructor].
    + destruct (save_loop_feed clock (ac :: l) Hall 0%nat (get_db st) 0)
        as (c' & rows & Hloop & _ & Hpe & Hrows).
      exists rows. unfold save_aircraft. rewrite Hloop.
      cbn [Z.add] in *. unfold close, commit. cbn [committed]. rewrite Hpe.
      split; [reflexivity|].
      apply (Forall2_weaken (row_of clock)); [|exact Hrows].
      intros p r Hr Hhex. apply (insert_row_field_mapping _ _ _ Hr). exact Hhex.
  - intros st' n H. destruct (save_aircraft_ok _ _ _ _ _ H) as (rows & Hpos & _ & _ & Hall).
    exists rows. split; [exact Hpos|].
    clear Hpos. induction Hall as [|p r ps rs Hr _ IH]; constructor; [|exact IH].
    destruct (insert_row_fields _ _ _ Hr) as ((h & _ & Hicao) & _).
    rewrite Hicao. split; [discriminate | eauto].
Qed.

Lemma save_aircraft_missing_hex_witness :
  exists rows : list row,
    save_aircraft sample_clock [ac_no_hex] st_fresh =
      (set_total_logged (set_positions st_fresh (positions st_fresh ++ rows)%list)
         (total_logged st_fresh + Z.of_nat (length rows)),
       Ok (Z.of_nat (length rows)))
    /\ Forall2 (fun p r => snd p !! "hex" = None -> icao r = SText "")
         (positioned (enumerate_from 0 [ac_no_hex])) rows.
Proof.
  apply (save_aircraft_missing_hex sample_clock [ac_no_hex] st_fresh).
  repeat constructor; vm_compute; congruence.
Defined.

(** ** Settings *)

Lemma update_retention_interval (data : dict) (st st2 : state) :
  update_retention data st = Ok st2 -> LOG_INTERVAL st2 = LOG_INTERVAL st.
Proof.
  unfold update_retention. destruct (data !! "retention_days") as [v|]; [|intros [= <-]; auto].
  destruct (py_int v) as [n|e]; [|discriminate]. cbn [result_bind].
  destruct (0 <=? n); intros [= <-]; reflexivity.
Qed.

Lemma save_config_globals (w : write) (st : state) :
  LOG_INTERVAL (save_config w st) = LOG_INTERVAL st
  /\ LOG_RETENTION_DAYS (save_config w st) = LOG_RETENTION_DAYS st
  /\ logger_paused (save_config w st) = logger_paused st.
Proof. destruct w; repeat split. Qed.

(** The interval after a POST, whatever else the request does (an
    exception of a later conversion included). *)
Lemma api_settings_post_interval (w : write) (data : dict) (st : state) :
  LOG_INTERVAL (fst (api_settings_post w data st)) =
  match data !! "interval" with
  | Some v =>
      match py_int v with
      | Ok n => if (5 <=? n) && (n <=? 60) then n else LOG_INTERVAL st
      | Raise _ => LOG_INTERVAL st
      end
  | None => LOG_INTERVAL st
  end.
Proof.
  unfold api_settings_post, update_interval.
  assert (H : forall st1, LOG_INTERVAL (fst
            match update_retention data st1 with
            | Ok st2 =>
                (save_config w st2,
                 Ok {| sr_status := 200; sr_success := true;
                       sr_interval := LOG_INTERVAL (save_config w st2);
                       sr_retention_days := LOG_RETENTION_DAYS (save_config w st2) |})
            | Raise e => (st1, Raise e)
            end) = LOG_INTERVAL st1).
  { intros st1. destruct (update_retention data st1) as [st2|e] eqn:H2; [|reflexivity].
    cbn [fst]. rewrite (proj1 (save_config_globals w st2)).
    apply (update_retention_interval _ _ _ H2). }
  destruct (data !! "interval") as [v|]; [|apply H].
  destruct (py_int v) as [n|e]; cbn [result_bind]; [|reflexivity].
  rewrite H. destruct ((5 <=? n) && (n <=? 60)); reflexivity.
Qed.

Lemma interval_in_range (n : Z) :
  5 <= n <= 60 -> (5 <=? n) && (n <=? 60) = true.
Proof. intros H. apply andb_true_iff. rewrite !Z.leb_le. exact H. Qed.

Lemma interval_out_of_range (n : Z) :
  n < 5 \/ 60 < n -> (5 <=? n) && (n <=? 60) = false.
Proof. intros H. apply andb_false_iff. rewrite !Z.leb_gt. exact H. Qed.

(** C5. Writing [{interval: 20, retention_days: 7}] and then reading the
    settings gives back 20 and 7; and whenever the requested interval is
    out of range (below 5 or above 60) it is not applied: the settings
    read afterwards show the interval stored before. *)
Theorem api_settings_round_trip (disk : write) (st : state) :
  api_settings_get (fst (api_settings_post disk body_20_7 st)) =
    {| sv_interval := 20; sv_retention_days := 7; sv_paused := logger_paused st |}
  /\ forall (data : dict) (v : pyval) (n : Z),
       data !! "interval" = Some v -> py_int v = Ok n -> n < 5 \/ 60 < n ->
       LOG_INTERVAL (fst (api_settings_post disk data st)) = LOG_INTERVAL st
       /\ sv_interval (api_settings_get (fst (api_settings_post disk data st)))
          = sv_interval (api_settings_get st).
Proof.
  split.
  - destruct disk; reflexivity.
  - intros data v n Hv Hn Hout.
    assert (H : LOG_INTERVAL (fst (api_settings_post disk data st)) = LOG_INTERVAL st).
    { rewrite api_settings_post_interval, Hv, Hn, (interval_out_of_range n Hout).
      reflexivity. }
    split; exact H.
Qed.

Lemma api_settings_round_trip_witness :
  LOG_INTERVAL (fst (api_settings_post Written body_interval_100 st_fresh)) = LOG_INTERVAL st_fresh
  /\ sv_interval (api_settings_get (fst (api_settings_post Written body_interval_100 st_fresh)))
     = sv_interval (api_settings_get st_fresh).
Proof.
  apply (proj2 (api_settings_round_trip Written st_fresh) body_interval_100 (PInt 100) 100);
    [reflexivity | reflexivity | lia].
Defined.

(** C6, as stated, fails: a request for 100 on a stored interval of 10
    leaves 10, not the clamped 60; and on a process started with an
    interval of 120 it leaves 120, outside of the range. *)
Lemma api_settings_does_not_clamp :
  LOG_INTERVAL (fst (api_settings_post Written body_interval_100 st_fresh)) = 10
  /\ clamp_interval 100 = 60
  /\ LOG_INTERVAL (fst (api_settings_post Written body_interval_100 st_fresh))
     <> clamp_interval 100
  /\ ~ (5 <= LOG_INTERVAL (fst (api_settings_post Written body_interval_100 st_env_120)) <= 60).
Proof.
  split; [reflexivity|]. split; [reflexivity|]. split.
  - vm_compute. discriminate.
  - intros [_ H]. vm_compute in H. apply H. reflexivity.
Qed.

(** C6, amended.  On a settings update a requested interval within
    [5, 60] is stored as it is; one out of that range is ignored and the
    interval stored before is kept; hence the interval after the update
    lies in [5, 60] as soon as the one before did. *)
Theorem api_settings_interval_guard (disk : write) (data : dict) (st : state) :
  (forall (v : pyval) (n : Z),
     data !! "interval" = Some v -> py_int v = Ok n -> 5 <= n <= 60 ->
     LOG_INTERVAL (fst (api_settings_post disk data st)) = n)
  /\ (forall (v : pyval) (n : Z),
        data !! "interval" = Some v -> py_int v = Ok n -> n < 5 \/ 60 < n ->
        LOG_INTERVAL (fst (api_settings_post disk data st)) = LOG_INTERVAL st)
  /\ (5 <= LOG_INTERVAL st <= 60 ->
      5 <= LOG_INTERVAL (fst (api_settings_post disk data st)) <= 60).
Proof.
  rewrite api_settings_post_interval. repeat split.
  - intros v n Hv Hn Hr. rewrite Hv, Hn, (interval_in_range n Hr). reflexivity.
  - intros v n Hv Hn Hr. rewrite Hv, Hn, (interval_out_of_range n Hr). reflexivity.
  - destruct (data !! "interval") as [v|]; [|lia].
    destruct (py_int v) as [n|e]; [|lia].
    destruct ((5 <=? n) && (n <=? 60)) eqn:Hr; [|lia].
    apply andb_true_iff in Hr. rewrite !Z.leb_le in Hr. lia.
  - destruct (data !! "interval") as [v|]; [|lia].
    destruct (py_int v) as [n|e]; [|lia].
    destruct ((5 <=? n) && (n <=? 60)) eqn:Hr; [|lia].
    apply andb_true_iff in Hr. rewrite !Z.leb_le in Hr. lia.
Qed.

Lemma api_settings_interval_guard_witness :
  LOG_INTERVAL (fst (api_settings_post Written body_20_7 st_fresh)) = 20
  /\ LOG_INTERVAL (fst (api_settings_post Written body_interval_100 st_fresh)) = LOG_INTERVAL st_fresh
  /\ 5 <= LOG_INTERVAL (fst (api_settings_post Written body_interval_100 st_fresh)) <= 60.
Proof.
  split; [|split].
  - apply (proj1 (api_settings_interval_guard Written body_20_7 st_fresh) (PInt 20) 20);
      [reflexivity | reflexivity | lia].
  - apply (proj1 (proj2 (api_settings_interval_guard Written body_interval_100 st_fresh))
             (PInt 100) 100); [reflexivity | reflexivity | lia].
  - apply (proj2 (proj2 (api_settings_interval_guard Written body_interval_100 st_fresh))).
    cbn. lia.
Defined.

(** C9 on the code.  The reply of a settings update does not depend on
    what became of the write of the config document: whether the open
    fails or the dump fails after it, the update of [body_20_7] still
    answers 200 with [success] true, as it does when the document is
    written.  After a failed open the document is as it was, after a
    failed dump it is lost.  The user-config update, on the same
    failures, answers 500 with [success] false. *)
Theorem api_settings_hides_write_failure (disk : write) (data : dict) (st : state) :
  snd (api_settings_post disk data st) = snd (api_settings_post Written data st)
  /\ config_file (fst (api_settings_post OpenFails data st)) = config_file st
  /\ (forall reply, snd (api_settings_post DumpFails data st) = Ok reply ->
        config_file (fst (api_settings_post DumpFails data st)) = None)
  /\ snd (api_settings_post disk body_20_7 st) =
       Ok {| sr_status := 200; sr_success := true;
             sr_interval := 20; sr_retention_days := 7 |}
  /\ (data <> ∅ ->
      ur_status (snd (api_userconfig_post OpenFails data st)) = 500
      /\ ur_success (snd (api_userconfig_post OpenFails data st)) = false
      /\ fst (api_userconfig_post OpenFails data st) = st
      /\ ur_status (snd (api_userconfig_post DumpFails data st)) = 500
      /\ ur_success (snd (api_userconfig_post DumpFails data st)) = false).
Proof.
  split; [|split; [|split; [|split]]].
  - unfold api_settings_post.
    destruct (update_interval data st) as [st1|e]; [|reflexivity].
    destruct (update_retention data st1) as [st2|e]; [|reflexivity].
    destruct disk; reflexivity.
  - unfold api_settings_post, update_interval, update_retention.
    destruct (data !! "interval") as [v|]; cbn [result_bind].
    + destruct (py_int v) as [n|e]; [|reflexivity]. cbn [result_bind].
      destruct (data !! "retention_days") as [v'|]; cbn [result_bind].
      * destruct (py_int v') as [n'|e]; cbn [result_bind];
          destruct ((5 <=? n) && (n <=? 60)); try destruct (0 <=? n'); reflexivity.
      * destruct ((5 <=? n) && (n <=? 60)); reflexivity.
    + destruct (data !! "retention_days") as [v'|]; cbn [result_bind]; [|reflexivity].
      destruct (py_int v') as [n'|e]; cbn [result_bind];
        try destruct (0 <=? n'); reflexivity.
  - intros reply. unfold api_settings_post.
    destruct (update_interval data st) as [st1|e]; [|discriminate].
    destruct (update_retention data st1) as [st2|e]; [|discriminate].
    reflexivity.
  - destruct disk; reflexivity.
  - intros Hne. unfold api_userconfig_post.
    destruct (decide (data = ∅)); [contradiction|]. repeat split.
Qed.

(** ** Text order of timestamps *)

Lemma append_cons (x : ascii) (a b : string) :
  (String x a ++ b)%string = String x (a ++ b).
Proof. reflexivity. Qed.

Lemma append_empty (b : string) : (EmptyString ++ b)%string = b.
Proof. reflexivity. Qed.

Lemma append_assoc (a b c : string) : ((a ++ b) ++ c)%string = (a ++ (b ++ c))%string.
Proof.
  induction a as [|x a IH]; [reflexivity|].
  rewrite !append_cons, IH. reflexivity.
Qed.

Lemma append_length (a b : string) :
  String.length (a ++ b) = (String.length a + String.length b)%nat.
Proof.
  induction a as [|x a IH]; [reflexivity|].
  rewrite append_cons. cbn [String.length]. rewrite IH. reflexivity.
Qed.

Lemma pad_length (w : nat) (n : Z) : String.length (pad w n) = w.
Proof.
  revert n. induction w as [|w IH]; intros n; cbn [pad]; [reflexivity|].
  rewrite append_length, IH. cbn. lia.
Qed.

Lemma ascii_compare_refl (c : ascii) : Ascii.compare c c = Eq.
Proof. unfold Ascii.compare. apply N.compare_refl. Qed.

Lemma string_compare_refl (s : string) : String.compare s s = Eq.
Proof.
  induction s as [|c s IH]; cbn; [reflexivity | rewrite ascii_compare_refl; exact IH].
Qed.

(** Two texts with heads of the same length compare by their heads
    first. *)
Lemma compare_append (p q s t : string) :
  String.length p = String.length q ->
  String.compare (p ++ s) (q ++ t) =
  match String.compare p q with
  | Eq => String.compare s t
  | c => c
  end.
Proof.
  revert q. induction p as [|x p IH]; intros [|y q] Hlen; try discriminate.
  - rewrite !append_empty. destruct (String.compare s t); reflexivity.
  - rewrite !append_cons. cbn [String.compare String.length] in *.
    destruct (Ascii.compare x y); try reflexivity.
    apply IH. lia.
Qed.

Lemma digit_char_code (k : Z) :
  0 <= k < 10 -> N_of_ascii (digit_char k) = (48 + Z.to_N k)%N.
Proof. intros H. unfold digit_char. apply N_ascii_embedding. lia. Qed.

Lemma digit_char_compare (a b : Z) :
  0 <= a < 10 -> 0 <= b < 10 ->
  Ascii.compare (digit_char a) (digit_char b) = (a ?= b).
Proof.
  intros Ha Hb. unfold Ascii.compare. rewrite !digit_char_code by assumption.
  rewrite <- N2Z.inj_compare, !N2Z.inj_add, !Z2N.id by lia.
  apply Z.add_compare_mono_l.
Qed.

Lemma compare_by_digits (a b : Z) :
  match a / 10 ?= b / 10 with
  | Eq => a mod 10 ?= b mod 10
  | c => c
  end = (a ?= b).
Proof.
  pose proof (Z.div_mod a 10 ltac:(lia)). pose proof (Z.div_mod b 10 ltac:(lia)).
  pose proof (Z.mod_pos_bound a 10 ltac:(lia)). pose proof (Z.mod_pos_bound b 10 ltac:(lia)).
  destruct (Z.compare_spec (a / 10) (b / 10)); symmetry.
  - destruct (Z.compare_spec (a mod 10) (b mod 10)).
    + apply Z.compare_eq_iff. lia.
    + apply Z.compare_lt_iff. lia.
    + apply Z.compare_gt_iff. lia.
  - apply Z.compare_lt_iff. lia.
  - apply Z.compare_gt_iff. lia.
Qed.

(** Zero-padded numbers of one width compare as numbers. *)
Lemma pad_compare (w : nat) :
  forall a b : Z, 0 <= a < 10 ^ Z.of_nat w -> 0 <= b < 10 ^ Z.of_nat w ->
  String.compare (pad w a) (pad w b) = (a ?= b).
Proof.
  induction w as [|w IH]; intros a b Ha Hb.
  - cbn in *. symmetry. apply Z.compare_eq_iff. lia.
  - cbn [pad]. rewrite compare_append by (rewrite !pad_length; reflexivity).
    rewrite Nat2Z.inj_succ, Z.pow_succ_r in Ha, Hb by lia.
    rewrite IH by (split; [apply Z.div_pos; lia | apply Z.div_lt_upper_bound; lia]).
    rewrite <- (compare_by_digits a b).
    destruct (a / 10 ?= b / 10); try reflexivity.
    cbn. rewrite digit_char_compare by (apply Z.mod_pos_bound; lia).
    destruct (a mod 10 ?= b mod 10); reflexivity.
Qed.

Lemma compare_field (w : nat) (a b : Z) (s t : string) :
  0 <= a < 10 ^ Z.of_nat w -> 0 <= b < 10 ^ Z.of_nat w ->
  String.compare (pad w a ++ s) (pad w b ++ t) =
  match a ?= b with
  | Eq => String.compare s t
  | c => c
  end.
Proof.
  intros Ha Hb. rewrite compare_append by (rewrite !pad_length; reflexivity).
  rewrite pad_compare by assumption. reflexivity.
Qed.

Lemma compare_separator (c : ascii) (s t : string) :
  String.compare (String c s) (String c t) = String.compare s t.
Proof. cbn. rewrite ascii_compare_refl. reflexivity. Qed.

Lemma append_empty_r (a : string) : (a ++ EmptyString)%string = a.
Proof.
  induction a as [|x a IH]; [reflexivity|]. rewrite append_cons, IH. reflexivity.
Qed.

Ltac flatten_append :=
  repeat (rewrite append_assoc || rewrite append_cons || rewrite append_empty).

Lemma isoformat_stamp (sep : ascii) (t : datetime) :
  isoformat sep t = stamp sep t (fraction t).
Proof.
  unfold isoformat, format_date, format_time, stamp, fraction.
  flatten_append. reflexivity.
Qed.

Lemma current_timestamp_stamp (t : datetime) :
  current_timestamp t = stamp " " t "".
Proof.
  unfold current_timestamp, format_date, format_time, stamp.
  flatten_append. rewrite append_empty_r. reflexivity.
Qed.

(** At a whole second the store's clock and the adapter write the same
    text. *)
Lemma current_timestamp_adapt (t : datetime) :
  microsecond t = 0 -> current_timestamp t = adapt_datetime t.
Proof.
  intros H. unfold adapt_datetime.
  rewrite isoformat_stamp, current_timestamp_stamp. unfold fraction. rewrite H.
  reflexivity.
Qed.

Lemma days_in_month_le (y m : Z) : 28 <= days_in_month y m <= 31.
Proof.
  unfold days_in_month.
  destruct (m =? 2); [destruct (is_leap y); lia|].
  destruct ((m =? 4) || (m =? 6) || (m =? 9) || (m =? 11)); lia.
Qed.

Lemma valid_datetime_ranges (t : datetime) :
  valid_datetime t = true ->
  1 <= year t <= 9999 /\ 1 <= month t <= 12 /\ 1 <= day t <= 31
  /\ 0 <= hour t < 24 /\ 0 <= minute t < 60 /\ 0 <= second t < 60
  /\ 0 <= microsecond t < 1000000.
Proof.
  unfold valid_datetime. rewrite !andb_true_iff, !Z.leb_le, !Z.ltb_lt.
  pose proof (days_in_month_le (year t) (month t)). lia.
Qed.

Lemma compare_stamp (sep : ascii) (a b : datetime) (fa fb : string) :
  valid_datetime a = true -> valid_datetime b = true ->
  String.compare (stamp sep a fa) (stamp sep b fb) =
  match seconds_compare a b with
  | Eq => String.compare fa fb
  | c => c
  end.
Proof.
  intros Ha Hb.
  apply valid_datetime_ranges in Ha. apply valid_datetime_ranges in Hb.
  unfold stamp, seconds_compare.
  rewrite (compare_field 4) by (cbn; lia).
  destruct (year a ?= year b); try reflexivity. rewrite compare_separator.
  rewrite (compare_field 2) by (cbn; lia).
  destruct (month a ?= month b); try reflexivity. rewrite compare_separator.
  rewrite (compare_field 2) by (cbn; lia).
  destruct (day a ?= day b); try reflexivity. rewrite compare_separator.
  rewrite (compare_field 2) by (cbn; lia).
  destruct (hour a ?= hour b); try reflexivity. rewrite compare_separator.
  rewrite (compare_field 2) by (cbn; lia).
  destruct (minute a ?= minute b); try reflexivity. rewrite compare_separator.
  rewrite (compare_field 2) by (cbn; lia).
  reflexivity.
Qed.

Lemma compare_fraction (a b : datetime) :
  valid_datetime a = true -> valid_datetime b = true ->
  String.compare (fraction a) (fraction b) = (microsecond a ?= microsecond b).
Proof.
  intros Ha Hb.
  apply valid_datetime_ranges in Ha. apply valid_datetime_ranges in Hb.
  unfold fraction.
  destruct (Z.eqb_spec (microsecond a) 0) as [Ea|Ea];
    destruct (Z.eqb_spec (microsecond b) 0) as [Eb|Eb].
  - rewrite Ea, Eb. reflexivity.
  - rewrite Ea. rewrite append_cons. cbn [String.compare]. symmetry.
    apply Z.compare_lt_iff. lia.
  - rewrite Eb. rewrite append_cons. cbn [String.compare]. symmetry.
    apply Z.compare_gt_iff. lia.
  - rewrite !append_cons, !append_empty, compare_separator.
    apply (pad_compare 6); cbn; lia.
Qed.

Lemma datetime_compare_seconds (a b : datetime) :
  datetime_compare a b =
  match seconds_compare a b with
  | Eq => microsecond a ?= microsecond b
  | c => c
  end.
Proof.
  unfold datetime_compare, seconds_compare.
  destruct (year a ?= year b), (month a ?= month b), (day a ?= day b),
    (hour a ?= hour b), (minute a ?= minute b), (second a ?= second b); reflexivity.
Qed.

(** The text order of two ISO texts with one separator is the order of
    the instants. *)
Lemma isoformat_compare (sep : ascii) (a b : datetime) :
  valid_datetime a = true -> valid_datetime b = true ->
  String.compare (isoformat sep a) (isoformat sep b) = datetime_compare a b.
Proof.
  intros Ha Hb. rewrite !isoformat_stamp, compare_stamp by assumption.
  rewrite compare_fraction by assumption. symmetry. apply datetime_compare_seconds.
Qed.

(** ** Timestamps never read as numbers *)

Lemma digit_char_is_digit (k : Z) : is_digit (digit_char (k mod 10)) = true.
Proof.
  pose proof (Z.mod_pos_bound k 10 ltac:(lia)) as H.
  unfold is_digit. rewrite digit_char_code by exact H.
  apply andb_true_iff. split; apply N.leb_le; lia.
Qed.

Lemma is_digit_plain (c : ascii) :
  is_digit c = true ->
  sqlite_isspace c = false /\ Ascii.eqb c "+" = false /\ Ascii.eqb c "-" = false.
Proof.
  destruct c as [[] [] [] [] [] [] [] []]; intros H; try discriminate H;
    repeat split; reflexivity.
Qed.

Lemma numeric_literal_date_like (c1 c2 c3 c4 : ascii) (rest : string) :
  is_digit c1 = true -> is_digit c2 = true ->
  is_digit c3 = true -> is_digit c4 = true ->
  numeric_literal (String c1 (String c2 (String c3 (String c4 (String "-" rest)))))
  = false.
Proof.
  intros H1 H2 H3 H4.
  destruct (is_digit_plain c1 H1) as (Hs & Hp & Hm).
  unfold numeric_literal. cbn [skip_spaces]. rewrite Hs.
  cbn [skip_sign]. rewrite Hp, Hm. cbn [orb skip_digits starts_with_digit].
  rewrite H1, H2, H3, H4. reflexivity.
Qed.

Lemma stamp_not_numeric (sep : ascii) (t : datetime) (frac : string) :
  numeric_literal (stamp sep t frac) = false.
Proof.
  unfold stamp.
  change (pad 4 (year t) ++ ?r)%string with
    (String (digit_char (year t / 10 / 10 / 10 mod 10))
       (String (digit_char (year t / 10 / 10 mod 10))
          (String (digit_char (year t / 10 mod 10))
             (String (digit_char (year t mod 10)) r)))).
  apply numeric_literal_date_like; apply digit_char_is_digit.
Qed.

Lemma isoformat_not_numeric (sep : ascii) (t : datetime) :
  numeric_literal (isoformat sep t) = false.
Proof. rewrite isoformat_stamp. apply stamp_not_numeric. Qed.

(** Against the text of an instant, the timestamp of a snapshot taken at
    a whole second compares as the two instants do. *)
Lemma timestamp_compare_instants (d c : datetime) :
  valid_datetime d = true -> microsecond d = 0 -> valid_datetime c = true ->
  timestamp_compare (current_timestamp d) (adapt_datetime c) = datetime_compare d c.
Proof.
  intros Hd Hus Hc. unfold timestamp_compare.
  rewrite (current_timestamp_adapt d Hus). unfold adapt_datetime.
  rewrite isoformat_not_numeric. apply isoformat_compare; assumption.
Qed.

Lemma datetime_sub_valid (t c : datetime) (d s : Z) :
  datetime_sub t d s = Ok c -> valid_datetime c = true.
Proof.
  unfold datetime_sub. destruct (999999999 <? Z.abs d); [discriminate|].
  destruct ((0 <? _) && (_ <=? MAXORDINAL)); [|discriminate].
  destruct (ord2ymd _) as [[y m] dd].
  match goal with |- (if valid_datetime ?r then _ else _) = _ -> _ =>
    destruct (valid_datetime r) eqn:Hv; [|discriminate] end.
  intros [= <-]. exact Hv.
Qed.

(** ** The calendar runs forward *)











(** ** cleanup_old_records *)

Lemma filter_none_keeps_all {A : Type} (p : A -> bool) (l : list A) :
  List.filter p l = [] -> List.filter (fun x => negb (p x)) l = l.
Proof.
  induction l as [|x l IH]; [reflexivity|]. cbn.
  destruct (p x); [discriminate|]. intros H. cbn. rewrite (IH H). reflexivity.
Qed.

(** The sweep with a cutoff: the rows older than the cutoff text go, the
    others stay in place, and the number of rows gone is returned. *)
Lemma cleanup_old_records_cutoff (now cutoff : datetime) (st : state) :
  0 < LOG_RETENTION_DAYS st ->
  datetime_sub now (LOG_RETENTION_DAYS st) 0 = Ok cutoff ->
  cleanup_old_records now st =
    (set_positions st
       (List.filter (fun r => negb (older_than (adapt_datetime cutoff) r)) (positions st)),
     Ok (Z.of_nat (length (List.filter (older_than (adapt_datetime cutoff)) (positions st))))).
Proof.
  intros Hpos Hcut. unfold cleanup_old_records.
  destruct (Z.leb_spec (LOG_RETENTION_DAYS st) 0); [lia|].
  rewrite Hcut. cbn [get_db connect pending].
  destruct (0 <? _) eqn:Hcount.
  - reflexivity.
  - cbn [close committed]. apply Z.ltb_ge in Hcount.
    destruct (List.filter (older_than (adapt_datetime cutoff)) (positions st)) eqn:Hf;
      [|cbn [length] in Hcount; lia].
    rewrite (filter_none_keeps_all _ _ Hf). reflexivity.
Qed.

Lemma older_than_instants (r : row) (d cutoff : datetime) :
  snapshot_at r d -> valid_datetime cutoff = true ->
  older_than (adapt_datetime cutoff) r = datetime_ltb d cutoff.
Proof.
  intros (Hv & Hus & Hts) Hc. unfold older_than, timestamp_lt, datetime_ltb.
  rewrite Hts, timestamp_compare_instants by assumption. reflexivity.
Qed.

Lemma datetime_compare_antisym (a b : datetime) :
  datetime_compare a b = CompOpp (datetime_compare b a).
Proof.
  unfold datetime_compare.
  rewrite (Z.compare_antisym (year a)), (Z.compare_antisym (month a)),
    (Z.compare_antisym (day a)), (Z.compare_antisym (hour a)),
    (Z.compare_antisym (minute a)), (Z.compare_antisym (second a)),
    (Z.compare_antisym (microsecond a)).
  destruct (year a ?= year b), (month a ?= month b), (day a ?= day b),
    (hour a ?= hour b), (minute a ?= minute b), (second a ?= second b),
    (microsecond a ?= microsecond b); reflexivity.
Qed.




(** ** api_clear *)

Lemma api_clear_raises (st : state) : api_clear st = (st, Raise OperationalError).
Proof. unfold api_clear. cbn. rewrite set_positions_same. reflexivity. Qed.

(** C8 on the code.  The handler runs VACUUM while the transaction that
    its DELETE opened is still open: the statement is refused, the
    handler leaves with [OperationalError] before its commit, and neither
    the table nor the total-logged counter changes.  On a store of two
    rows with a counter of 2, both are still there afterwards. *)
Theorem api_clear_vacuum_refused (st : state) :
  api_clear st = (st, Raise OperationalError)
  /\ positions (fst (api_clear (st_two_rows 14))) = [row_15_days; row_13_days]
  /\ total_logged (fst (api_clear (st_two_rows 14))) = 2.
Proof. split; [apply api_clear_raises | split; reflexivity]. Qed.

(** ** ORDER BY *)

Section OrderBy.
Context {A : Type} (le : A -> A -> bool).
Hypothesis le_total : forall a b, le a b = true \/ le b a = true.
Hypothesis le_trans : forall a b c, le a b = true -> le b c = true -> le a c = true.

Lemma insert_by_permutation (x : A) (l : list A) :
  Permutation (insert_by le x l) (x :: l).
Proof.
  induction l as [|y l IH]; cbn; [reflexivity|].
  destruct (le x y); [reflexivity|].
  rewrite IH. apply perm_swap.
Qed.

Lemma order_by_permutation (l : list A) : Permutation (order_by le l) l.
Proof.
  induction l as [|x l IH]; cbn; [reflexivity|].
  rewrite insert_by_permutation, IH. reflexivity.
Qed.

Lemma insert_by_sorted (x : A) (l : list A) :
  StronglySorted (fun a b => le a b = true) l ->
  StronglySorted (fun a b => le a b = true) (insert_by le x l).
Proof.
  induction 1 as [|y l Hs IH Hy]; cbn.
  - constructor; constructor.
  - destruct (le x y) eqn:Hxy.
    + constructor; [constructor; assumption|].
      constructor; [exact Hxy|].
      apply List.Forall_forall. intros z Hz.
      apply (le_trans x y z Hxy). apply (proj1 (List.Forall_forall _ _) Hy z Hz).
    + constructor; [exact IH|].
      apply List.Forall_forall. intros z Hz.
      apply (Permutation_in _ (insert_by_permutation x l)) in Hz.
      destruct Hz as [<-|Hz].
      * destruct (le_total x y) as [H|H]; [congruence | exact H].
      * apply (proj1 (List.Forall_forall _ _) Hy z Hz).
Qed.

Lemma order_by_sorted (l : list A) :
  StronglySorted (fun a b => le a b = true) (order_by le l).
Proof.
  induction l as [|x l IH]; cbn; [constructor | apply insert_by_sorted; exact IH].
Qed.
End OrderBy.

Lemma string_leb_trans (a b c : string) :
  String.leb a b = true -> String.leb b c = true -> String.leb a c = true.
Proof.
  intros H1 H2. apply Is_true_true.
  apply (@transitivity _ String.le _ a b c); apply Is_true_true; assumption.
Qed.

Lemma by_timestamp_total (a b : row) :
  by_timestamp a b = true \/ by_timestamp b a = true.
Proof. apply String.leb_total. Qed.

Lemma by_timestamp_trans (a b c : row) :
  by_timestamp a b = true -> by_timestamp b c = true -> by_timestamp a c = true.
Proof. apply string_leb_trans. Qed.

(** ** Stored icaos are in upper case *)

Lemma upper_char_idempotent (c : ascii) : upper_char (upper_char c) = upper_char c.
Proof. destruct c as [[] [] [] [] [] [] [] []]; reflexivity. Qed.

Lemma upper_idempotent (s : string) : upper (upper s) = upper s.
Proof.
  induction s as [|c s IH]; cbn; [reflexivity|].
  rewrite upper_char_idempotent, IH. reflexivity.
Qed.

Lemma cleanup_old_records_keeps (P : row -> Prop) (now : datetime) (st : state) :
  Forall P (positions st) -> Forall P (positions (fst (cleanup_old_records now st))).
Proof.
  intros H. unfold cleanup_old_records.
  destruct (LOG_RETENTION_DAYS st <=? 0); [exact H|].
  destruct (datetime_sub now (LOG_RETENTION_DAYS st) 0) as [cutoff|e]; [|exact H].
  cbn [get_db connect pending]. destruct (0 <? _); cbn; [|exact H].
  apply List.Forall_forall. intros r Hr. apply List.filter_In in Hr.
  apply (proj1 (List.Forall_forall _ _) H r (proj1 Hr)).
Qed.

Lemma api_settings_post_positions (w : write) (data : dict) (st : state) :
  positions (fst (api_settings_post w data st)) = positions st.
Proof.
  unfold api_settings_post, update_interval, update_retention, save_config.
  destruct (data !! "interval") as [v|]; cbn [result_bind].
  - destruct (py_int v) as [n|e]; cbn [result_bind]; [|reflexivity].
    destruct (data !! "retention_days") as [v'|]; cbn [result_bind].
    + destruct (py_int v') as [n'|e]; cbn [result_bind];
        destruct ((5 <=? n) && (n <=? 60)); try destruct (0 <=? n');
        destruct w; reflexivity.
    + destruct ((5 <=? n) && (n <=? 60)); destruct w; reflexivity.
  - destruct (data !! "retention_days") as [v'|]; cbn [result_bind].
    + destruct (py_int v') as [n'|e]; cbn [result_bind];
        try destruct (0 <=? n'); destruct w; reflexivity.
    + destruct w; reflexivity.
Qed.

Lemma api_userconfig_post_positions (w : write) (data : dict) (st : state) :
  positions (fst (api_userconfig_post w data st)) = positions st.
Proof.
  unfold api_userconfig_post, save_user_config.
  destruct (decide (data = ∅)); [reflexivity|]. destruct w; reflexivity.
Qed.

Lemma save_aircraft_keeps_uppercased (clock : nat -> string) (l : list dict) (st : state) :
  icao_uppercased st -> icao_uppercased (fst (save_aircraft clock l st)).
Proof.
  intros H. destruct (save_aircraft clock l st) as [st' [n|e]] eqn:Hs.
  - destruct (save_aircraft_ok _ _ _ _ _ Hs) as (rows & Hpos & _ & _ & Hall).
    unfold icao_uppercased. cbn [fst]. rewrite Hpos. apply List.Forall_app. split; [exact H|].
    clear Hpos. induction Hall as [|p r ps rs Hr _ IH]; constructor; [|exact IH].
    destruct (insert_row_fields _ _ _ Hr) as ((h & _ & Hicao) & _). eauto.
  - rewrite (save_aircraft_raise_rollback _ _ _ _ _ Hs). exact H.
Qed.

(** The invariant behind the queries by icao. *)
Lemma reachable_icao_uppercased (st : state) : reachable st -> icao_uppercased st.
Proof.
  induction 1 as [| | clock l st _ IH | now st _ IH | st _ IH
                  | w data st _ IH | w data st _ IH]; unfold icao_uppercased in *.
  - constructor.
  - assumption.
  - apply save_aircraft_keeps_uppercased. exact IH.
  - apply cleanup_old_records_keeps. exact IH.
  - rewrite api_clear_raises. exact IH.
  - rewrite api_settings_post_positions. exact IH.
  - rewrite api_userconfig_post_positions. exact IH.
Qed.

(** ** Equality up to case *)

Lemma upper_char_code (c : ascii) :
  N_of_ascii (upper_char c) =
  (if is_lower c then N_of_ascii c - 32 else N_of_ascii c)%N.
Proof.
  unfold upper_char, is_lower. destruct ((97 <=? _) && (_ <=? 122))%N eqn:H; [|reflexivity].
  apply N_ascii_embedding. pose proof (N_ascii_bounded c). lia.
Qed.

Lemma ascii_code_inj (a b : ascii) : N_of_ascii a = N_of_ascii b -> a = b.
Proof. intros H. rewrite <- (ascii_N_embedding a), <- (ascii_N_embedding b), H. reflexivity. Qed.

Lemma upper_char_eq_iff (a b : ascii) :
  upper_char a = upper_char b <-> case_variants a b.
Proof.
  unfold case_variants. split.
  - intros H. apply (f_equal N_of_ascii) in H. rewrite !upper_char_code in H.
    destruct (is_lower a) eqn:Ha, (is_lower b) eqn:Hb.
    + left. apply ascii_code_inj.
      unfold is_lower in Ha, Hb. apply andb_true_iff in Ha, Hb.
      rewrite !N.leb_le in Ha, Hb. lia.
    + right. left. split; [reflexivity | congruence].
    + right. right. split; [reflexivity | congruence].
    + left. apply ascii_code_inj. exact H.
  - intros [->|[[Ha Hb]|[Hb Ha]]]; [reflexivity| |];
      apply ascii_code_inj; rewrite !upper_char_code.
    + rewrite Ha. assert (is_lower b = false) as ->; [|congruence].
      unfold is_lower in *. rewrite Hb. apply andb_true_iff in Ha.
      rewrite !N.leb_le in Ha. apply andb_false_iff. rewrite !N.leb_gt. lia.
    + rewrite Hb. assert (is_lower a = false) as ->; [|congruence].
      unfold is_lower in *. rewrite Ha. apply andb_true_iff in Hb.
      rewrite !N.leb_le in Hb. apply andb_false_iff. rewrite !N.leb_gt. lia.
Qed.

Lemma upper_eq_iff (s t : string) : upper s = upper t <-> same_up_to_case s t.
Proof.
  split.
  - revert t. induction s as [|a s IH]; intros [|b t] H; try discriminate H.
    + constructor.
    + cbn in H. injection H as Hc Hs. constructor; [apply upper_char_eq_iff; exact Hc|].
      apply IH. exact Hs.
  - induction 1 as [|a b s t Hc _ IH]; [reflexivity|].
    cbn. rewrite (proj2 (upper_char_eq_iff a b) Hc), IH. reflexivity.
Qed.

Lemma icao_matches_iff (q : string) (r : row) :
  icao_matches q r = true <-> exists i, icao r = SText i /\ same_up_to_case i q.
Proof.
  unfold icao_matches. split.
  - destruct (icao r) as [| | |i]; try discriminate. intros H.
    exists i. split; [reflexivity|]. apply upper_eq_iff, String.eqb_eq. exact H.
  - intros (i & -> & H). apply String.eqb_eq, upper_eq_iff. exact H.
Qed.

(** ** api_trace *)

Lemma trace_where_spec (q : string) (s e : option string) (r : row) :
  (exists h, icao r = SText (upper h)) ->
  trace_where (upper q) s e r = icao_matches q r && in_bounds s e r.
Proof.
  intros [h Hh]. unfold trace_where, icao_matches, icao_is, in_bounds. rewrite Hh.
  rewrite upper_idempotent, <- andb_assoc. reflexivity.
Qed.

Lemma filter_ext_Forall {A : Type} (P : A -> Prop) (f g : A -> bool) (l : list A) :
  Forall P l -> (forall x, P x -> f x = g x) -> List.filter f l = List.filter g l.
Proof.
  intros H Hfg. induction H as [|x l Hx _ IH]; [reflexivity|].
  cbn. rewrite (Hfg x Hx), IH. reflexivity.
Qed.

Lemma trace_rows_spec (q : string) (s e : option string) (st : state) :
  icao_uppercased st ->
  trace_rows q s e st =
  order_by by_timestamp
    (List.filter (fun r => icao_matches q r && in_bounds s e r) (positions st)).
Proof.
  intros H. unfold trace_rows. f_equal.
  apply (filter_ext_Forall _ _ _ _ H). intros r. apply trace_where_spec.
Qed.

Lemma timestamp_bounds_instants (r : row) (d a : datetime) :
  snapshot_at r d -> valid_datetime a = true ->
  timestamp_ge (timestamp r) (adapt_datetime a) = datetime_leb a d
  /\ timestamp_le (timestamp r) (adapt_datetime a) = datetime_leb d a.
Proof.
  intros (Hv & Hus & Hts) Ha. unfold timestamp_ge, timestamp_lt, timestamp_le.
  rewrite Hts, timestamp_compare_instants by assumption.
  unfold datetime_leb.
  assert (Hanti : datetime_compare a d = CompOpp (datetime_compare d a)).
  { rewrite <- !(isoformat_compare " ") by assumption. apply String.compare_antisym. }
  rewrite Hanti. destruct (datetime_compare d a); split; reflexivity.
Qed.

Lemma Forall2_In_l {A B : Type} (P : A -> B -> Prop) (l : list A) (k : list B) (a : A) :
  Forall2 P l k -> In a l -> exists b, In b k /\ P a b.
Proof.
  induction 1 as [|x y l k Hxy _ IH]; intros Hin; [destruct Hin|].
  destruct Hin as [->|Hin].
  - exists y. split; [left; reflexivity | exact Hxy].
  - destruct (IH Hin) as (b & Hb & HP). exists b. split; [right; exact Hb | exact HP].
Qed.

Lemma trace_points_show (rows : list row) :
  Forall2 shows (List.map trace_point_of rows) rows.
Proof.
  induction rows as [|r rows IH]; cbn [List.map]; constructor; [|exact IH].
  unfold shows, trace_point_of. cbn. repeat split.
Qed.

Lemma trace_points_sorted (rows : list row) :
  StronglySorted timestamp_ascending rows ->
  StronglySorted point_ascending (List.map trace_point_of rows).
Proof.
  induction 1 as [|r rows Hs IH Hall]; cbn [List.map]; constructor; [exact IH|].
  apply Forall_map. exact Hall.
Qed.

(** C7. In every state the process can reach, the trace query answers
    for the icao up to case: two spellings that differ only in case
    ("abc123" and "ABC123") get the same reply.  The reply names the
    icao in upper case and holds one point for every stored snapshot
    whose icao is the queried one up to case and which lies within the
    given bounds, ends included: each snapshot once, its point showing
    its timestamp, lat, lon, altitude, speed and track, the points in
    ascending order of timestamp, with their count. *)
Theorem api_trace_case_insensitive (q : string) (start_time end_time : option string)
    (st : state) :
  reachable st ->
  (forall q', same_up_to_case q' q ->
     api_trace q' start_time end_time st = api_trace q start_time end_time st)
  /\ api_trace "abc123" start_time end_time st = api_trace "ABC123" start_time end_time st
  /\ tr_icao (api_trace q start_time end_time st) = upper q
  /\ Forall2 shows (tr_trace (api_trace q start_time end_time st))
       (trace_rows q start_time end_time st)
  /\ StronglySorted point_ascending (tr_trace (api_trace q start_time end_time st))
  /\ tr_positions (api_trace q start_time end_time st)
     = Z.of_nat (length (tr_trace (api_trace q start_time end_time st)))
  /\ tr_positions (api_trace q start_time end_time st)
     = Z.of_nat (length (trace_rows q start_time end_time st))
  /\ Permutation (trace_rows q start_time end_time st)
       (List.filter (fun r => icao_matches q r && in_bounds start_time end_time r)
          (positions st))
  /\ (forall r, In r (trace_rows q start_time end_time st) <->
        In r (positions st)
        /\ (exists i, icao r = SText i /\ same_up_to_case i q)
        /\ in_bounds start_time end_time r = true)
  /\ (forall p, In p (tr_trace (api_trace q start_time end_time st)) ->
        exists r, shows p r /\ In r (positions st)
          /\ (exists i, icao r = SText i /\ same_up_to_case i q)
          /\ in_bounds start_time end_time r = true)
  /\ (forall r, In r (positions st) ->
        (exists i, icao r = SText i /\ same_up_to_case i q) ->
        in_bounds start_time end_time r = true ->
        exists p, In p (tr_trace (api_trace q start_time end_time st)) /\ shows p r)
  /\ StronglySorted timestamp_ascending (trace_rows q start_time end_time st)
  /\ (forall (r : row) (d a : datetime), snapshot_at r d -> valid_datetime a = true ->
        in_bounds (Some (adapt_datetime a)) None r = datetime_leb a d
        /\ in_bounds None (Some (adapt_datetime a)) r = datetime_leb d a).
Proof.
  intros Hreach. pose proof (reachable_icao_uppercased st Hreach) as Hinv.
  assert (Hperm : Permutation (trace_rows q start_time end_time st)
            (List.filter (fun r => icao_matches q r && in_bounds start_time end_time r)
               (positions st))).
  { rewrite (trace_rows_spec q _ _ st Hinv). apply order_by_permutation. }
  assert (Hsorted : StronglySorted timestamp_ascending (trace_rows q start_time end_time st)).
  { unfold trace_rows.
    apply (order_by_sorted by_timestamp by_timestamp_total by_timestamp_trans). }
  assert (Hrows : forall r, In r (trace_rows q start_time end_time st) <->
            In r (positions st)
            /\ (exists i, icao r = SText i /\ same_up_to_case i q)
            /\ in_bounds start_time end_time r = true).
  { intros r. rewrite <- icao_matches_iff. split.
    - intros H. apply (Permutation_in _ Hperm) in H. apply List.filter_In in H.
      destruct H as [Hin H]. apply andb_true_iff in H. tauto.
    - intros (Hin & Hm & Hb). apply (Permutation_in _ (Permutation_sym Hperm)).
      apply List.filter_In. rewrite Hm, Hb. split; [exact Hin | reflexivity]. }
  assert (Hshow : Forall2 shows (tr_trace (api_trace q start_time end_time st))
                    (trace_rows q start_time end_time st)).
  { unfold api_trace. cbn [tr_trace]. apply trace_points_show. }
  split; [|split; [|split; [|split; [|split; [|split; [|split; [|split; [|split;
    [|split; [|split; [|split]]]]]]]]]]].
  - intros q' Hq. apply upper_eq_iff in Hq.
    unfold api_trace, trace_rows. rewrite Hq. reflexivity.
  - reflexivity.
  - reflexivity.
  - exact Hshow.
  - unfold api_trace. cbn [tr_trace]. apply trace_points_sorted. exact Hsorted.
  - reflexivity.
  - unfold api_trace. cbn [tr_positions]. rewrite length_map. reflexivity.
  - exact Hperm.
  - exact Hrows.
  - intros p Hp. destruct (Forall2_In_l _ _ _ _ Hshow Hp) as (r & Hr & Hpr).
    exists r. split; [exact Hpr|]. apply Hrows. exact Hr.
  - intros r Hin Hm Hb.
    assert (Hr : In r (trace_rows q start_time end_time st)) by (apply Hrows; tauto).
    exists (trace_point_of r). split.
    + unfold api_trace. cbn [tr_trace]. apply in_map. exact Hr.
    + unfold shows, trace_point_of. cbn. repeat split.
  - exact Hsorted.
  - intros r d a Hsnap Ha. unfold in_bounds, given.
    assert (Hne : String.eqb (adapt_datetime a) "" = false).
    { unfold adapt_datetime. rewrite isoformat_stamp. reflexivity. }
    rewrite Hne, andb_true_r. cbn [andb].
    apply (timestamp_bounds_instants r d a); assumption.
Qed.

Lemma api_trace_case_insensitive_witness :
  api_trace "abc123" None None st_one_flight = api_trace "ABC123" None None st_one_flight
  /\ tr_positions (api_trace "abc123" None None st_one_flight) = 1
  /\ exists p, In p (tr_trace (api_trace "abc123" None None st_one_flight))
       /\ tp_timestamp p = "2024-06-01 12:00:00"
       /\ tp_lat p = SReal (S754_finite false 5 1)
       /\ tp_lon p = SReal (S754_finite true 5 0)
       /\ tp_altitude p = SInt 35000 /\ tp_speed p = SNull /\ tp_track p = SNull.
Proof.
  pose proof (api_trace_case_insensitive "abc123" None None st_one_flight
                (reachable_save sample_clock [ac_cruise; ac_no_hex] st_fresh
                   (reachable_start 10 14))) as H.
  split; [exact (proj1 (proj2 H))|]. split; [reflexivity|].
  destruct H as (_ & _ & _ & _ & _ & _ & _ & _ & _ & _ & Hpoint & _).
  destruct (Hpoint
              {| timestamp := "2024-06-01 12:00:00"; icao := SText "ABC123";
                 callsign := SText "UAL1";
                 lat := SReal (S754_finite false 5 1);
                 lon := SReal (S754_finite true 5 0);
                 altitude := SInt 35000; speed := SNull; track := SNull;
                 vert_rate := SInt (-64); squawk := SNull; category := SNull;
                 aircraft_type := SNull; rssi := SNull |})
    as (p & Hp & Hshows).
  - vm_compute. left. reflexivity.
  - exists "ABC123". split; [reflexivity|]. apply upper_eq_iff. reflexivity.
  - reflexivity.
  - exists p. split; [exact Hp|]. exact Hshows.
Defined.

(** ** api_recent *)

(** A stored timestamp of the calendar day of an ISO text with the "T"
    separator sorts before that text, whatever the times of day. *)
Lemma same_day_before_T (d c : datetime) (fd fc : string) :
  valid_datetime d = true -> valid_datetime c = true ->
  year d = year c -> month d = month c -> day d = day c ->
  String.compare (stamp " " d fd) (stamp "T" c fc) = Lt.
Proof.
  intros Hd Hc Hy Hm Hday.
  apply valid_datetime_ranges in Hd. apply valid_datetime_ranges in Hc.
  unfold stamp.
  rewrite (compare_field 4) by (cbn; lia). rewrite Hy, Z.compare_refl, compare_separator.
  rewrite (compare_field 2) by (cbn; lia). rewrite Hm, Z.compare_refl, compare_separator.
  rewrite (compare_field 2) by (cbn; lia). rewrite Hday, Z.compare_refl.
  reflexivity.
Qed.

Lemma recent_filter_same_day (r : row) (d c : datetime) :
  snapshot_at r d -> valid_datetime c = true ->
  year d = year c -> month d = month c -> day d = day c ->
  timestamp_ge (timestamp r) (isoformat "T" c) = false.
Proof.
  intros (Hv & _ & Hts) Hc Hy Hm Hd. unfold timestamp_ge, timestamp_lt, timestamp_compare.
  rewrite isoformat_not_numeric, Hts, current_timestamp_stamp, isoformat_stamp.
  rewrite (same_day_before_T d c) by assumption. reflexivity.
Qed.

(** C2 on the code.  The window is tested by comparing the stored text
    ("YYYY-MM-DD HH:MM:SS") with an ISO text whose separator is "T": a
    snapshot of the calendar day of the cutoff is never selected, however
    recent.  So the aircraft seen at noon is missing from the answer at
    12:30.  And for an aircraft that is selected, [lat], [lon] and
    [altitude] are the maxima over its snapshots of the window: after the
    snapshots of 00:10 and 00:20 the answer shows (10.0, 30.0) at 5000 ft,
    the position of neither, where the latest is (5.0, 30.0) at 3000 ft. *)
Theorem api_recent_misses_window :
  (forall (now cutoff : datetime) (st : state),
     datetime_sub now 0 3600 = Ok cutoff ->
     Forall (fun r => exists d, snapshot_at r d /\ year d = year cutoff
                        /\ month d = month cutoff /\ day d = day cutoff)
       (positions st) ->
     api_recent now st = Ok [])
  /\ datetime_sub (at_time 2024 6 1 12 30) 0 3600 = Ok (at_time 2024 6 1 11 30)
  /\ snapshot_at row_noon (at_time 2024 6 1 12 0)
  /\ datetime_leb (at_time 2024 6 1 11 30) (at_time 2024 6 1 12 0) = true
  /\ api_recent (at_time 2024 6 1 12 30) st_noon = Ok []
  /\ api_recent (at_time 2024 6 2 0 30) st_midnight =
       Ok [ {| re_icao := SText "ABC123";
               re_lat := SReal (S754_finite false 5 1);
               re_lon := SReal (S754_finite false 15 1);
               re_altitude := SInt 5000;
               re_last_seen := "2024-06-02 00:20:00";
               re_positions := 2 |} ]
  /\ lat row_0020 = SReal (S754_finite false 5 0)
  /\ altitude row_0020 = SInt 3000.
Proof.
  split.
  - intros now cutoff st Hcut Hall. unfold api_recent. rewrite Hcut. cbn [result_bind].
    pose proof (datetime_sub_valid _ _ _ _ Hcut) as Hvalid.
    assert (Hnone : List.filter
              (fun r => timestamp_ge (timestamp r) (isoformat "T" cutoff)) (positions st) = []).
    { induction Hall as [|r l (d & Hs & Hy & Hm & Hd) _ IH]; [reflexivity|].
      cbn. rewrite (recent_filter_same_day r d cutoff Hs Hvalid Hy Hm Hd). exact IH. }
    rewrite Hnone. reflexivity.
  - repeat split; vm_compute; reflexivity.
Qed.

(** * Further properties of the logger *)

(** ** save_aircraft: batches *)

Lemma insert_row_refused (ts : string) (ac : dict) :
  feed_record ac = false -> exists e, insert_row ts ac = Raise e.
Proof.
  intros H. destruct (insert_row ts ac) as [r|e] eqn:Hr; [|eauto].
  rewrite (insert_row_ok_feed_record ts ac r Hr) in H. discriminate.
Qed.

Lemma save_loop_refused (clock : nat -> string) (l : list dict) :
  Exists refused l ->
  forall (i : nat) (c : conn) (count : Z),
  exists (c' : conn) (e : exn), save_loop clock i l c count = (c', Raise e).
Proof.
  induction 1 as [ac l [Hp Hf]|ac l _ IH]; intros i c count; cbn [save_loop].
  - rewrite Hp. destruct (insert_row_refused (clock i) ac Hf) as [e ->]. eauto.
  - destruct (has_position ac); [|apply IH].
    destruct (insert_row (clock i) ac) as [r|e]; [|eauto].
    destruct (execute_insert c r) as [c1|e]; [apply IH | eauto].
Qed.

(** X1. One record with a position that the insert refuses (a [hex]
    that is not a string, say) anywhere in a batch makes [save_aircraft]
    raise, and the whole batch is lost: the table, the counter and the
    settings are as before, the rows of the records before it
    included. *)
Theorem save_aircraft_all_or_nothing (clock : nat -> string) (aircraft_list : list dict)
    (st : state) :
  Exists refused aircraft_list ->
  exists e : exn, save_aircraft clock aircraft_list st = (st, Raise e).
Proof.
  intros Hbad. unfold save_aircraft.
  destruct aircraft_list as [|ac l]; [inversion Hbad|].
  pose proof (save_loop_committed clock (ac :: l) 0 (get_db st) 0) as Hc.
  destruct (save_loop_refused clock (ac :: l) Hbad 0%nat (get_db st) 0) as (c' & e & Hloop).
  rewrite Hloop in *. exists e. cbn in Hc. unfold close. rewrite Hc, set_positions_same.
  reflexivity.
Qed.

Lemma save_aircraft_all_or_nothing_witness :
  exists e : exn,
    save_aircraft sample_clock [ac_cruise; ac_bad_hex; ac_no_hex] st_fresh
    = (st_fresh, Raise e).
Proof.
  apply (save_aircraft_all_or_nothing sample_clock [ac_cruise; ac_bad_hex; ac_no_hex] st_fresh).
  apply Exists_cons_tl, Exists_cons_hd. split; vm_compute; reflexivity.
Defined.

(** X2. Whatever the batch and whether the call returns or raises,
    [save_aircraft] moves the total-logged counter by exactly the number
    of rows it added to the table, only appends to the table, and leaves
    the settings and the config documents alone. *)
Theorem save_aircraft_counter_follows_table (clock : nat -> string)
    (aircraft_list : list dict) (st : state) :
  let st' := fst (save_aircraft clock aircraft_list st) in
  total_logged st' - total_logged st
    = Z.of_nat (length (positions st')) - Z.of_nat (length (positions st))
  /\ (exists rows, positions st' = (positions st ++ rows)%list)
  /\ LOG_INTERVAL st' = LOG_INTERVAL st
  /\ LOG_RETENTION_DAYS st' = LOG_RETENTION_DAYS st
  /\ logger_paused st' = logger_paused st
  /\ config_file st' = config_file st
  /\ user_config_file st' = user_config_file st.
Proof.
  cbv zeta. destruct (save_aircraft clock aircraft_list st) as [st' [n|e]] eqn:Hs; cbn [fst].
  - destruct (save_aircraft_ok _ _ _ _ _ Hs) as (rows & Hpos & Hn & Htot & _).
    split; [rewrite Hpos, length_app; lia|]. split; [eauto|].
    unfold save_aircraft in Hs. destruct aircraft_list as [|ac l].
    + injection Hs as <- _. repeat split.
    + destruct (save_loop clock 0 (ac :: l) (get_db st) 0) as [c [k|e]]; [|discriminate].
      injection Hs as <- _. repeat split.
  - rewrite (save_aircraft_raise_rollback _ _ _ _ _ Hs).
    split; [lia|]. split; [exists []; rewrite app_nil_r; reflexivity|]. repeat split.
Qed.

(** ** Stored callsigns *)

Lemma lstrip_no_leading_space (s : string) : starts_with_space (lstrip s) = false.
Proof.
  induction s as [|c s IH]; [reflexivity|]. cbn [lstrip].
  destruct (py_isspace c) eqn:Hc; [exact IH | cbn; exact Hc].
Qed.

Lemma rstrip_no_trailing_space (s : string) : ends_with_space (rstrip s) = false.
Proof.
  induction s as [|c s IH]; [reflexivity|]. cbn [rstrip].
  destruct (rstrip s) as [|d t] eqn:Hr.
  - destruct (py_isspace c) eqn:Hc; [reflexivity | cbn; exact Hc].
  - exact IH.
Qed.

Lemma rstrip_keeps_head (s : string) :
  starts_with_space s = false -> starts_with_space (rstrip s) = false.
Proof.
  destruct s as [|c s]; [reflexivity|]. cbn [starts_with_space rstrip]. intros Hc.
  destruct (rstrip s); [rewrite Hc|]; cbn; exact Hc.
Qed.

Lemma strip_trimmed (s : string) :
  starts_with_space (strip s) = false /\ ends_with_space (strip s) = false.
Proof.
  unfold strip. split;
    [apply rstrip_keeps_head, lstrip_no_leading_space | apply rstrip_no_trailing_space].
Qed.

Lemma insert_row_callsign (ts : string) (ac : dict) (r : row) :
  insert_row ts ac = Ok r -> trimmed_or_null (callsign r).
Proof.
  intros H. destruct (insert_row_fields ts ac r H) as (_ & (v & Hv & Hcs) & _).
  destruct (py_truthy (py_get ac "flight")).
  - destruct (py_get_default ac "flight" (PStr "")); try discriminate.
    injection Hv as <-. injection Hcs as <-. right.
    eexists. split; [reflexivity | apply strip_trimmed].
  - injection Hv as <-. injection Hcs as <-. left. reflexivity.
Qed.

(** X3. Every callsign [save_aircraft] stores is NULL or a text with no
    white space at either end; a [flight] that is not empty and is made
    of white space only is stored as the empty text, not as NULL. *)
Theorem save_aircraft_callsign_trimmed (clock : nat -> string)
    (aircraft_list : list dict) (st st' : state) (n : Z) :
  save_aircraft clock aircraft_list st = (st', Ok n) ->
  (exists rows : list row,
     positions st' = (positions st ++ rows)%list
     /\ Forall (fun r => trimmed_or_null (callsign r)) rows)
  /\ (forall ts r, insert_row ts ac_blank_flight = Ok r -> callsign r = SText "")
  /\ (forall ts ac s r, ac !! "flight" = Some (PStr s) -> s <> "" -> strip s = "" ->
        insert_row ts ac = Ok r -> callsign r = SText "").
Proof.
  intros H. split; [|split].
  - destruct (save_aircraft_ok _ _ _ _ _ H) as (rows & Hpos & _ & _ & Hall).
    exists rows. split; [exact Hpos|]. clear Hpos.
    induction Hall as [|p r ps rs Hr _ IH]; constructor; [|exact IH].
    apply (insert_row_callsign _ _ _ Hr).
  - intros ts r Hr. vm_compute in Hr. injection Hr as <-. reflexivity.
  - intros ts ac s r Hflight Hne Hblank Hr.
    destruct (insert_row_fields _ _ _ Hr) as (_ & (v & Hv & Hbind) & _).
    unfold py_get, py_get_default in Hv. rewrite Hflight in Hv.
    cbn [py_truthy py_strip] in Hv.
    apply String.eqb_neq in Hne. rewrite Hne in Hv. cbn [negb] in Hv.
    rewrite Hblank in Hv. injection Hv as <-.
    cbn [bind_param] in Hbind. injection Hbind as <-. reflexivity.
Qed.

Lemma save_aircraft_callsign_trimmed_witness :
  exists rows : list row,
    positions (fst (save_aircraft sample_clock [ac_cruise; ac_blank_flight] st_fresh))
      = (positions st_fresh ++ rows)%list
    /\ Forall (fun r => trimmed_or_null (callsign r)) rows.
Proof.
  apply (proj1 (save_aircraft_callsign_trimmed sample_clock [ac_cruise; ac_blank_flight]
                  st_fresh
                  (fst (save_aircraft sample_clock [ac_cruise; ac_blank_flight] st_fresh)) 2
                  ltac:(vm_compute; reflexivity))).
Defined.

(** ** Settings: conversions that fail, retention *)

Lemma api_settings_post_unfold (w : write) (data : dict) (st st1 : state) :
  update_interval data st = Ok st1 ->
  api_settings_post w data st =
  match update_retention data st1 with
  | Raise e => (st1, Raise e)
  | Ok st2 =>
      (save_config w st2,
       Ok {| sr_status := 200; sr_success := true;
             sr_interval := LOG_INTERVAL (save_config w st2);
             sr_retention_days := LOG_RETENTION_DAYS (save_config w st2) |})
  end.
Proof. intros H. unfold api_settings_post. rewrite H. reflexivity. Qed.

Lemma update_interval_frame (data : dict) (st st1 : state) :
  update_interval data st = Ok st1 ->
  positions st1 = positions st /\ total_logged st1 = total_logged st
  /\ LOG_RETENTION_DAYS st1 = LOG_RETENTION_DAYS st
  /\ logger_paused st1 = logger_paused st
  /\ config_file st1 = config_file st /\ user_config_file st1 = user_config_file st.
Proof.
  unfold update_interval. destruct (data !! "interval") as [v|]; [|intros [= <-]; repeat split].
  destruct (py_int v) as [n|e]; [|discriminate]. cbn [result_bind].
  destruct ((5 <=? n) && (n <=? 60)); intros [= <-]; repeat split.
Qed.

(** X4. A settings update is not all-or-nothing.  When [retention_days]
    does not convert to an integer the request fails with the exception
    of the conversion and nothing is persisted, but an interval of the
    same request that is in range has already replaced the interval in
    use.  When the interval itself does not convert, nothing at all
    changes. *)
Theorem api_settings_failed_conversion (disk : write) (data : dict) (st : state) :
  (forall v e, data !! "interval" = Some v -> py_int v = Raise e ->
     api_settings_post disk data st = (st, Raise e))
  /\ (forall v e v' n,
        data !! "retention_days" = Some v -> py_int v = Raise e ->
        data !! "interval" = Some v' -> py_int v' = Ok n -> 5 <= n <= 60 ->
        snd (api_settings_post disk data st) = Raise e
        /\ LOG_INTERVAL (fst (api_settings_post disk data st)) = n
        /\ LOG_RETENTION_DAYS (fst (api_settings_post disk data st))
           = LOG_RETENTION_DAYS st
        /\ config_file (fst (api_settings_post disk data st)) = config_file st).
Proof.
  split.
  - intros v e Hv He. unfold api_settings_post, update_interval. rewrite Hv, He. reflexivity.
  - intros v e v' n Hv He Hv' Hn Hr.
    assert (H1 : update_interval data st = Ok (set_interval st n)).
    { unfold update_interval. rewrite Hv', Hn. cbn [result_bind].
      rewrite (interval_in_range n Hr). reflexivity. }
    rewrite (api_settings_post_unfold _ _ _ _ H1).
    unfold update_retention. rewrite Hv, He. cbn. repeat split.
Qed.

Lemma api_settings_failed_conversion_witness :
  snd (api_settings_post Written body_bad_retention st_fresh) = Raise ValueError
  /\ LOG_INTERVAL (fst (api_settings_post Written body_bad_retention st_fresh)) = 30
  /\ LOG_RETENTION_DAYS (fst (api_settings_post Written body_bad_retention st_fresh))
     = LOG_RETENTION_DAYS st_fresh
  /\ config_file (fst (api_settings_post Written body_bad_retention st_fresh))
     = config_file st_fresh.
Proof.
  apply (proj2 (api_settings_failed_conversion Written body_bad_retention st_fresh)
           (PStr "two weeks") ValueError (PInt 30) 30);
    [reflexivity | reflexivity | reflexivity | reflexivity | lia].
Defined.

(** X5. On a settings update whose interval, if any, converts, a
    requested retention of 0 or more days is stored as given, with no
    upper bound, and a negative one is ignored; so the retention in use
    is never made negative by an update. *)
Theorem api_settings_retention_guard (disk : write) (data : dict) (st st1 : state) :
  update_interval data st = Ok st1 ->
  (forall v n, data !! "retention_days" = Some v -> py_int v = Ok n -> 0 <= n ->
     LOG_RETENTION_DAYS (fst (api_settings_post disk data st)) = n)
  /\ (forall v n, data !! "retention_days" = Some v -> py_int v = Ok n -> n < 0 ->
        LOG_RETENTION_DAYS (fst (api_settings_post disk data st))
        = LOG_RETENTION_DAYS st)
  /\ (0 <= LOG_RETENTION_DAYS st ->
      0 <= LOG_RETENTION_DAYS (fst (api_settings_post disk data st))).
Proof.
  intros H1. rewrite (api_settings_post_unfold _ _ _ _ H1).
  destruct (update_interval_frame _ _ _ H1) as (_ & _ & Hret & _).
  unfold update_retention. split; [|split].
  - intros v n Hv Hn Hpos. rewrite Hv, Hn. cbn [result_bind].
    destruct (Z.leb_spec 0 n); [|lia]. cbn [fst].
    rewrite (proj1 (proj2 (save_config_globals disk _))). reflexivity.
  - intros v n Hv Hn Hneg. rewrite Hv, Hn. cbn [result_bind].
    destruct (Z.leb_spec 0 n); [lia|]. cbn [fst].
    rewrite (proj1 (proj2 (save_config_globals disk _))). exact Hret.
  - intros Hpos. destruct (data !! "retention_days") as [v|].
    + destruct (py_int v) as [n|e]; cbn [result_bind fst]; [|lia].
      destruct (Z.leb_spec 0 n); cbn [fst];
        rewrite (proj1 (proj2 (save_config_globals disk _))); cbn; lia.
    + cbn [fst]. rewrite (proj1 (proj2 (save_config_globals disk _))). lia.
Qed.

Lemma api_settings_retention_guard_witness :
  LOG_RETENTION_DAYS (fst (api_settings_post Written body_20_7 st_fresh)) = 7.
Proof.
  apply (proj1 (api_settings_retention_guard Written body_20_7 st_fresh
                  (set_interval st_fresh 20) eq_refl) (PInt 7) 7);
    [reflexivity | reflexivity | lia].
Defined.

(** ** User config *)

(** X6. A user-config update that is written merges shallowly: every
    key of the request takes the request's value, every other key keeps
    its value, and the reply and a GET afterwards both show the merged
    document; nothing else of the state changes. *)
Theorem api_userconfig_merge (data : dict) (st : state) :
  data <> ∅ ->
  let st' := fst (api_userconfig_post Written data st) in
  let reply := snd (api_userconfig_post Written data st) in
  ur_status reply = 200 /\ ur_success reply = true
  /\ ur_config reply = Some (api_userconfig_get st')
  /\ (forall k v, data !! k = Some v -> api_userconfig_get st' !! k = Some v)
  /\ (forall k, data !! k = None ->
        api_userconfig_get st' !! k = api_userconfig_get st !! k)
  /\ positions st' = positions st /\ total_logged st' = total_logged st
  /\ api_settings_get st' = api_settings_get st.
Proof.
  intros Hne. cbv zeta. unfold api_userconfig_post, save_user_config.
  destruct (decide (data = ∅)); [contradiction|]. cbn.
  unfold api_userconfig_get, load_user_config. cbn.
  split; [reflexivity|]. split; [reflexivity|]. split; [reflexivity|].
  split; [|split; [|repeat split]].
  - intros k v Hk. apply lookup_union_Some_l. exact Hk.
  - intros k Hk. apply lookup_union_r. exact Hk.
Qed.

Lemma api_userconfig_merge_witness :
  api_userconfig_get (fst (api_userconfig_post Written body_short_id st_with_prefs))
    !! "adsbx_short_id" = Some (PStr "k3Xy")
  /\ api_userconfig_get (fst (api_userconfig_post Written body_short_id st_with_prefs))
       !! "theme" = Some (PStr "dark").
Proof.
  destruct (api_userconfig_merge body_short_id st_with_prefs)
    as (_ & _ & _ & Hnew & Hold & _).
  - intros H. apply (f_equal (fun m : dict => m !! "adsbx_short_id")) in H.
    vm_compute in H. discriminate H.
  - split.
    + apply Hnew. reflexivity.
    + rewrite Hold; reflexivity.
Defined.

(** X7. A user-config update with an empty body is answered 400 and
    touches nothing, whatever would become of a write.  One whose write
    fails is answered 500 with [success] false and changes no row, no
    counter and no setting; when the open fails the document is as it
    was, but when the dump fails after the open the document is lost: a
    GET afterwards shows the empty document, whatever was stored before.
    Sending the same update twice, written both times, gives the
    document of sending it once. *)
Theorem api_userconfig_failed_write (disk : write) (data : dict) (st : state) :
  api_userconfig_post disk ∅ st
    = (st, {| ur_status := 400; ur_success := false; ur_config := None;
              ur_error := Some "No data provided" |})
  /\ (data <> ∅ ->
      api_userconfig_post OpenFails data st
        = (st, {| ur_status := 500; ur_success := false; ur_config := None;
                  ur_error := Some "Could not save config" |})
      /\ api_userconfig_post DumpFails data st
         = (set_user_config_file st None,
            {| ur_status := 500; ur_success := false; ur_config := None;
               ur_error := Some "Could not save config" |})
      /\ api_userconfig_get (fst (api_userconfig_post DumpFails data st)) = ∅)
  /\ positions (fst (api_userconfig_post disk data st)) = positions st
  /\ total_logged (fst (api_userconfig_post disk data st)) = total_logged st
  /\ api_settings_get (fst (api_userconfig_post disk data st)) = api_settings_get st
  /\ config_file (fst (api_userconfig_post disk data st)) = config_file st
  /\ api_userconfig_get
       (fst (api_userconfig_post Written data (fst (api_userconfig_post Written data st))))
     = api_userconfig_get (fst (api_userconfig_post Written data st)).
Proof.
  unfold api_userconfig_post, save_user_config, api_userconfig_get, load_user_config.
  split; [|split; [|split; [|split; [|split; [|split]]]]].
  - destruct (decide ((∅ : dict) = ∅)) as [_|H]; [reflexivity|]. contradiction H. reflexivity.
  - intros Hne. destruct (decide (data = ∅)); [contradiction|]. repeat split.
  - destruct (decide (data = ∅)); [reflexivity|]. destruct disk; reflexivity.
  - destruct (decide (data = ∅)); [reflexivity|]. destruct disk; reflexivity.
  - destruct (decide (data = ∅)); [reflexivity|]. destruct disk; reflexivity.
  - destruct (decide (data = ∅)); [reflexivity|]. destruct disk; reflexivity.
  - destruct (decide (data = ∅)) as [->|Hne]; cbn; [reflexivity|].
    destruct (decide (data = ∅)); [contradiction|]. cbn.
    rewrite (assoc_L (∪)), (idemp_L (∪)). reflexivity.
Qed.

Lemma api_userconfig_failed_write_witness :
  api_userconfig_get st_with_prefs !! "theme" = Some (PStr "dark")
  /\ ur_status (snd (api_userconfig_post DumpFails body_short_id st_with_prefs)) = 500
  /\ api_userconfig_get (fst (api_userconfig_post DumpFails body_short_id st_with_prefs))
     = ∅
  /\ fst (api_userconfig_post OpenFails body_short_id st_with_prefs) = st_with_prefs.
Proof.
  destruct (api_userconfig_failed_write Written body_short_id st_with_prefs)
    as (_ & Hfail & _).
  destruct Hfail as (Hopen & Hdump & Hget).
  - intros H. apply (f_equal (fun m : dict => m !! "adsbx_short_id")) in H.
    vm_compute in H. discriminate H.
  - split; [reflexivity|]. split; [rewrite Hdump; reflexivity|].
    split; [exact Hget|]. rewrite Hopen. reflexivity.
Defined.

(** ** Frames *)

Lemma save_aircraft_settings (clock : nat -> string) (l : list dict) (st : state) :
  LOG_INTERVAL (fst (save_aircraft clock l st)) = LOG_INTERVAL st
  /\ LOG_RETENTION_DAYS (fst (save_aircraft clock l st)) = LOG_RETENTION_DAYS st
  /\ logger_paused (fst (save_aircraft clock l st)) = logger_paused st
  /\ config_file (fst (save_aircraft clock l st)) = config_file st
  /\ user_config_file (fst (save_aircraft clock l st)) = user_config_file st.
Proof.
  unfold save_aircraft. destruct l as [|ac l]; [repeat split|].
  destruct (save_loop clock 0 (ac :: l) (get_db st) 0) as [c [k|e]]; repeat split.
Qed.

Lemma cleanup_old_records_settings (now : datetime) (st : state) :
  total_logged (fst (cleanup_old_records now st)) = total_logged st
  /\ LOG_INTERVAL (fst (cleanup_old_records now st)) = LOG_INTERVAL st
  /\ LOG_RETENTION_DAYS (fst (cleanup_old_records now st)) = LOG_RETENTION_DAYS st
  /\ logger_paused (fst (cleanup_old_records now st)) = logger_paused st
  /\ config_file (fst (cleanup_old_records now st)) = config_file st
  /\ user_config_file (fst (cleanup_old_records now st)) = user_config_file st.
Proof.
  unfold cleanup_old_records.
  destruct (LOG_RETENTION_DAYS st <=? 0); [repeat split|].
  destruct (datetime_sub now (LOG_RETENTION_DAYS st) 0) as [cutoff|e]; [|repeat split].
  cbn [get_db connect pending]. destruct (0 <? _); repeat split.
Qed.

(** ** Pause and resume *)

Lemma logger_loop_paused (ticks : list tick) (lg : logger) :
  logger_paused (process lg) = true -> logger_loop ticks lg = (lg, Ok tt).
Proof.
  intros H. induction ticks as [|t ticks IH]; [reflexivity|].
  cbn [logger_loop]. unfold logger_step. rewrite H. exact IH.
Qed.

(** X8. After POST /api/pause the logger loop does nothing, however
    many turns it takes and whatever the feed sends: no poll, no row, no
    sweep, no change of the last-poll data.  The pause shows in /health
    and in the settings, changes no other setting and no row, and is
    undone by POST /api/resume. *)
Theorem api_pause_stops_logger (disk : write) (ticks : list tick) (lg : logger) :
  let paused := with_process lg (fst (api_pause disk (process lg))) in
  logger_loop ticks paused = (paused, Ok tt)
  /\ hr_paused (health paused) = true
  /\ api_settings_get (process paused)
     = {| sv_interval := LOG_INTERVAL (process lg);
          sv_retention_days := LOG_RETENTION_DAYS (process lg);
          sv_paused := true |}
  /\ positions (process paused) = positions (process lg)
  /\ total_logged (process paused) = total_logged (process lg)
  /\ forall w, logger_paused (fst (api_resume w (process paused))) = false
       /\ positions (fst (api_resume w (process paused))) = positions (process lg)
       /\ LOG_INTERVAL (fst (api_resume w (process paused))) = LOG_INTERVAL (process lg)
       /\ LOG_RETENTION_DAYS (fst (api_resume w (process paused)))
          = LOG_RETENTION_DAYS (process lg).
Proof.
  cbv zeta. split.
  - apply logger_loop_paused. destruct disk; reflexivity.
  - destruct disk; repeat split; destruct w; reflexivity.
Qed.

(** ** The config document across a restart *)

Lemma load_config_saved (i r : Z) (st : state) :
  api_settings_get (load_config (boot i r (save_config Written st)))
  = api_settings_get (save_config Written st).
Proof. reflexivity. Qed.

(** X9. Settings that were persisted survive a restart, whatever the
    environment of the new process says: after a settings update that
    returned, or after a pause or a resume, with the document written,
    the process that restarts reads back the interval, the retention and
    the paused flag that were in use.  Without a document the new
    process runs on its environment, not paused; so it does after a
    settings update whose dump failed once the file was opened, which
    loses the document of before. *)
Theorem settings_survive_restart (env_interval env_retention : Z) (st : state) :
  (forall data reply,
     snd (api_settings_post Written data st) = Ok reply ->
     api_settings_get
       (load_config (boot env_interval env_retention (fst (api_settings_post Written data st))))
     = api_settings_get (fst (api_settings_post Written data st)))
  /\ api_settings_get
       (load_config (boot env_interval env_retention (fst (api_pause Written st))))
     = api_settings_get (fst (api_pause Written st))
  /\ api_settings_get
       (load_config (boot env_interval env_retention (fst (api_resume Written st))))
     = api_settings_get (fst (api_resume Written st))
  /\ (config_file st = None ->
      api_settings_get (load_config (boot env_interval env_retention st))
      = {| sv_interval := env_interval; sv_retention_days := env_retention;
           sv_paused := false |})
  /\ (forall data reply,
        snd (api_settings_post DumpFails data st) = Ok reply ->
        api_settings_get
          (load_config
             (boot env_interval env_retention (fst (api_settings_post DumpFails data st))))
        = {| sv_interval := env_interval; sv_retention_days := env_retention;
             sv_paused := false |}).
Proof.
  split; [|split; [|split; [|split]]].
  - intros data reply H. unfold api_settings_post in *.
    destruct (update_interval data st) as [st1|e]; [|discriminate].
    destruct (update_retention data st1) as [st2|e]; [|discriminate].
    cbn [fst]. apply load_config_saved.
  - reflexivity.
  - reflexivity.
  - intros H. unfold load_config, boot. cbn. rewrite H. reflexivity.
  - intros data reply H. unfold api_settings_post in *.
    destruct (update_interval data st) as [st1|e]; [|discriminate].
    destruct (update_retention data st1) as [st2|e]; [|discriminate].
    reflexivity.
Qed.

Lemma settings_survive_restart_witness :
  api_settings_get (load_config (boot 10 14 (fst (api_settings_post Written body_20_7 st_fresh))))
  = api_settings_get (fst (api_settings_post Written body_20_7 st_fresh)).
Proof.
  apply (proj1 (settings_survive_restart 10 14 st_fresh) body_20_7
           {| sr_status := 200; sr_success := true; sr_interval := 20;
              sr_retention_days := 7 |}).
  reflexivity.
Defined.

(** ** The logger loop *)

Lemma logger_step_running (t : tick) (lg lg' : logger) :
  logger_paused (process lg) = false ->
  logger_step t lg = (lg', Ok tt) ->
  logger_paused (process lg') = false
  /\ ((cleanup_counter lg + 1 < 360
       /\ cleanup_counter lg' = cleanup_counter lg + 1
       /\ process lg' =
          fst (save_aircraft (tick_clock t) (poll_ultrafeeder (tick_reply t)) (process lg)))
      \/ (360 <= cleanup_counter lg + 1
          /\ cleanup_counter lg' = 0
          /\ process lg' =
             fst (cleanup_old_records (tick_sweep_now t)
                    (fst (save_aircraft (tick_clock t) (poll_ultrafeeder (tick_reply t))
                            (process lg)))))).
Proof.
  intros Hp. unfold logger_step. rewrite Hp.
  pose proof (save_aircraft_settings (tick_clock t) (poll_ultrafeeder (tick_reply t))
                (process lg)) as (_ & _ & Hs & _).
  destruct (save_aircraft _ _ (process lg)) as [st1 [count|e]]; [|discriminate].
  cbn [fst] in *.
  destruct (Z.leb_spec 360 (cleanup_counter lg + 1)).
  - pose proof (cleanup_old_records_settings (tick_sweep_now t) st1) as (_ & _ & _ & Hc & _).
    destruct (cleanup_old_records (tick_sweep_now t) st1) as [st2 [k|e]]; [|discriminate].
    intros [= <-]. cbn in *. split; [congruence|]. right. auto.
  - intros [= <-]. cbn. split; [congruence|]. left. auto.
Qed.

(** X10. While the logger runs unpaused and no turn raises, the sweep
    counter counts the polls modulo 360: the retention sweep runs in the
    turn that brings the counter to 360, which resets it, and in no
    other turn. *)
Theorem logger_loop_sweep_cadence (ticks : list tick) (lg lg' : logger) :
  logger_paused (process lg) = false ->
  0 <= cleanup_counter lg < 360 ->
  logger_loop ticks lg = (lg', Ok tt) ->
  cleanup_counter lg' = (cleanup_counter lg + Z.of_nat (length ticks)) mod 360
  /\ logger_paused (process lg') = false
  /\ forall t lg1, logger_step t lg' = (lg1, Ok tt) ->
       (cleanup_counter lg' < 359 ->
        process lg1 =
          fst (save_aircraft (tick_clock t) (poll_ultrafeeder (tick_reply t)) (process lg')))
       /\ (cleanup_counter lg' = 359 ->
           process lg1 =
             fst (cleanup_old_records (tick_sweep_now t)
                    (fst (save_aircraft (tick_clock t) (poll_ultrafeeder (tick_reply t))
                            (process lg'))))
           /\ cleanup_counter lg1 = 0).
Proof.
  revert lg. induction ticks as [|t ticks IH]; intros lg Hp Hc H.
  - cbn in H. injection H as <-. cbn [length]. rewrite Z.add_0_r, Z.mod_small by lia.
    split; [reflexivity|]. split; [exact Hp|].
    intros t lg1 Hstep. destruct (logger_step_running t lg lg1 Hp Hstep) as (_ & [H|H]);
      split; intros Hk; try lia; tauto.
  - cbn [logger_loop] in H.
    destruct (logger_step t lg) as [lg1 [[]|e]] eqn:Hstep; [|discriminate].
    destruct (logger_step_running t lg lg1 Hp Hstep) as (Hp1 & Hcases).
    assert (Hc1 : 0 <= cleanup_counter lg1 < 360
                  /\ (cleanup_counter lg1 + Z.of_nat (length ticks)) mod 360
                     = (cleanup_counter lg + Z.of_nat (length (t :: ticks))) mod 360).
    { cbn [length]. rewrite Nat2Z.inj_succ.
      destruct Hcases as [(Hlt & -> & _)|(Hge & -> & _)].
      - split; [lia|]. f_equal. lia.
      - split; [lia|]. assert (cleanup_counter lg = 359) as -> by lia.
        replace (359 + Z.succ (Z.of_nat (length ticks)))
          with (Z.of_nat (length ticks) + 1 * 360) by lia.
        rewrite Z.mod_add by lia. reflexivity. }
    destruct Hc1 as [Hc1 <-]. apply (IH lg1 Hp1 Hc1 H).
Qed.

Lemma logger_loop_sweep_cadence_witness :
  cleanup_counter (fst (logger_loop [tick_of RequestFailed; tick_of InvalidJson] lg_fresh))
  = (cleanup_counter lg_fresh + Z.of_nat (length [tick_of RequestFailed; tick_of InvalidJson]))
    mod 360.
Proof.
  apply (logger_loop_sweep_cadence [tick_of RequestFailed; tick_of InvalidJson] lg_fresh
           (fst (logger_loop [tick_of RequestFailed; tick_of InvalidJson] lg_fresh)));
    [reflexivity | cbn; lia | vm_compute; reflexivity].
Defined.

(** X11. When the feed gives no list (the request fails, the body is
    not JSON, or the document has no [aircraft] key) an unpaused turn
    that is not a sweeping one still counts as a poll: it records the
    poll time and a count of 0, advances the sweep counter, and leaves
    the table, the total-logged counter and the settings alone. *)
Theorem logger_step_no_list (t : tick) (lg : logger) :
  no_list (tick_reply t) ->
  logger_paused (process lg) = false ->
  cleanup_counter lg + 1 < 360 ->
  logger_step t lg =
    ({| process := process lg; cleanup_counter := cleanup_counter lg + 1;
        last_poll_time := Some (isoformat "T" (tick_now t));
        last_poll_count := 0 |}, Ok tt).
Proof.
  intros Hr Hp Hc. unfold logger_step. rewrite Hp.
  assert (poll_ultrafeeder (tick_reply t) = []) as ->
    by (destruct Hr as [->|[->| ->]]; reflexivity).
  cbn [save_aircraft]. destruct (Z.leb_spec 360 (cleanup_counter lg + 1)); [lia|].
  reflexivity.
Qed.

Lemma logger_step_no_list_witness :
  logger_step (tick_of InvalidJson) lg_fresh =
    ({| process := process lg_fresh; cleanup_counter := cleanup_counter lg_fresh + 1;
        last_poll_time := Some (isoformat "T" (tick_now (tick_of InvalidJson)));
        last_poll_count := 0 |}, Ok tt).
Proof.
  apply (logger_step_no_list (tick_of InvalidJson) lg_fresh);
    [right; left; reflexivity | reflexivity | cbn; lia].
Defined.

(** X12. The loop does not catch what [save_aircraft] raises: one
    refused record in a polled list ends the thread in that turn, with
    the table, the counters and the last-poll data as before, and no
    later turn is taken. *)
Theorem logger_loop_ends_on_refused (t : tick) (rest : list tick) (lg : logger) :
  logger_paused (process lg) = false ->
  Exists refused (poll_ultrafeeder (tick_reply t)) ->
  exists e : exn, logger_loop (t :: rest) lg = (lg, Raise e).
Proof.
  intros Hp Hbad. cbn [logger_loop]. unfold logger_step. rewrite Hp.
  destruct (save_loop_refused (tick_clock t) _ Hbad 0%nat (get_db (process lg)) 0)
    as (c' & e & Hloop).
  pose proof (save_loop_committed (tick_clock t) (poll_ultrafeeder (tick_reply t)) 0
                (get_db (process lg)) 0) as Hc.
  exists e. unfold save_aircraft.
  destruct (poll_ultrafeeder (tick_reply t)) as [|ac l]; [inversion Hbad|].
  rewrite Hloop in *. cbn in Hc. unfold close. rewrite Hc, set_positions_same.
  destruct lg; reflexivity.
Qed.

Lemma logger_loop_ends_on_refused_witness :
  exists e : exn,
    logger_loop [tick_of (Document (Some [ac_cruise; ac_bad_hex])); tick_of RequestFailed]
      lg_fresh = (lg_fresh, Raise e).
Proof.
  apply (logger_loop_ends_on_refused (tick_of (Document (Some [ac_cruise; ac_bad_hex])))
           [tick_of RequestFailed] lg_fresh); [reflexivity|].
  apply Exists_cons_tl, Exists_cons_hd. split; vm_compute; reflexivity.
Defined.

(** ** More on the sweep *)

Lemma days_before_year_nonneg (y : Z) : 1 <= y -> 0 <= days_before_year y.
Proof.
  intros H. unfold days_before_year.
  assert ((y - 1) / 100 <= (y - 1) / 4).
  { apply Z.div_le_compat_l; lia. }
  assert (0 <= (y - 1) / 400) by (apply Z.div_pos; lia).
  nia.
Qed.

Lemma days_before_month_nonneg (y m : Z) : 0 <= days_before_month y m.
Proof.
  unfold days_before_month, days_before_month_table.
  assert (0 <= nth (Z.to_nat m) [0; 0; 31; 59; 90; 120; 151; 181; 212; 243; 273; 304; 334] 0).
  { generalize (Z.to_nat m). intros k.
    do 13 (destruct k as [|k]; [cbn; lia|]). destruct k; cbn; lia. }
  destruct ((2 <? m) && is_leap y); lia.
Qed.

(** X13. A retention that reaches back to before the first day of the
    calendar (as many days as today's ordinal, or more; the settings
    accept any) makes the sweep raise [OverflowError] on the date
    arithmetic, before it touches the store. *)
Theorem cleanup_old_records_overflow (now : datetime) (st : state) :
  valid_datetime now = true ->
  ymd2ord (year now) (month now) (day now) <= LOG_RETENTION_DAYS st ->
  cleanup_old_records now st = (st, Raise OverflowError).
Proof.
  intros Hv Hret. pose proof (valid_datetime_ranges now Hv) as Hr.
  pose proof (days_before_year_nonneg (year now) ltac:(lia)).
  pose proof (days_before_month_nonneg (year now) (month now)).
  unfold ymd2ord in Hret. unfold cleanup_old_records.
  destruct (Z.leb_spec (LOG_RETENTION_DAYS st) 0); [lia|].
  unfold datetime_sub. destruct (999999999 <? Z.abs (LOG_RETENTION_DAYS st)); [reflexivity|].
  rewrite (Z.div_small (hour now * 3600 + minute now * 60 + second now - 0) 86400) by lia.
  unfold ymd2ord.
  match goal with |- context [(0 <? ?d) && _] =>
    destruct (Z.ltb_spec 0 d); [lia|] end.
  reflexivity.
Qed.

Lemma cleanup_old_records_overflow_witness :
  cleanup_old_records now_sample (st_two_rows 1000000)
  = (st_two_rows 1000000, Raise OverflowError).
Proof.
  apply (cleanup_old_records_overflow now_sample (st_two_rows 1000000));
    [reflexivity | vm_compute; discriminate].
Defined.

Lemma filter_after_filter_out {A : Type} (p : A -> bool) (l : list A) :
  List.filter p (List.filter (fun x => negb (p x)) l) = [].
Proof.
  induction l as [|x l IH]; [reflexivity|]. cbn.
  destruct (p x) eqn:Hp; cbn; [exact IH | rewrite Hp; exact IH].
Qed.

Lemma filter_split_length {A : Type} (p : A -> bool) (l : list A) :
  (length (List.filter p l) + length (List.filter (fun x => negb (p x)) l))%nat = length l.
Proof.
  induction l as [|x l IH]; [reflexivity|]. cbn. destruct (p x); cbn; lia.
Qed.

(** The sweep in all its cases. *)
Lemma cleanup_old_records_cases (now : datetime) (st : state) :
  (LOG_RETENTION_DAYS st <= 0 /\ cleanup_old_records now st = (st, Ok 0))
  \/ (0 < LOG_RETENTION_DAYS st
      /\ exists e, datetime_sub now (LOG_RETENTION_DAYS st) 0 = Raise e
           /\ cleanup_old_records now st = (st, Raise e))
  \/ (0 < LOG_RETENTION_DAYS st
      /\ exists cutoff, datetime_sub now (LOG_RETENTION_DAYS st) 0 = Ok cutoff
           /\ cleanup_old_records now st =
              (set_positions st
                 (List.filter (fun r => negb (older_than (adapt_datetime cutoff) r))
                    (positions st)),
               Ok (Z.of_nat (length (List.filter (older_than (adapt_datetime cutoff))
                                       (positions st)))))).
Proof.
  destruct (Z.leb_spec (LOG_RETENTION_DAYS st) 0) as [Hle|Hgt].
  - left. split; [exact Hle|]. unfold cleanup_old_records.
    destruct (Z.leb_spec (LOG_RETENTION_DAYS st) 0); [reflexivity | lia].
  - right. destruct (datetime_sub now (LOG_RETENTION_DAYS st) 0) as [cutoff|e] eqn:Hcut.
    + right. split; [exact Hgt|]. exists cutoff. split; [reflexivity|].
      apply cleanup_old_records_cutoff; assumption.
    + left. split; [exact Hgt|]. exists e. split; [reflexivity|].
      unfold cleanup_old_records.
      destruct (Z.leb_spec (LOG_RETENTION_DAYS st) 0); [lia|]. rewrite Hcut. reflexivity.
Qed.

Lemma cleanup_old_records_again (now : datetime) (st : state) :
  cleanup_old_records now (fst (cleanup_old_records now st))
  = (fst (cleanup_old_records now st),
     match snd (cleanup_old_records now st) with
     | Ok _ => Ok 0
     | Raise e => Raise e
     end).
Proof.
  destruct (cleanup_old_records_cases now st)
    as [(Hle & Hrun)|[(Hgt & e & Hcut & Hrun)|(Hgt & cutoff & Hcut & Hrun)]];
    rewrite Hrun; cbn [fst snd].
  - exact Hrun.
  - exact Hrun.
  - rewrite (cleanup_old_records_cutoff now cutoff
               (set_positions st
                  (List.filter (fun r => negb (older_than (adapt_datetime cutoff) r))
                     (positions st))) Hgt Hcut).
    cbn [positions set_positions].
    rewrite filter_after_filter_out. cbn [length Z.of_nat].
    rewrite (filter_none_keeps_all _ _ (filter_after_filter_out _ _)).
    reflexivity.
Qed.

(** X14. The sweep is idempotent: run again at the same instant it
    finds nothing left to delete, returns 0 (or raises as the first run
    did) and leaves the state of the first run.  It never changes the
    total-logged counter or a setting. *)
Theorem cleanup_old_records_idempotent (now : datetime) (st : state) :
  let st1 := fst (cleanup_old_records now st) in
  fst (cleanup_old_records now st1) = st1
  /\ (snd (cleanup_old_records now st1) = Ok 0
      \/ exists e, snd (cleanup_old_records now st) = Raise e
           /\ snd (cleanup_old_records now st1) = Raise e)
  /\ total_logged st1 = total_logged st
  /\ api_settings_get st1 = api_settings_get st.
Proof.
  cbv zeta. rewrite cleanup_old_records_again. cbn [fst snd].
  destruct (cleanup_old_records_settings now st) as (Htot & Hi & Hr & Hp & _).
  split; [reflexivity|]. split; [|split; [exact Htot|]].
  - destruct (snd (cleanup_old_records now st)) as [k|e]; [left; reflexivity|].
    right. exists e. split; reflexivity.
  - unfold api_settings_get. rewrite Hi, Hr, Hp. reflexivity.
Qed.

(** ** get_stats *)

Lemma distinct_length (keys : list sqlval) : (length (distinct keys) <= length keys)%nat.
Proof.
  induction keys as [|k ks IH]; [reflexivity|]. cbn [distinct length].
  pose proof (List.filter_length_le (fun k' => negb (sql_eqb k' k)) (distinct ks)). lia.
Qed.

Lemma distinct_incl (keys : list sqlval) (k : sqlval) :
  In k (distinct keys) -> In k keys.
Proof.
  induction keys as [|k0 ks IH]; [intros []|]. cbn [distinct].
  intros [<-|H]; [left; reflexivity|]. right. apply IH.
  apply List.filter_In in H. tauto.
Qed.

Lemma string_ltb_leb (a b : string) : String.ltb a b = true -> String.leb a b = true.
Proof. unfold String.ltb, String.leb. destruct (String.compare a b); congruence. Qed.

Lemma string_not_ltb_leb (a b : string) : String.ltb a b = false -> String.leb b a = true.
Proof.
  unfold String.ltb, String.leb. rewrite (String.compare_antisym b a).
  destruct (String.compare a b); cbn; congruence.
Qed.

Lemma string_leb_refl (a : string) : String.leb a a = true.
Proof. unfold String.leb. rewrite string_compare_refl. reflexivity. Qed.

Lemma fold_min_le (l : list string) :
  forall s : string,
  let m := fold_left (fun acc t => if String.ltb t acc then t else acc) l s in
  String.leb m s = true /\ Forall (fun t => String.leb m t = true) l.
Proof.
  induction l as [|x l IH]; intros s; cbn.
  - split; [apply string_leb_refl | constructor].
  - destruct (String.ltb x s) eqn:Hx.
    + destruct (IH x) as [Hm Hall]. split; [|constructor; assumption].
      apply (string_leb_trans _ x); [exact Hm | apply string_ltb_leb; exact Hx].
    + destruct (IH s) as [Hm Hall]. split; [exact Hm|]. constructor; [|exact Hall].
      apply (string_leb_trans _ s); [exact Hm | apply string_not_ltb_leb; exact Hx].
Qed.

Lemma fold_max_ge (l : list string) :
  forall s : string,
  let m := fold_left (fun acc t => if String.ltb acc t then t else acc) l s in
  String.leb s m = true /\ Forall (fun t => String.leb t m = true) l.
Proof.
  induction l as [|x l IH]; intros s; cbn.
  - split; [apply string_leb_refl | constructor].
  - destruct (String.ltb s x) eqn:Hx.
    + destruct (IH x) as [Hm Hall]. split; [|constructor; assumption].
      apply (string_leb_trans _ x); [apply string_ltb_leb; exact Hx | exact Hm].
    + destruct (IH s) as [Hm Hall]. split; [exact Hm|]. constructor; [|exact Hall].
      apply (string_leb_trans _ s); [apply string_not_ltb_leb; exact Hx | exact Hm].
Qed.

Lemma text_or_none_some (x : option string) (s : string) :
  text_or_none x = Some s -> x = Some s.
Proof.
  destruct x as [t|]; [|discriminate]. cbn. destruct (String.eqb t ""); congruence.
Qed.

(** X15. In the statistics the two distinct counts never exceed the
    number of rows, an empty table gives zeros and no oldest or newest
    record, and when they are given the oldest record is not after, and
    the newest not before, the timestamp of any row. *)
Theorem get_stats_bounds (st : state) :
  0 <= unique_aircraft (get_stats st) <= total_positions (get_stats st)
  /\ 0 <= unique_flights (get_stats st) <= total_positions (get_stats st)
  /\ (positions st = [] ->
      get_stats st = {| total_positions := 0; unique_aircraft := 0; unique_flights := 0;
                        oldest_record := None; newest_record := None |})
  /\ (forall o, oldest_record (get_stats st) = Some o ->
        Forall (fun r => String.leb o (timestamp r) = true) (positions st))
  /\ (forall n, newest_record (get_stats st) = Some n ->
        Forall (fun r => String.leb (timestamp r) n = true) (positions st)).
Proof.
  unfold get_stats. cbn [total_positions unique_aircraft unique_flights
                          oldest_record newest_record].
  split; [|split; [|split; [|split]]].
  - pose proof (distinct_length
        (List.filter (fun v => negb (is_null v)) (List.map icao (positions st)))) as H.
    pose proof (List.filter_length_le (fun v => negb (is_null v))
                  (List.map icao (positions st))) as H'.
    rewrite length_map in H'. lia.
  - pose proof (distinct_length
        (List.filter (fun v => negb (is_null v)) (List.map callsign (positions st)))) as H.
    pose proof (List.filter_length_le (fun v => negb (is_null v))
                  (List.map callsign (positions st))) as H'.
    rewrite length_map in H'. lia.
  - intros ->. reflexivity.
  - intros o H. apply text_or_none_some in H.
    destruct (positions st) as [|r l]; [discriminate|]. cbn in H. injection H as <-.
    destruct (fold_min_le (List.map timestamp l) (timestamp r)) as [Hm Hall].
    constructor; [exact Hm|]. apply List.Forall_map in Hall. exact Hall.
  - intros n H. apply text_or_none_some in H.
    destruct (positions st) as [|r l]; [discriminate|]. cbn in H. injection H as <-.
    destruct (fold_max_ge (List.map timestamp l) (timestamp r)) as [Hm Hall].
    constructor; [exact Hm|]. apply List.Forall_map in Hall. exact Hall.
Qed.

(** X16. The statistics follow the writes: after a batch that
    [save_aircraft] stored, the number of positions has grown by the
    count it returned; after a batch that raised it is unchanged; after
    a sweep that returned, it has dropped by the count the sweep
    returned. *)
Theorem get_stats_follows_writes (st : state) :
  (forall clock l st' n, save_aircraft clock l st = (st', Ok n) ->
     total_positions (get_stats st') = total_positions (get_stats st) + n)
  /\ (forall clock l st' e, save_aircraft clock l st = (st', Raise e) ->
        get_stats st' = get_stats st)
  /\ (forall now st' k, cleanup_old_records now st = (st', Ok k) ->
        total_positions (get_stats st') = total_positions (get_stats st) - k).
Proof.
  split; [|split].
  - intros clock l st' n H.
    destruct (save_aircraft_ok _ _ _ _ _ H) as (rows & Hpos & Hn & _).
    unfold get_stats. cbn [total_positions]. rewrite Hpos, length_app. lia.
  - intros clock l st' e H. rewrite (save_aircraft_raise_rollback _ _ _ _ _ H). reflexivity.
  - intros now st' k H.
    destruct (cleanup_old_records_cases now st)
      as [(Hle & Hrun)|[(Hgt & e & Hcut & Hrun)|(Hgt & cutoff & Hcut & Hrun)]];
      rewrite Hrun in H; try discriminate; injection H as <- <-.
    + lia.
    + unfold get_stats. cbn [total_positions positions set_positions].
      pose proof (filter_split_length (older_than (adapt_datetime cutoff)) (positions st)).
      lia.
Qed.

Lemma get_stats_follows_writes_witness :
  total_positions (get_stats (fst (save_aircraft sample_clock [ac_cruise; ac_no_lon] st_fresh)))
  = total_positions (get_stats st_fresh) + 1.
Proof.
  apply (proj1 (get_stats_follows_writes st_fresh) sample_clock [ac_cruise; ac_no_lon]).
  vm_compute. reflexivity.
Defined.

(** ** Exports *)

Lemma export_where_in_bounds (s e : option string) (r : row) :
  export_where s e r = in_bounds s e r.
Proof.
  unfold export_where, in_bounds.
  destruct (given s), (given e); cbn; rewrite ?andb_true_r; reflexivity.
Qed.

Lemma export_rows_permutation (s e : option string) (st : state) :
  Permutation (export_rows s e st) (List.filter (in_bounds s e) (positions st)).
Proof.
  unfold export_rows. rewrite order_by_permutation.
  rewrite (List.filter_ext _ _ (export_where_in_bounds s e)). reflexivity.
Qed.

Lemma filter_all {A : Type} (l : list A) : List.filter (fun _ => true) l = l.
Proof. induction l as [|x l IH]; [reflexivity|]. cbn. rewrite IH. reflexivity. Qed.

(** X17. The two exports give the same rows in the same order: the
    stored rows within the given bounds, ends included, each once, in
    ascending order of timestamp; without bounds (or with empty ones),
    every stored row.  What a trace returns under some bounds is among
    what the export returns under the same bounds. *)
Theorem api_export_rows (start_date end_date : option string) (st : state) :
  Permutation (api_export_json start_date end_date st)
    (List.filter (in_bounds start_date end_date) (positions st))
  /\ StronglySorted timestamp_ascending (api_export_json start_date end_date st)
  /\ api_export_csv start_date end_date st
     = List.map csv_record (api_export_json start_date end_date st)
  /\ Permutation (api_export_json None None st) (positions st)
  /\ api_export_json (Some "") (Some "") st = api_export_json None None st
  /\ forall q r, In r (trace_rows q start_date end_date st) ->
       In r (api_export_json start_date end_date st).
Proof.
  unfold api_export_json, api_export_csv.
  split; [apply export_rows_permutation|].
  split; [apply (order_by_sorted by_timestamp by_timestamp_total by_timestamp_trans)|].
  split; [reflexivity|]. split; [|split; [reflexivity|]].
  - rewrite export_rows_permutation.
    rewrite (List.filter_ext (in_bounds None None) (fun _ => true)) by reflexivity.
    rewrite filter_all. reflexivity.
  - intros q r H. unfold trace_rows in H.
    apply (Permutation_in _ (order_by_permutation _ _)) in H.
    apply List.filter_In in H. destruct H as [Hin Hw].
    apply (Permutation_in _ (Permutation_sym (export_rows_permutation _ _ _))).
    apply List.filter_In. split; [exact Hin|].
    unfold trace_where in Hw. unfold in_bounds.
    apply andb_true_iff in Hw. destruct Hw as [Hw He].
    apply andb_true_iff in Hw. destruct Hw as [_ Hs].
    rewrite Hs, He. reflexivity.
Qed.

Lemma is_digit_not_blank (c : ascii) : is_digit c = true -> Ascii.eqb c " " = false.
Proof.
  destruct c as [[] [] [] [] [] [] [] []]; intros H; try discriminate H; reflexivity.
Qed.

Lemma replace_char_append (a b : ascii) (s t : string) :
  replace_char a b (s ++ t) = (replace_char a b s ++ replace_char a b t)%string.
Proof.
  induction s as [|c s IH]; [reflexivity|].
  rewrite append_cons. cbn [replace_char]. rewrite IH, append_cons. reflexivity.
Qed.

Lemma replace_char_pad (b : ascii) (w : nat) :
  forall n : Z, replace_char " " b (pad w n) = pad w n.
Proof.
  induction w as [|w IH]; intros n; [reflexivity|].
  cbn [pad]. rewrite replace_char_append, IH. cbn [replace_char].
  rewrite (is_digit_not_blank _ (digit_char_is_digit n)). reflexivity.
Qed.

Lemma replace_char_stamp (t : datetime) :
  replace_char " " "T" (stamp " " t "") = stamp "T" t "".
Proof.
  unfold stamp.
  repeat (rewrite replace_char_append || rewrite replace_char_pad
          || (cbn [replace_char]; change (Ascii.eqb "-" " ") with false;
              change (Ascii.eqb ":" " ") with false;
              change (Ascii.eqb " " " ") with true; cbv iota)).
  reflexivity.
Qed.

(** X18. In the CSV export the timestamp of a snapshot taken by the
    store at the instant [d] is the ISO text of [d] with the "T"
    separator, and the other columns are the stored ones; the JSON export
    keeps the stored text, with its blank. *)
Theorem csv_record_timestamp (r : row) (d : datetime) :
  snapshot_at r d ->
  timestamp (csv_record r) = isoformat "T" d
  /\ timestamp r = isoformat " " d
  /\ csv_record r =
     {| timestamp := isoformat "T" d;
        icao := icao r; callsign := callsign r; lat := lat r; lon := lon r;
        altitude := altitude r; speed := speed r; track := track r;
        vert_rate := vert_rate r; squawk := squawk r; category := category r;
        aircraft_type := aircraft_type r; rssi := rssi r |}.
Proof.
  intros (Hv & Hus & Hts).
  assert (Hiso : forall sep, isoformat sep d = stamp sep d "").
  { intros sep. rewrite isoformat_stamp. unfold fraction. rewrite Hus. reflexivity. }
  assert (Hcsv : timestamp (csv_record r) = isoformat "T" d).
  { unfold csv_record. cbn [timestamp]. rewrite Hts, current_timestamp_stamp, Hiso.
    change (String.eqb (stamp " " d "") "") with false. cbv iota.
    apply replace_char_stamp. }
  split; [exact Hcsv|]. split.
  - rewrite Hts, current_timestamp_stamp, Hiso. reflexivity.
  - rewrite <- Hcsv. reflexivity.
Qed.

Lemma csv_record_timestamp_witness :
  timestamp (csv_record row_noon) = isoformat "T" (at_time 2024 6 1 12 0).
Proof.
  apply (csv_record_timestamp row_noon (at_time 2024 6 1 12 0)).
  split; [|split]; vm_compute; reflexivity.
Defined.

(** ** Shape of the recent list *)

Lemma float_compare_refl (f : spec_float) : float_compare f f = Eq.
Proof.
  destruct f as [s|s| |s m e]; cbn; try (destruct s; reflexivity); try reflexivity.
  apply Z.compare_refl.
Qed.

Lemma sql_eqb_refl (v : sqlval) : sql_eqb v v = true.
Proof.
  unfold sql_eqb. destruct v as [|n|f|s]; cbn.
  - reflexivity.
  - rewrite Z.compare_refl. reflexivity.
  - rewrite float_compare_refl. reflexivity.
  - rewrite string_compare_refl. reflexivity.
Qed.

Lemma distinct_NoDup (keys : list sqlval) : List.NoDup (distinct keys).
Proof.
  induction keys as [|k ks IH]; cbn [distinct]; constructor.
  - intros H. apply List.filter_In in H. destruct H as [_ H].
    rewrite sql_eqb_refl in H. discriminate.
  - apply List.NoDup_filter. exact IH.
Qed.

Lemma firstn_In {A : Type} (n : nat) (l : list A) (x : A) :
  In x (firstn n l) -> In x l.
Proof.
  revert n. induction l as [|y l IH]; intros [|n]; cbn; try tauto.
  intros [->|H]; [left; reflexivity | right; apply (IH n H)].
Qed.

Lemma firstn_StronglySorted {A : Type} (R : A -> A -> Prop) (n : nat) (l : list A) :
  StronglySorted R l -> StronglySorted R (firstn n l).
Proof.
  intros H. revert n. induction H as [|x l Hs IH Hx]; intros [|n]; cbn; try constructor.
  - apply IH.
  - apply List.Forall_forall. intros y Hy. apply firstn_In in Hy.
    apply (proj1 (List.Forall_forall _ _) Hx y Hy).
Qed.

Lemma firstn_NoDup {A : Type} (n : nat) (l : list A) : List.NoDup l -> List.NoDup (firstn n l).
Proof.
  intros H. revert n. induction H as [|x l Hx Hl IH]; intros [|n]; cbn; try constructor.
  - intros Hin. apply Hx. apply (firstn_In _ _ _ Hin).
  - apply IH.
Qed.

Lemma by_last_seen_desc_total (a b : recent_entry) :
  by_last_seen_desc a b = true \/ by_last_seen_desc b a = true.
Proof. unfold by_last_seen_desc. destruct (String.leb_total (re_last_seen a) (re_last_seen b)); auto. Qed.

Lemma by_last_seen_desc_trans (a b c : recent_entry) :
  by_last_seen_desc a b = true -> by_last_seen_desc b c = true ->
  by_last_seen_desc a c = true.
Proof. unfold by_last_seen_desc. intros H1 H2. apply (string_leb_trans _ _ _ H2 H1). Qed.

(** X19. The recent list has at most 50 entries, at most one per icao,
    in descending order of last-seen; every entry is an icao of the table
    and counts one row at least. *)
Theorem api_recent_shape (now : datetime) (st : state) (entries : list recent_entry) :
  api_recent now st = Ok entries ->
  (length entries <= 50)%nat
  /\ List.NoDup (List.map re_icao entries)
  /\ StronglySorted timestamp_descending entries
  /\ Forall (fun e => 1 <= re_positions e
                      /\ exists r, In r (positions st) /\ icao r = re_icao e) entries.
Proof.
  unfold api_recent. destruct (datetime_sub now 0 3600) as [cutoff|e]; [|discriminate].
  cbn [result_bind]. intros [= <-].
  set (rows := List.filter _ (positions st)).
  set (groups := List.map (recent_group rows) (distinct (List.map icao rows))).
  assert (Hperm : Permutation (order_by by_last_seen_desc groups) groups)
    by apply order_by_permutation.
  split; [apply List.firstn_le_length|]. split; [|split].
  - rewrite <- List.firstn_map. apply firstn_NoDup.
    apply (Permutation_NoDup (Permutation_sym (Permutation_map re_icao Hperm))).
    unfold groups. rewrite List.map_map. cbn [recent_group re_icao].
    rewrite List.map_id. apply distinct_NoDup.
  - apply firstn_StronglySorted.
    apply (order_by_sorted by_last_seen_desc by_last_seen_desc_total by_last_seen_desc_trans).
  - apply List.Forall_forall. intros en Hen. apply firstn_In in Hen.
    apply (Permutation_in _ Hperm) in Hen. unfold groups in Hen.
    apply List.in_map_iff in Hen. destruct Hen as (k & <- & Hk).
    apply distinct_incl, List.in_map_iff in Hk. destruct Hk as (r & Hr & Hin).
    cbn [recent_group re_positions re_icao]. split.
    + assert (Hg : In r (List.filter (fun r0 => sql_eqb (icao r0) k) rows)).
      { apply List.filter_In. split; [exact Hin|]. rewrite Hr. apply sql_eqb_refl. }
      destruct (List.filter (fun r0 => sql_eqb (icao r0) k) rows); [destruct Hg|].
      cbn [length]. lia.
    + exists r. split; [|exact Hr]. unfold rows in Hin. apply List.filter_In in Hin. tauto.
Qed.

Lemma api_recent_shape_witness :
  (length [ {| re_icao := SText "ABC123";
               re_lat := SReal (S754_finite false 5 1);
               re_lon := SReal (S754_finite false 15 1);
               re_altitude := SInt 5000;
               re_last_seen := "2024-06-02 00:20:00";
               re_positions := 2 |} ] <= 50)%nat.
Proof.
  apply (api_recent_shape (at_time 2024 6 2 0 30) st_midnight). vm_compute. reflexivity.
Defined.

(** ** api_flights *)

Lemma same_flight_refl (r : row) : same_flight (flight_key r) r = true.
Proof. unfold same_flight, flight_key. cbn. rewrite !sql_eqb_refl. reflexivity. Qed.

Lemma distinct_flights_NoDup (rows : list row) : List.NoDup (distinct_flights rows).
Proof.
  induction rows as [|r rows IH]; cbn [distinct_flights]; constructor.
  - intros H. apply List.filter_In in H. destruct H as [_ H].
    rewrite same_flight_refl in H. discriminate.
  - apply List.NoDup_filter. exact IH.
Qed.

Lemma distinct_flights_from_rows (rows : list row) (k : sqlval * sqlval) :
  In k (distinct_flights rows) -> exists r, In r rows /\ flight_key r = k.
Proof.
  induction rows as [|r0 rows IH]; [intros []|]. cbn [distinct_flights].
  intros [<-|H].
  - exists r0. split; [left|]; reflexivity.
  - apply List.filter_In in H. destruct (IH (proj1 H)) as (r & Hin & Hk).
    exists r. split; [right; exact Hin | exact Hk].
Qed.

Lemma by_flight_last_seen_desc_total (a b : flight_entry) :
  by_flight_last_seen_desc a b = true \/ by_flight_last_seen_desc b a = true.
Proof.
  unfold by_flight_last_seen_desc.
  destruct (String.leb_total (fl_last_seen a) (fl_last_seen b)); auto.
Qed.

Lemma by_flight_last_seen_desc_trans (a b c : flight_entry) :
  by_flight_last_seen_desc a b = true -> by_flight_last_seen_desc b c = true ->
  by_flight_last_seen_desc a c = true.
Proof. unfold by_flight_last_seen_desc. intros H1 H2. apply (string_leb_trans _ _ _ H2 H1). Qed.

Lemma sql_limit_In {A : Type} (n : Z) (l : list A) (x : A) :
  In x (sql_limit n l) -> In x l.
Proof. unfold sql_limit. destruct (n <? 0); [tauto | apply firstn_In]. Qed.

Lemma sql_limit_length {A : Type} (n : Z) (l : list A) :
  0 <= n -> Z.of_nat (length (sql_limit n l)) <= n.
Proof.
  intros H. unfold sql_limit. destruct (Z.ltb_spec n 0); [lia|].
  pose proof (List.firstn_le_length (Z.to_nat n) l). lia.
Qed.

Lemma min_max_timestamp (l : list string) (lo hi : string) :
  min_timestamp l = Some lo -> max_timestamp l = Some hi -> String.leb lo hi = true.
Proof.
  destruct l as [|s l]; [discriminate|]. cbn. intros [= <-] [= <-].
  apply (string_leb_trans _ s);
    [apply (fold_min_le l s) | apply (fold_max_ge l s)].
Qed.

Lemma flight_group_entry (rows : list row) (r : row) :
  In r rows ->
  1 <= fl_positions (flight_group rows (flight_key r))
  /\ String.leb (fl_first_seen (flight_group rows (flight_key r)))
       (fl_last_seen (flight_group rows (flight_key r))) = true.
Proof.
  intros Hin. unfold flight_group. cbn [fl_positions fl_first_seen fl_last_seen].
  assert (Hg : In r (List.filter (same_flight (flight_key r)) rows))
    by (apply List.filter_In; split; [exact Hin | apply same_flight_refl]).
  destruct (List.filter (same_flight (flight_key r)) rows) as [|r0 g]; [destruct Hg|].
  split; [cbn [length]; lia|].
  apply (min_max_timestamp (List.map timestamp (r0 :: g))); reflexivity.
Qed.

(** X20. The list of flights has at most one entry per pair of icao
    and callsign, each for a pair found in a stored row that passes the
    filters, in descending order of last-seen; each entry counts one row
    at least and its first-seen is not after its last-seen.  It holds at
    most [limit] entries for a limit of 0 or more, 100 when no limit is
    given. *)
Theorem api_flights_shape (icao_arg callsign_arg start_date end_date limit_arg : option string)
    (st : state) (entries : list flight_entry) :
  api_flights icao_arg callsign_arg start_date end_date limit_arg st = Ok entries ->
  List.NoDup (List.map entry_key entries)
  /\ StronglySorted flight_last_seen_descending entries
  /\ Forall (fun e =>
       1 <= fl_positions e
       /\ String.leb (fl_first_seen e) (fl_last_seen e) = true
       /\ exists r, In r (positions st) /\ flight_key r = entry_key e
            /\ flights_where icao_arg callsign_arg start_date end_date r = true) entries
  /\ (limit_arg = None -> (length entries <= 100)%nat)
  /\ (forall s n, limit_arg = Some s -> int_of_str s = Ok n -> 0 <= n ->
        Z.of_nat (length entries) <= n).
Proof.
  unfold api_flights.
  destruct (match limit_arg with Some s => int_of_str s | None => Ok 100 end)
    as [limit|e] eqn:Hlimit; [|discriminate]. cbn [result_bind].
  destruct (bind_param (PInt limit)); [|discriminate]. cbn [result_bind].
  intros [= <-].
  set (rows := List.filter _ (positions st)).
  set (groups := List.map (flight_group rows) (distinct_flights rows)).
  assert (Hperm : Permutation (order_by by_flight_last_seen_desc groups) groups)
    by apply order_by_permutation.
  assert (Hsorted : StronglySorted flight_last_seen_descending
                      (order_by by_flight_last_seen_desc groups))
    by apply (order_by_sorted by_flight_last_seen_desc by_flight_last_seen_desc_total
                by_flight_last_seen_desc_trans).
  assert (Hnodup : List.NoDup (List.map entry_key (order_by by_flight_last_seen_desc groups))).
  { apply (Permutation_NoDup (Permutation_sym (Permutation_map entry_key Hperm))).
    unfold groups. rewrite List.map_map.
    rewrite (List.map_ext _ (fun k => k)) by (intros [k1 k2]; reflexivity).
    rewrite List.map_id. apply distinct_flights_NoDup. }
  split; [|split; [|split; [|split]]].
  - unfold sql_limit. destruct (limit <? 0); [exact Hnodup|].
    rewrite <- List.firstn_map. apply firstn_NoDup. exact Hnodup.
  - unfold sql_limit. destruct (limit <? 0); [exact Hsorted|].
    apply firstn_StronglySorted. exact Hsorted.
  - apply List.Forall_forall. intros en Hen. apply sql_limit_In in Hen.
    apply (Permutation_in _ Hperm) in Hen. unfold groups in Hen.
    apply List.in_map_iff in Hen. destruct Hen as (k & <- & Hk).
    destruct (distinct_flights_from_rows rows k Hk) as (r & Hin & <-).
    destruct (flight_group_entry rows r Hin) as [Hpos Hle].
    split; [exact Hpos|]. split; [exact Hle|].
    exists r. unfold rows in Hin. apply List.filter_In in Hin.
    split; [tauto|]. split; [reflexivity | tauto].
  - intros ->. injection Hlimit as <-.
    pose proof (sql_limit_length 100 (order_by by_flight_last_seen_desc groups) ltac:(lia)).
    lia.
  - intros s n -> Hn Hpos. rewrite Hn in Hlimit. injection Hlimit as <-.
    apply sql_limit_length. exact Hpos.
Qed.

Lemma api_flights_shape_witness :
  Z.of_nat (length [ {| fl_icao := SText "ABC123"; fl_callsign := SNull;
                        fl_first_seen := "2024-06-01 12:00:00";
                        fl_last_seen := "2024-06-01 12:05:00";
                        fl_positions := 2 |} ]) <= 1.
Proof.
  apply (proj2 (proj2 (proj2 (proj2
           (api_flights_shape (Some "c1") None None None (Some "1") st_three_rows _
              ltac:(vm_compute; reflexivity))))) "1" 1);
    [reflexivity | reflexivity | lia].
Defined.

(** X21. The [limit] argument is converted with [int()]: a text that
    is not an integer makes the request fail with the exception of the
    conversion; a negative limit (one that fits 64 bits) is no limit,
    every group of the rows that pass the filters is returned. *)
Theorem api_flights_limit (icao_arg callsign_arg start_date end_date : option string)
    (s : string) (st : state) :
  (forall e, int_of_str s = Raise e ->
     api_flights icao_arg callsign_arg start_date end_date (Some s) st = Raise e)
  /\ (forall n, int_of_str s = Ok n -> - 2 ^ 63 <= n < 0 ->
        exists entries,
          api_flights icao_arg callsign_arg start_date end_date (Some s) st = Ok entries
          /\ Permutation (List.map entry_key entries)
               (distinct_flights
                  (List.filter (flights_where icao_arg callsign_arg start_date end_date)
                     (positions st)))).
Proof.
  unfold api_flights. split.
  - intros e ->. reflexivity.
  - intros n -> [Hlo Hhi]. cbn [result_bind bind_param].
    destruct (Z.leb_spec (- 2 ^ 63) n); [|lia].
    destruct (Z.ltb_spec n (2 ^ 63)); [|lia]. cbn [andb result_bind].
    eexists. split; [reflexivity|].
    unfold sql_limit. destruct (Z.ltb_spec n 0); [|lia].
    rewrite order_by_permutation, List.map_map.
    rewrite (List.map_ext _ (fun k => k)) by (intros [k1 k2]; reflexivity).
    rewrite List.map_id. reflexivity.
Qed.

Lemma api_flights_limit_witness :
  api_flights None None None None (Some "ten") st_three_rows = Raise ValueError.
Proof.
  apply (proj1 (api_flights_limit None None None None "ten" st_three_rows)).
  reflexivity.
Defined.

(** ** The filters of api_flights *)

Lemma upper_char_wildcard (c : ascii) :
  Ascii.eqb (upper_char c) "%" = Ascii.eqb c "%"
  /\ Ascii.eqb (upper_char c) "_" = Ascii.eqb c "_".
Proof. destruct c as [[] [] [] [] [] [] [] []]; split; reflexivity. Qed.

Lemma like_any_unfold (q s : string) :
  like_match (String "%" q) s =
  like_match q s
  || match s with
     | EmptyString => false
     | String _ s' => like_match (String "%" q) s'
     end.
Proof. destruct s; reflexivity. Qed.

Lemma like_char_unfold (c : ascii) (q s : string) :
  Ascii.eqb c "%" = false ->
  like_match (String c q) s =
  match s with
  | EmptyString => false
  | String d s' =>
      (Ascii.eqb c "_" || Ascii.eqb (upper_char c) (upper_char d)) && like_match q s'
  end.
Proof. intros H. cbn [like_match]. rewrite H. reflexivity. Qed.

Lemma like_any (q s : string) :
  like_match (String "%" q) s = true <->
  exists before t, s = (before ++ t)%string /\ like_match q t = true.
Proof.
  split.
  - induction s as [|c s IH]; rewrite like_any_unfold; intros H;
      apply orb_true_iff in H; destruct H as [H|H]; try discriminate.
    + exists "", "". split; [reflexivity | exact H].
    + exists "", (String c s). split; [reflexivity | exact H].
    + destruct (IH H) as (b & t & -> & Ht). exists (String c b), t.
      split; [reflexivity | exact Ht].
  - intros (b & t & -> & Ht). induction b as [|c b IH]; rewrite like_any_unfold.
    + rewrite append_empty, Ht. reflexivity.
    + rewrite append_cons, IH. apply orb_true_r.
Qed.

Lemma like_percent (s : string) : like_match "%" s = true.
Proof.
  apply like_any. exists s, "". split; [symmetry; apply append_empty_r | reflexivity].
Qed.

(** A pattern without wildcard, then "%": the text starts with the
    pattern, up to case. *)
Lemma like_starts_with (p : string) :
  wildcard_free p = true ->
  forall s, like_match (upper p ++ "%") s = true <->
            exists mid after, s = (mid ++ after)%string /\ upper mid = upper p.
Proof.
  induction p as [|c p IH]; intros Hw s.
  - cbn [upper]. rewrite append_empty. split.
    + intros _. exists "", s. split; reflexivity.
    + intros _. apply like_percent.
  - cbn [wildcard_free] in Hw. apply andb_true_iff in Hw. destruct Hw as [Hc Hw].
    apply negb_true_iff, orb_false_iff in Hc. destruct Hc as [Hpct Hund].
    destruct (upper_char_wildcard c) as [Hp Hu].
    cbn [upper]. rewrite append_cons, like_char_unfold by congruence.
    rewrite Hu, Hund, upper_char_idempotent. cbn [orb]. split.
    + destruct s as [|d s]; [discriminate|]. intros H.
      apply andb_true_iff in H. destruct H as [Hd Hrest].
      apply Ascii.eqb_eq in Hd.
      destruct (proj1 (IH Hw s) Hrest) as (mid & after & -> & Hmid).
      exists (String d mid), after. split; [reflexivity|].
      cbn [upper]. rewrite Hd, Hmid. reflexivity.
    + intros (mid & after & -> & Hmid). destruct mid as [|d mid]; [discriminate|].
      cbn [upper] in Hmid. injection Hmid as Hd Hmid. rewrite append_cons.
      apply andb_true_iff. split; [apply Ascii.eqb_eq; congruence|].
      apply (IH Hw). exists mid, after. split; [reflexivity | exact Hmid].
Qed.

Lemma like_contains (a s : string) :
  wildcard_free a = true ->
  like_match (contains_pattern a) s = true <-> contains_up_to_case s a.
Proof.
  intros Hw. unfold contains_pattern, contains_up_to_case.
  rewrite append_cons, append_empty, like_any. split.
  - intros (b & t & -> & Ht). apply (like_starts_with a Hw) in Ht.
    destruct Ht as (mid & after & -> & Hmid).
    exists b, mid, after. split; [reflexivity | apply upper_eq_iff; exact Hmid].
  - intros (b & mid & after & -> & Hmid). exists b, (mid ++ after)%string.
    split; [reflexivity|]. apply (like_starts_with a Hw).
    exists mid, after. split; [reflexivity | apply upper_eq_iff; exact Hmid].
Qed.

(** X22. The [icao] and [callsign] filters of /api/flights select by
    content, up to case: with an argument that holds no "%" and no "_", a
    row passes exactly when its icao (its callsign) is a text that holds
    the argument up to the case of letters; a row without callsign never
    passes a callsign filter.  A "%" in the argument is a wildcard: the
    filter "%" lets every text pass. *)
Theorem flights_where_contains (a : string) (r : row) :
  wildcard_free a = true -> a <> "" ->
  (flights_where (Some a) None None None r = true <->
     exists i, icao r = SText i /\ contains_up_to_case i a)
  /\ (flights_where None (Some a) None None r = true <->
        exists c, callsign r = SText c /\ contains_up_to_case c a)
  /\ (callsign r = SNull -> flights_where None (Some a) None None r = false)
  /\ (forall i, icao r = SText i -> flights_where (Some "%") None None None r = true).
Proof.
  intros Hw Hne.
  assert (Hgiven : given (Some a) = Some a).
  { cbn. destruct (String.eqb_spec a ""); [contradiction | reflexivity]. }
  unfold flights_where. rewrite Hgiven. cbn [given]. rewrite !andb_true_r. cbn [andb].
  split; [|split; [|split]].
  - unfold sql_like. split.
    + destruct (icao r) as [| | |i]; try discriminate. intros H.
      exists i. split; [reflexivity | apply (like_contains a i Hw); exact H].
    + intros (i & -> & H). apply (like_contains a i Hw). exact H.
  - unfold sql_like. split.
    + destruct (callsign r) as [| | |c]; try discriminate. intros H.
      exists c. split; [reflexivity | apply (like_contains a c Hw); exact H].
    + intros (c & -> & H). apply (like_contains a c Hw). exact H.
  - intros ->. reflexivity.
  - intros i ->. cbn [sql_like]. apply like_any.
    exists "", i. split; [reflexivity|]. apply like_any.
    exists i, "". split; [symmetry; apply append_empty_r | reflexivity].
Qed.

Lemma flights_where_contains_witness :
  flights_where (Some "c1") None None None
    (position_row "2024-06-01 12:00:00" "ABC123" (S754_finite false 5 1)
       (S754_finite false 5 2) 5000) = true <->
  exists i, icao (position_row "2024-06-01 12:00:00" "ABC123" (S754_finite false 5 1)
                    (S754_finite false 5 2) 5000) = SText i
            /\ contains_up_to_case i "c1".
Proof.
  apply (flights_where_contains "c1"
           (position_row "2024-06-01 12:00:00" "ABC123" (S754_finite false 5 1)
              (S754_finite false 5 2) 5000));
    [reflexivity | discriminate].
Defined.

(** ** Every row is counted once *)

Lemma sql_eqb_plain (a b : sqlval) :
  plain a -> plain b -> (sql_eqb a b = true <-> a = b).
Proof.
  unfold sql_eqb. intros [->|[s ->]] [->|[t ->]]; cbn; split; try discriminate;
    try reflexivity.
  - destruct (String.compare s t) eqn:Hc; try discriminate.
    apply String.compare_eq_iff in Hc. congruence.
  - intros [= ->]. rewrite string_compare_refl. reflexivity.
Qed.

Lemma same_flight_plain (r r' : row) :
  plain_keys r -> plain_keys r' ->
  (same_flight (flight_key r') r = true <-> flight_key r = flight_key r').
Proof.
  intros [Hi Hc] [Hi' Hc']. unfold same_flight, flight_key. cbn [fst snd].
  rewrite andb_true_iff, (sql_eqb_plain _ _ Hi Hi'), (sql_eqb_plain _ _ Hc Hc').
  split; [intros [-> ->]; reflexivity | intros [= -> ->]; split; reflexivity].
Qed.

Lemma insert_row_plain_keys (ts : string) (ac : dict) (r : row) :
  insert_row ts ac = Ok r -> plain_keys r.
Proof.
  intros H. split.
  - destruct (insert_row_fields ts ac r H) as ((h & _ & ->) & _). right. eauto.
  - destruct (insert_row_callsign ts ac r H) as [->|(s & -> & _)]; [left | right]; eauto.
Qed.

Lemma reachable_plain_keys (st : state) : reachable st -> Forall plain_keys (positions st).
Proof.
  induction 1 as [| | clock l st _ IH | now st _ IH | st _ IH
                  | w data st _ IH | w data st _ IH].
  - constructor.
  - assumption.
  - destruct (save_aircraft clock l st) as [st' [n|e]] eqn:Hs; cbn [fst].
    + destruct (save_aircraft_ok _ _ _ _ _ Hs) as (rows & -> & _ & _ & Hall).
      apply List.Forall_app. split; [exact IH|].
      induction Hall as [|p r ps rs Hr _ IHrows]; constructor; [|exact IHrows].
      apply (insert_row_plain_keys _ _ _ Hr).
    + rewrite (save_aircraft_raise_rollback _ _ _ _ _ Hs). exact IH.
  - apply cleanup_old_records_keeps. exact IH.
  - rewrite api_clear_raises. exact IH.
  - rewrite api_settings_post_positions. exact IH.
  - rewrite api_userconfig_post_positions. exact IH.
Qed.

Lemma distinct_flights_complete (rows : list row) :
  Forall plain_keys rows ->
  forall r, In r rows -> In (flight_key r) (distinct_flights rows).
Proof.
  induction 1 as [|r0 rows H0 Hrows IH]; intros r Hin; [destruct Hin|].
  cbn [distinct_flights]. destruct Hin as [->|Hin]; [left; reflexivity|].
  destruct (same_flight (flight_key r) r0) eqn:Hs.
  - left. apply (same_flight_plain r0 r H0); [|exact Hs].
    apply (proj1 (List.Forall_forall _ _) Hrows r Hin).
  - right. apply List.filter_In. split; [apply (IH r Hin) | rewrite Hs; reflexivity].
Qed.

Lemma list_sum_filter_split {A : Type} (f : A -> nat) (p : A -> bool) (l : list A) :
  list_sum (List.map f l) =
  (list_sum (List.map f (List.filter p l))
   + list_sum (List.map f (List.filter (fun x => negb (p x)) l)))%nat.
Proof.
  unfold list_sum. induction l as [|x l IH]; [reflexivity|].
  cbn [List.map List.filter fold_right].
  destruct (p x); cbn [List.map fold_right negb]; lia.
Qed.

Lemma NoDup_all_equal {A : Type} (x : A) (l : list A) :
  List.NoDup l -> Forall (fun y => y = x) l -> l = [] \/ l = [x].
Proof.
  intros Hnd Hall. destruct l as [|y [|z l]]; [left; reflexivity| |].
  - right. rewrite (List.Forall_inv Hall). reflexivity.
  - exfalso. pose proof (List.Forall_inv Hall) as Hy.
    pose proof (List.Forall_inv (List.Forall_inv_tail Hall)) as Hz.
    apply List.NoDup_cons_iff in Hnd. apply (proj1 Hnd). left. congruence.
Qed.

(** The sizes of the groups add up to the number of rows. *)
Lemma group_sizes_add_up (rows : list row) :
  Forall plain_keys rows ->
  list_sum (List.map (fun k => length (List.filter (same_flight k) rows))
              (distinct_flights rows)) = length rows.
Proof.
  induction 1 as [|r rows Hr Hrows IH]; [reflexivity|].
  cbn [distinct_flights List.map list_sum fold_right List.filter length].
  rewrite same_flight_refl. cbn [length].
  set (f := fun k => length (List.filter (same_flight k) rows)) in *.
  assert (Hrest : List.map (fun k => length (if same_flight k r
                                             then r :: List.filter (same_flight k) rows
                                             else List.filter (same_flight k) rows))
                    (List.filter (fun k => negb (same_flight k r)) (distinct_flights rows))
                  = List.map f (List.filter (fun k => negb (same_flight k r))
                                  (distinct_flights rows))).
  { apply List.map_ext_in. intros k Hk. apply List.filter_In in Hk.
    destruct Hk as [_ Hk]. apply negb_true_iff in Hk. rewrite Hk. reflexivity. }
  rewrite Hrest.
  rewrite (list_sum_filter_split f (fun k => same_flight k r) (distinct_flights rows)) in IH.
  assert (Hsame : list_sum (List.map f (List.filter (fun k => same_flight k r)
                                          (distinct_flights rows)))
                  = f (flight_key r)).
  { assert (Heq : Forall (fun k => k = flight_key r)
                    (List.filter (fun k => same_flight k r) (distinct_flights rows))).
    { apply List.Forall_forall. intros k Hk. apply List.filter_In in Hk.
      destruct Hk as [Hk Hs].
      destruct (distinct_flights_from_rows rows k Hk) as (r' & Hin' & <-).
      symmetry. apply (same_flight_plain r r' Hr); [|exact Hs].
      apply (proj1 (List.Forall_forall _ _) Hrows r' Hin'). }
    destruct (NoDup_all_equal _ _ (List.NoDup_filter _ (distinct_flights_NoDup rows)) Heq)
      as [Hnil|Hone].
    - rewrite Hnil. cbn. unfold f.
      destruct (List.filter (same_flight (flight_key r)) rows) as [|r' g] eqn:Hg;
        [reflexivity|].
      exfalso.
      assert (Hin' : In r' (List.filter (same_flight (flight_key r)) rows))
        by (rewrite Hg; left; reflexivity).
      apply List.filter_In in Hin'. destruct Hin' as [Hin' Hs'].
      assert (Hp' : plain_keys r') by apply (proj1 (List.Forall_forall _ _) Hrows r' Hin').
      apply (same_flight_plain r' r Hp' Hr) in Hs'.
      assert (Hk : In (flight_key r')
                     (List.filter (fun k => same_flight k r) (distinct_flights rows))).
      { apply List.filter_In. split; [apply (distinct_flights_complete rows Hrows r' Hin')|].
        rewrite Hs'. apply same_flight_refl. }
      rewrite Hnil in Hk. destruct Hk.
    - rewrite Hone. cbn. lia. }
  rewrite Hsame in IH. unfold list_sum in *. subst f. cbv beta in *. lia.
Qed.

Lemma sum_positions_permutation (l l' : list flight_entry) :
  Permutation l l' -> sum_positions l = sum_positions l'.
Proof. unfold sum_positions. induction 1; cbn [fold_right] in *; lia. Qed.

Lemma sum_positions_groups (rows : list row) (keys : list (sqlval * sqlval)) :
  sum_positions (List.map (flight_group rows) keys)
  = Z.of_nat (list_sum (List.map (fun k => length (List.filter (same_flight k) rows)) keys)).
Proof.
  induction keys as [|k keys IH]; [reflexivity|].
  unfold sum_positions, list_sum in *. cbn [List.map fold_right].
  rewrite IH. cbn [flight_group fl_positions]. lia.
Qed.

(** X23. In every state the process can reach, with no limit (a
    negative one) every row that passes the filters of /api/flights is
    counted in exactly one entry: the position counts of the entries add
    up to the number of rows that pass. *)
Theorem api_flights_counts_add_up
    (icao_arg callsign_arg start_date end_date : option string) (s : string) (n : Z)
    (st : state) (entries : list flight_entry) :
  reachable st ->
  int_of_str s = Ok n -> n < 0 ->
  api_flights icao_arg callsign_arg start_date end_date (Some s) st = Ok entries ->
  sum_positions entries
  = Z.of_nat (length (List.filter
                        (flights_where icao_arg callsign_arg start_date end_date)
                        (positions st))).
Proof.
  intros Hreach Hn Hneg. unfold api_flights. rewrite Hn. cbn [result_bind].
  destruct (bind_param (PInt n)); [|discriminate]. cbn [result_bind].
  intros [= <-]. unfold sql_limit. destruct (Z.ltb_spec n 0); [|lia].
  rewrite (sum_positions_permutation _ _ (order_by_permutation _ _)).
  rewrite sum_positions_groups, group_sizes_add_up; [reflexivity|].
  apply List.Forall_forall. intros r Hr. apply List.filter_In in Hr.
  apply (proj1 (List.Forall_forall _ _) (reachable_plain_keys st Hreach) r (proj1 Hr)).
Qed.

Lemma api_flights_counts_add_up_witness :
  sum_positions
    [ {| fl_icao := SText "ABC123"; fl_callsign := SText "UAL1";
         fl_first_seen := "2024-06-01 12:00:00"; fl_last_seen := "2024-06-01 12:00:00";
         fl_positions := 1 |};
      {| fl_icao := SText ""; fl_callsign := SNull;
         fl_first_seen := "2024-06-01 12:00:00"; fl_last_seen := "2024-06-01 12:00:00";
         fl_positions := 1 |} ]
  = Z.of_nat (length (List.filter (flights_where None None None None)
                        (positions st_one_flight))).
Proof.
  apply (api_flights_counts_add_up None None None None "-1" (-1) st_one_flight).
  - apply (reachable_save sample_clock [ac_cruise; ac_no_hex] st_fresh (reachable_start 10 14)).
  - reflexivity.
  - lia.
  - vm_compute. reflexivity.
Defined.

(** ** What is stored can be read back *)

(** X24. A record that [save_aircraft] stored is read back at once:
    for each record with a position, whose [hex] is the string [h], the
    trace of [h], in any case of its letters, and the export hold a row
    with the timestamp of its insert, and the trace counts it; the
    point of the trace shows the row's timestamp, lat, lon, altitude,
    speed and track. *)
Theorem save_then_read_back (clock : nat -> string) (aircraft_list : list dict)
    (st st' : state) (n : Z) :
  save_aircraft clock aircraft_list st = (st', Ok n) ->
  forall (i : nat) (ac : dict) (h : string),
    In (i, ac) (positioned (enumerate_from 0 aircraft_list)) ->
    ac !! "hex" = Some (PStr h) ->
    exists r : row,
      timestamp r = clock i /\ icao r = SText (upper h)
      /\ In r (positions st')
      /\ In r (api_export_json None None st')
      /\ (forall q, same_up_to_case q h ->
            In (trace_point_of r) (tr_trace (api_trace q None None st'))
            /\ 1 <= tr_positions (api_trace q None None st')
            /\ exists p, In p (tr_trace (api_trace q None None st'))
                 /\ shows p r /\ tp_timestamp p = clock i).
Proof.
  intros Hs i ac h Hin Hhex.
  destruct (save_aircraft_ok _ _ _ _ _ Hs) as (rows & Hpos & _ & _ & Hall).
  destruct (Forall2_In_l _ _ _ _ Hall Hin) as (r & Hr & Hrow).
  unfold row_of in Hrow. cbn [fst snd] in Hrow.
  destruct (insert_row_fields _ _ _ Hrow) as ((h' & Hh' & Hicao) & _ & _ & _ & Hts).
  unfold py_get_default in Hh'. rewrite Hhex in Hh'. injection Hh' as <-.
  assert (Hst : In r (positions st')) by (rewrite Hpos; apply List.in_app_iff; right; exact Hr).
  exists r. split; [exact Hts|]. split; [exact Hicao|]. split; [exact Hst|]. split.
  - unfold api_export_json, export_rows.
    apply (Permutation_in _ (Permutation_sym (order_by_permutation _ _))).
    apply List.filter_In. split; [exact Hst | reflexivity].
  - intros q Hq. apply upper_eq_iff in Hq.
    assert (Htr : In r (trace_rows q None None st')).
    { unfold trace_rows.
      apply (Permutation_in _ (Permutation_sym (order_by_permutation _ _))).
      apply List.filter_In. split; [exact Hst|].
      unfold trace_where, icao_is. rewrite Hicao, Hq, String.eqb_refl. reflexivity. }
    unfold api_trace. cbn [tr_trace tr_positions]. split; [|split].
    + apply List.in_map. exact Htr.
    + rewrite length_map. destruct (trace_rows q None None st'); [destruct Htr|].
      cbn [length]. lia.
    + exists (trace_point_of r). split; [apply List.in_map; exact Htr|].
      split; [|exact Hts]. unfold shows, trace_point_of. cbn. repeat split.
Qed.

Lemma save_then_read_back_witness :
  exists r : row,
    timestamp r = sample_clock 0 /\ icao r = SText (upper "abc123")
    /\ In r (positions st_one_flight)
    /\ In r (api_export_json None None st_one_flight)
    /\ (forall q, same_up_to_case q "abc123" ->
          In (trace_point_of r) (tr_trace (api_trace q None None st_one_flight))
          /\ 1 <= tr_positions (api_trace q None None st_one_flight)
          /\ exists p, In p (tr_trace (api_trace q None None st_one_flight))
               /\ shows p r /\ tp_timestamp p = sample_clock 0).
Proof.
  apply (save_then_read_back sample_clock [ac_cruise; ac_no_hex] st_fresh st_one_flight 2
           ltac:(vm_compute; reflexivity) 0%nat ac_cruise "abc123").
  - left. reflexivity.
  - reflexivity.
Defined.

(** X25. After a sweep that returned, nothing that is read from the
    table is older than its cutoff: every row of an export or of a trace
    is a row of before the sweep that is not older than now minus the
    retention, and every point of a trace reply shows such a row. *)
Theorem sweep_then_read (now cutoff : datetime) (st st' : state) (k : Z) :
  0 < LOG_RETENTION_DAYS st ->
  datetime_sub now (LOG_RETENTION_DAYS st) 0 = Ok cutoff ->
  cleanup_old_records now st = (st', Ok k) ->
  (forall s e r, In r (api_export_json s e st') ->
     In r (positions st) /\ older_than (adapt_datetime cutoff) r = false)
  /\ (forall q s e r, In r (trace_rows q s e st') ->
        In r (positions st) /\ older_than (adapt_datetime cutoff) r = false)
  /\ (forall r d, snapshot_at r d -> In r (api_export_json None None st') ->
        datetime_leb cutoff d = true)
  /\ (forall q s e p, In p (tr_trace (api_trace q s e st')) ->
        exists r, shows p r /\ In r (positions st)
          /\ older_than (adapt_datetime cutoff) r = false).
Proof.
  intros Hpos Hcut Hrun. rewrite (cleanup_old_records_cutoff now cutoff st Hpos Hcut) in Hrun.
  injection Hrun as <- _.
  pose proof (datetime_sub_valid _ _ _ _ Hcut) as Hvalid.
  assert (Hkept : forall r, In r (positions (set_positions st
                     (List.filter (fun r => negb (older_than (adapt_datetime cutoff) r))
                        (positions st)))) ->
                  In r (positions st) /\ older_than (adapt_datetime cutoff) r = false).
  { intros r Hr. cbn [positions set_positions] in Hr. apply List.filter_In in Hr.
    destruct Hr as [Hin Hold]. apply negb_true_iff in Hold. auto. }
  assert (Hexp : forall s e r, In r (api_export_json s e (set_positions st
                     (List.filter (fun r => negb (older_than (adapt_datetime cutoff) r))
                        (positions st)))) ->
                 In r (positions st) /\ older_than (adapt_datetime cutoff) r = false).
  { intros s e r Hr. unfold api_export_json, export_rows in Hr.
    apply (Permutation_in _ (order_by_permutation _ _)) in Hr.
    apply List.filter_In in Hr. apply Hkept. tauto. }
  assert (Htrace : forall q s e r, In r (trace_rows q s e (set_positions st
                     (List.filter (fun r => negb (older_than (adapt_datetime cutoff) r))
                        (positions st)))) ->
                   In r (positions st) /\ older_than (adapt_datetime cutoff) r = false).
  { intros q s e r Hr. unfold trace_rows in Hr.
    apply (Permutation_in _ (order_by_permutation _ _)) in Hr.
    apply List.filter_In in Hr. apply Hkept. tauto. }
  split; [exact Hexp|]. split; [exact Htrace|]. split.
  - intros r d Hsnap Hr. destruct (Hexp _ _ _ Hr) as [_ Hold].
    rewrite (older_than_instants r d cutoff Hsnap Hvalid) in Hold.
    unfold datetime_ltb in Hold. unfold datetime_leb.
    rewrite datetime_compare_antisym. destruct (datetime_compare d cutoff);
      cbn; congruence.
  - intros q s e p Hp. unfold api_trace in Hp. cbn [tr_trace] in Hp.
    destruct (Forall2_In_l _ _ _ _ (trace_points_show _) Hp) as (r & Hr & Hshows).
    exists r. split; [exact Hshows|]. exact (Htrace q s e r Hr).
Qed.

Lemma sweep_then_read_witness :
  cleanup_old_records now_sample (st_two_rows 14)
  = (set_positions (st_two_rows 14) [row_13_days], Ok 1)
  /\ api_export_json None None (set_positions (st_two_rows 14) [row_13_days])
     = [row_13_days]
  /\ datetime_leb {| year := 2024; month := 6; day := 2; hour := 9; minute := 30;
                     second := 0; microsecond := 250000 |} days_ago_13 = true.
Proof.
  assert (Hrun : cleanup_old_records now_sample (st_two_rows 14)
                 = (set_positions (st_two_rows 14) [row_13_days], Ok 1))
    by (vm_compute; reflexivity).
  assert (Hexp : api_export_json None None
                   (set_positions (st_two_rows 14) [row_13_days]) = [row_13_days])
    by (vm_compute; reflexivity).
  split; [exact Hrun|]. split; [exact Hexp|].
  destruct (sweep_then_read now_sample
              {| year := 2024; month := 6; day := 2; hour := 9; minute := 30;
                 second := 0; microsecond := 250000 |}
              (st_two_rows 14) (set_positions (st_two_rows 14) [row_13_days]) 1
              ltac:(cbn; lia) ltac:(vm_compute; reflexivity) Hrun)
    as (_ & _ & Hinst & _).
  apply (Hinst row_13_days days_ago_13).
  - split; [|split]; vm_compute; reflexivity.
  - rewrite Hexp. left. reflexivity.
Defined.

(** ** Start-up *)

(** X26. The sweep of the start-up runs after [load_config]: it obeys
    the retention of the persisted document, not that of the
    environment, and runs even when the logger is persisted as paused.
    With a persisted retention of 0 no row is deleted at start-up
    whatever the environment says. *)
Theorem startup_sweep (env_interval env_retention : Z) (now : datetime)
    (left : state) (doc : config_doc) :
  config_file left = Some doc ->
  startup env_interval env_retention now left
  = cleanup_old_records now
      {| positions := positions left; total_logged := 0;
         LOG_INTERVAL := cfg_interval doc;
         LOG_RETENTION_DAYS := cfg_retention_days doc;
         logger_paused := cfg_paused doc; config_file := Some doc;
         user_config_file := user_config_file left |}
  /\ (cfg_retention_days doc = 0 ->
      positions (fst (startup env_interval env_retention now left)) = positions left
      /\ snd (startup env_interval env_retention now left) = Ok 0)
  /\ logger_paused (fst (startup env_interval env_retention now left)) = cfg_paused doc.
Proof.
  intros Hdoc.
  assert (Hs : startup env_interval env_retention now left
               = cleanup_old_records now
                   {| positions := positions left; total_logged := 0;
                      LOG_INTERVAL := cfg_interval doc;
                      LOG_RETENTION_DAYS := cfg_retention_days doc;
                      logger_paused := cfg_paused doc; config_file := Some doc;
                      user_config_file := user_config_file left |}).
  { unfold startup, load_config, boot. cbn. rewrite Hdoc. reflexivity. }
  split; [exact Hs|]. split.
  - intros H0. rewrite Hs. unfold cleanup_old_records. cbn [LOG_RETENTION_DAYS].
    rewrite H0. cbn. split; reflexivity.
  - rewrite Hs.
    rewrite (proj1 (proj2 (proj2 (proj2 (cleanup_old_records_settings now _))))).
    reflexivity.
Qed.

Lemma startup_sweep_witness :
  positions (fst (startup 10 14 now_sample
                    (set_config_file (st_two_rows 14)
                       (Some {| cfg_interval := 10; cfg_retention_days := 0;
                                cfg_paused := true |}))))
  = positions (set_config_file (st_two_rows 14)
                 (Some {| cfg_interval := 10; cfg_retention_days := 0;
                          cfg_paused := true |}))
  /\ snd (startup 10 14 now_sample
            (set_config_file (st_two_rows 14)
               (Some {| cfg_interval := 10; cfg_retention_days := 0;
                        cfg_paused := true |}))) = Ok 0.
Proof.
  apply (proj1 (proj2 (startup_sweep 10 14 now_sample
           (set_config_file (st_two_rows 14)
              (Some {| cfg_interval := 10; cfg_retention_days := 0; cfg_paused := true |}))
           {| cfg_interval := 10; cfg_retention_days := 0; cfg_paused := true |}
           eq_refl))).
  reflexivity.
Defined.

Lemma get_stats_bounds_witness :
  Forall (fun r => String.leb "2024-06-01 12:00:00" (timestamp r) = true)
    (positions st_three_rows).
Proof.
  apply (proj1 (proj2 (proj2 (proj2 (get_stats_bounds st_three_rows))))
           "2024-06-01 12:00:00").
  reflexivity.
Defined.

Lemma api_export_rows_witness :
  In (position_row "2024-06-01 12:03:00" "4CA7B5" (S754_finite false 5 0)
        (S754_finite false 15 1) 3000)
     (api_export_json None None st_three_rows).
Proof.
  apply (proj2 (proj2 (proj2 (proj2 (proj2 (api_export_rows None None st_three_rows)))))
           "4ca7b5").
  vm_compute. left. reflexivity.
Defined.
